(** * QRKirana: recurring-delivery scheduler and credit ledger

    A shallow embedding of the two pieces of business logic of the
    QRKirana platform that carry state transitions:

    - [calculateNextDelivery] (src/app/api/deliveries/route.ts and its
      copies in the subscription routes), and
    - the credit ledger handlers (src/app/api/credit/transactions/route.ts,
      the credit-account creation handler, [processCreditPayment] of
      src/app/api/payments/route.ts and the two [calculateCreditScore]).

    Modelling conventions.
    - A JavaScript [Date] is its time value: [Some t] with [t] the number
      of milliseconds since the epoch, or [None] for an Invalid Date (time
      value NaN).  Time values are mathematical integers; the clip of
      [Date] to +-8.64e15 ms is outside the model.
    - The local time zone is a fixed offset [LocalTZA] (milliseconds);
      daylight-saving transitions are outside the model.
    - Monetary amounts and counters (JavaScript numbers, Prisma [Float]
      and [Int] columns) are integers with exact arithmetic.
    - The clock ([new Date()], [Date.now()]) is an explicit argument. *)

From Stdlib Require Import ZArith Lia String Ascii List Bool.
From stdpp Require Import base option gmap strings fin_maps.

Open Scope Z_scope.

(** ** JavaScript string primitives used by the scheduler *)

Module JsString.

(** Code units stripped by [String.prototype.trim] and skipped by
    [Number] (ASCII part: TAB, LF, VT, FF, CR, SP). *)
Definition isWhiteSpace (c : ascii) : bool :=
  let n := N_of_ascii c in
  ((9 <=? n)%N && (n <=? 13)%N) || (n =? 32)%N.

Definition isDigit (c : ascii) : bool :=
  let n := N_of_ascii c in (48 <=? n)%N && (n <=? 57)%N.

Definition digitValue (c : ascii) : Z := Z.of_N (N_of_ascii c) - 48.

Fixpoint trimStart (s : string) : string :=
  match s with
  | EmptyString => EmptyString
  | String c r => if isWhiteSpace c then trimStart r else s
  end.

Fixpoint trimEnd (s : string) : string :=
  match s with
  | EmptyString => EmptyString
  | String c r =>
      match trimEnd r with
      | EmptyString => if isWhiteSpace c then EmptyString else String c EmptyString
      | r' => String c r'
      end
  end.

(** [s.trim()] *)
Definition trim (s : string) : string := trimEnd (trimStart s).

Definition toLowerChar (c : ascii) : ascii :=
  let n := N_of_ascii c in
  if (65 <=? n)%N && (n <=? 90)%N then ascii_of_N (n + 32) else c.

(** [s.toLowerCase()] on ASCII text *)
Fixpoint toLowerCase (s : string) : string :=
  match s with
  | EmptyString => EmptyString
  | String c r => String (toLowerChar c) (toLowerCase r)
  end.

(** [s.split(sep)] for a one-character separator: never the empty list;
    [''.split(sep)] is [['']]. *)
Fixpoint split (sep : ascii) (s : string) : list string :=
  match s with
  | EmptyString => [EmptyString]
  | String c r =>
      if Ascii.eqb c sep then EmptyString :: split sep r
      else match split sep r with
           | h :: t => String c h :: t
           | [] => [String c EmptyString]
           end
  end.

(** [arr.includes(x)] where [x] may be [undefined] ([None]). *)
Definition includes (arr : list string) (x : option string) : bool :=
  match x with
  | Some v => existsb (String.eqb v) arr
  | None => false
  end.

(** A JavaScript number as the scheduler uses it: an integer, or [None]
    for NaN (and for [undefined] converted by [ToNumber]). *)
Definition JsNumber := option Z.

Fixpoint parseDigits (acc : Z) (s : string) : JsNumber :=
  match s with
  | EmptyString => Some acc
  | String c r =>
      if isDigit c then parseDigits (10 * acc + digitValue c) r else None
  end.

(** [Number(s)] on a string: surrounding white space is ignored, the
    empty string is 0, an optionally signed run of decimal digits is its
    value, and anything else recognised here is NaN.  Literals with a
    fraction, an exponent, a radix prefix or [Infinity] are not
    recognised by this model; the scheduler theorems that quantify over
    every string are first proved for every numeric outcome
    ([calculateNextDeliveryAt]). *)
Definition Number (s : string) : JsNumber :=
  match trim s with
  | EmptyString => Some 0
  | String c r =>
      if Ascii.eqb c "+" then
        match r with EmptyString => None | _ => parseDigits 0 r end
      else if Ascii.eqb c "-" then
        match r with
        | EmptyString => None
        | _ => option_map Z.opp (parseDigits 0 r)
        end
      else parseDigits 0 (String c r)
  end.

End JsString.

(** ** The part of ECMAScript [Date] used by the scheduler *)

Module JsDate.

Definition msPerDay : Z := 86400000.
Definition msPerHour : Z := 3600000.
Definition msPerMinute : Z := 60000.
Definition msPerSecond : Z := 1000.

(** [Some t]: time value [t]; [None]: Invalid Date. *)
Definition Date := option Z.

Definition Day (t : Z) : Z := t / msPerDay.
Definition TimeWithinDay (t : Z) : Z := t mod msPerDay.
(** 0 = Sunday; the epoch was a Thursday. *)
Definition WeekDay (t : Z) : Z := (Day t + 4) mod 7.

Definition MakeTime (hour min sec ms : JsString.JsNumber) : option Z :=
  match hour, min, sec, ms with
  | Some h, Some m, Some s, Some milli =>
      Some (h * msPerHour + m * msPerMinute + s * msPerSecond + milli)
  | _, _, _, _ => None
  end.

Definition MakeDate (day : Z) (time : option Z) : option Z :=
  match time with
  | Some tm => Some (day * msPerDay + tm)
  | None => None
  end.

Section LocalZone.

(** Offset of local time from UTC, in milliseconds. *)
Variable LocalTZA : Z.

Definition LocalTime (t : Z) : Z := t + LocalTZA.
Definition UTC (t : Z) : Z := t - LocalTZA.

(** [d.setHours(hour, min, sec, ms)] with all four arguments given;
    the result is the new state of [d]. *)
Definition setHours (d : Date) (hour min sec ms : JsString.JsNumber) : Date :=
  match d with
  | None => None
  | Some t =>
      let lt := LocalTime t in
      match MakeDate (Day lt) (MakeTime hour min sec ms) with
      | Some date => Some (UTC date)
      | None => None
      end
  end.

(** [d.setDate(d.getDate() + k)].  [setDate(dt)] rebuilds the date as
    [MakeDate(MakeDay(year, month, dt), TimeWithinDay(t))] in local
    time, and [MakeDay(year, month, DateFromTime(t) + k)] is the day
    number [Day(t) + k]: the calendar fields cancel, so the model
    works on day numbers. *)
Definition addDays (d : Date) (k : Z) : Date :=
  match d with
  | None => None
  | Some t =>
      let lt := LocalTime t in
      match MakeDate (Day lt + k) (Some (TimeWithinDay lt)) with
      | Some date => Some (UTC date)
      | None => None
      end
  end.

(** [d.getDay()]: [None] is NaN. *)
Definition getDay (d : Date) : option Z :=
  match d with
  | None => None
  | Some t => Some (WeekDay (LocalTime t))
  end.

End LocalZone.

(** Relational operators on dates compare time values; every
    comparison with an Invalid Date is false. *)
Definition ltb (a b : Date) : bool :=
  match a, b with Some x, Some y => x <? y | _, _ => false end.
Definition leb (a b : Date) : bool :=
  match a, b with Some x, Some y => x <=? y | _, _ => false end.
Definition gtb (a b : Date) : bool :=
  match a, b with Some x, Some y => y <? x | _, _ => false end.

End JsDate.

(** ** src/app/api/deliveries/route.ts: [calculateNextDelivery] *)

Module Deliveries.
Import JsString JsDate.

Definition dayNames : list string :=
  ["sunday"; "monday"; "tuesday"; "wednesday"; "thursday"; "friday";
   "saturday"]%string.

(** [dayNames[i]] for a number [i]; [undefined] out of range or at NaN. *)
Definition dayName (i : option Z) : option string :=
  match i with
  | Some n => if n <? 0 then None else nth_error dayNames (Z.to_nat n)
  | None => None
  end.

(** [deliveryTime.split(':').map(Number)] destructured as
    [[hours, minutes]]: a missing element is [undefined], which
    [setHours] converts to NaN. *)
Definition parseDeliveryTime (deliveryTime : string) : JsNumber * JsNumber :=
  let parts := map Number (split ":"%char deliveryTime) in
  (match nth_error parts 0 with Some h => h | None => None end,
   match nth_error parts 1 with Some m => m | None => None end).

(** A character class [[lo-hi]] given by its code units. *)
Definition inRange (lo hi : N) (c : ascii) : bool :=
  let n := N_of_ascii c in (lo <=? n)%N && (n <=? hi)%N.

(** The zod pattern of the subscription schema,
    [/^([0-1]?[0-9]|2[0-3]):[0-5][0-9]$/]: the well-formed [HH:MM]
    values a stored [deliveryTime] can have. *)
Definition validDeliveryTime (s : string) : bool :=
  match s with
  | String a (String b (String c (String d EmptyString))) =>
      isDigit a && Ascii.eqb b ":" && inRange 48 53 c && isDigit d
  | String a (String b (String c (String d (String e EmptyString)))) =>
      ((inRange 48 49 a && isDigit b) || (Ascii.eqb a "2" && inRange 48 51 b))
      && Ascii.eqb c ":" && inRange 48 53 d && isDigit e
  | _ => false
  end.

(** [deliveryDays.split(',').map(d => d.trim().toLowerCase())] *)
Definition parseDeliveryDays (deliveryDays : string) : list string :=
  map (fun d => toLowerCase (trim d)) (split ","%char deliveryDays).

Section Schedule.

Variable LocalTZA : Z.
(** The instant read by [const now = new Date()]. *)
Variable now : Z.

(** [while (nextDate <= now) nextDate.setDate(nextDate.getDate() + 1)].
    [fuel] bounds the number of iterations; [None] is fuel exhausted. *)
Fixpoint dailyLoop (fuel : nat) (nextDate : Date) : option Date :=
  if leb nextDate (Some now) then
    match fuel with
    | O => None
    | S fuel' => dailyLoop fuel' (addDays LocalTZA nextDate 1)
    end
  else Some nextDate.

(** [while (nextDate <= now) nextDate.setDate(nextDate.getDate() + 7)] *)
Fixpoint weeklyLoop (fuel : nat) (nextDate : Date) : option Date :=
  if leb nextDate (Some now) then
    match fuel with
    | O => None
    | S fuel' => weeklyLoop fuel' (addDays LocalTZA nextDate 7)
    end
  else Some nextDate.

(** The [custom] loop: advance one day, [continue] when the weekday is
    not in [days], [break] when the candidate is after [now]. *)
Fixpoint customLoop (days : list string) (fuel : nat) (nextDate : Date)
  : option Date :=
  if leb nextDate (Some now) then
    match fuel with
    | O => None
    | S fuel' =>
        let nextDate := addDays LocalTZA nextDate 1 in
        let dayOfWeek := dayName (getDay LocalTZA nextDate) in
        if negb (includes days dayOfWeek) then customLoop days fuel' nextDate
        else if gtb nextDate (Some now) then Some nextDate
        else customLoop days fuel' nextDate
    end
  else Some nextDate.

(** The body of [calculateNextDelivery] after
    [const [hours, minutes] = deliveryTime.split(':').map(Number)]. *)
Definition calculateNextDeliveryAt (fuel : nat) (frequency : string)
    (hours minutes : JsNumber) (deliveryDays : option string)
    (startDate : Date) : option Date :=
  let nextDate := startDate in
  let nextDate := if ltb startDate (Some now) then Some now else nextDate in
  let nextDate := setHours LocalTZA nextDate hours minutes (Some 0) (Some 0) in
  let nextDate :=
    if leb nextDate (Some now) then addDays LocalTZA nextDate 1 else nextDate in
  if String.eqb frequency "daily" then dailyLoop fuel nextDate
  else if String.eqb frequency "weekly" then weeklyLoop fuel nextDate
  else if String.eqb frequency "custom" then
    match deliveryDays with
    | Some dd =>
        if String.eqb dd EmptyString then Some nextDate
        else customLoop (parseDeliveryDays dd) fuel nextDate
    | None => Some nextDate
    end
  else Some nextDate.

(** [calculateNextDelivery(frequency, deliveryTime, deliveryDays,
    startDate)]; [deliveryDays = None] is [null]. *)
Definition calculateNextDelivery (fuel : nat) (frequency deliveryTime : string)
    (deliveryDays : option string) (startDate : Date) : option Date :=
  let '(hours, minutes) := parseDeliveryTime deliveryTime in
  calculateNextDeliveryAt fuel frequency hours minutes deliveryDays startDate.

End Schedule.

(** The candidate the function holds when it reaches the [switch]: the
    later of [startDate] and [now], moved to the delivery time of its
    local calendar day, and one day later when that is not after [now]. *)
Definition firstCandidate (tz now h m s : Z) : Z :=
  let t := if s <? now then now else s in
  let c := Day (t + tz) * msPerDay + (h * msPerHour + m * msPerMinute) - tz in
  if c <=? now then c + msPerDay else c.

End Deliveries.

(** ** Request bodies and the zod schemas of the credit routes *)

Module Json.

(** A parsed JSON document ([await request.json()]).  Numbers are
    integers (see the conventions at the top of the file). *)
#[local] Unset Elimination Schemes.
Inductive value :=
| Null
| Bool (b : bool)
| Num (n : Z)
| Str (s : string)
| Arr (items : list value)
| Obj (fields : list (string * value)).
#[local] Set Elimination Schemes.

(** [obj[key]]; [None] is [undefined].  [JSON.parse] keeps the last of
    several members with one key. *)
Fixpoint member (key : string) (fields : list (string * value)) : option value :=
  match fields with
  | [] => None
  | (k, v) :: rest =>
      match member key rest with
      | Some v' => Some v'
      | None => if String.eqb key k then Some v else None
      end
  end.

(** JavaScript truthiness, as used by [x || null]. *)
Definition truthy (v : value) : bool :=
  match v with
  | Null => false
  | Bool b => b
  | Num n => negb (n =? 0)
  | Str s => negb (String.eqb s EmptyString)
  | Arr _ | Obj _ => true
  end.

(** [z.string()] *)
Definition zString (v : option value) : option string :=
  match v with Some (Str s) => Some s | _ => None end.

(** [z.string().optional()]: the outer option is the validation result. *)
Definition zStringOptional (v : option value) : option (option string) :=
  match v with
  | None => Some None
  | Some (Str s) => Some (Some s)
  | Some _ => None
  end.

(** [z.number()] *)
Definition zNumber (v : option value) : option Z :=
  match v with Some (Num n) => Some n | _ => None end.

(** [z.number().min(0, ...)] *)
Definition zNumberMin0 (v : option value) : option Z :=
  match v with
  | Some (Num n) => if 0 <=? n then Some n else None
  | _ => None
  end.

End Json.

(** ** The credit tables *)

Inductive TransactionType := CREDIT | DEBIT | PAYMENT | ADJUSTMENT | INTEREST | FEE.

Module CreditAccount.
Record t := mk {
  id : string;
  customerId : string;
  shopId : string;
  creditLimit : Z;
  currentBalance : Z;
  availableCredit : Z;
  creditScore : Z;
  isActive : bool;
  dueDate : option Z;
  lastPaymentDate : option Z;
  updatedAt : Z
}.
End CreditAccount.

Module CreditTransaction.
Record t := mk {
  accountId : string;
  type : TransactionType;
  amount : Z;
  balance : Z;
  description : option string;
  reference : option string;
  metadata : option Json.value;
  createdAt : Z
}.
End CreditTransaction.

Module Customer.
Record t := mk {
  id : string;
  shopId : string;
  totalOrders : Z;
  totalSpent : Z;
  (** [createdAt] of the customer's orders when the query includes
      them; [None] when [customer.orders] is [undefined]. *)
  orders : option (list Z)
}.
End Customer.

Module CreditSettings.
Record t := mk {
  minCreditScore : Z;
  gracePeriod : Z
}.
End CreditSettings.

(** The database as the credit routes see it.  Accounts and customers are
    keyed by their primary key [id], the settings rows by [shopId]; the
    ledger is the list of rows in insertion order. *)
Record Db := mkDb {
  creditAccounts : gmap string CreditAccount.t;
  creditTransactions : list CreditTransaction.t;
  customers : gmap string Customer.t;
  creditSettings : gmap string CreditSettings.t
}.

(** What a handler hands to [NextResponse.json]. *)
Inductive Response :=
| Message (status : Z) (message : string)
| TransactionProcessed (transaction : CreditTransaction.t)
    (currentBalance availableCredit creditScore : Z)
| AccountCreated (account : CreditAccount.t).

Definition isSuccess (r : Response) : bool :=
  match r with
  | Message _ _ => false
  | TransactionProcessed _ _ _ _ | AccountCreated _ => true
  end.

(** ** src/app/api/credit/transactions/route.ts *)

Module CreditTransactions.

(** The value of [transactionSchema.parse(body)]. *)
Module ValidatedData.
Record t := mk {
  accountId : string;
  type : TransactionType;
  amount : Z;
  description : option string;
  reference : option string;
  metadata : option Json.value
}.
End ValidatedData.

(** [z.enum(['CREDIT', 'DEBIT', 'PAYMENT', 'ADJUSTMENT', 'INTEREST', 'FEE'])] *)
Definition zTransactionType (v : option Json.value) : option TransactionType :=
  match v with
  | Some (Json.Str s) =>
      if String.eqb s "CREDIT" then Some CREDIT
      else if String.eqb s "DEBIT" then Some DEBIT
      else if String.eqb s "PAYMENT" then Some PAYMENT
      else if String.eqb s "ADJUSTMENT" then Some ADJUSTMENT
      else if String.eqb s "INTEREST" then Some INTEREST
      else if String.eqb s "FEE" then Some FEE
      else None
  | _ => None
  end.

(** The spelling of a transaction type in a request body. *)
Definition typeName (ty : TransactionType) : string :=
  match ty with
  | CREDIT => "CREDIT"
  | DEBIT => "DEBIT"
  | PAYMENT => "PAYMENT"
  | ADJUSTMENT => "ADJUSTMENT"
  | INTEREST => "INTEREST"
  | FEE => "FEE"
  end.

(** The request body [{ accountId, type, amount }]. *)
Definition requestBody (accountId : string) (ty : TransactionType) (amount : Z)
  : Json.value :=
  Json.Obj [("accountId"%string, Json.Str accountId);
            ("type"%string, Json.Str (typeName ty));
            ("amount"%string, Json.Num amount)].

(** [transactionSchema.parse]: [None] stands for the thrown [ZodError].
    [amount] is [z.number()], with no bound. *)
Definition transactionSchema (body : Json.value) : option ValidatedData.t :=
  match body with
  | Json.Obj fields =>
      match Json.zString (Json.member "accountId" fields),
            zTransactionType (Json.member "type" fields),
            Json.zNumber (Json.member "amount" fields),
            Json.zStringOptional (Json.member "description" fields),
            Json.zStringOptional (Json.member "reference" fields)
      with
      | Some a, Some ty, Some n, Some d, Some r =>
          Some (ValidatedData.mk a ty n d r (Json.member "metadata" fields))
      | _, _, _, _, _ => None
      end
  | _ => None
  end.

(** [calculateCreditScore(customer, settings)] of this route (the
    credit-account route carries the same text). *)
Definition calculateCreditScore (customer : Customer.t)
    (settings : option CreditSettings.t) : Z :=
  let score := 100 in
  let score :=
    if Customer.totalOrders customer <? 5 then score - 10
    else if Customer.totalOrders customer <? 10 then score - 5
    else score in
  let score :=
    if Customer.totalSpent customer <? 1000 then score - 15
    else if Customer.totalSpent customer <? 5000 then score - 8
    else if Customer.totalSpent customer <? 10000 then score - 3
    else score in
  let score :=
    if Customer.totalSpent customer >? 50000 then score + 10
    else if Customer.totalSpent customer >? 20000 then score + 5
    else score in
  let score :=
    match settings with
    | Some st =>
        if score <? CreditSettings.minCreditScore st
        then CreditSettings.minCreditScore st else score
    | None => score
    end in
  Z.min 100 (Z.max 0 score).

(** The [switch (validatedData.type)] of [POST], acting on
    [(newBalance, newAvailableCredit)]. *)
Definition applyType (ty : TransactionType) (amount : Z)
    (newBalance newAvailableCredit : Z) : Z * Z :=
  match ty with
  | CREDIT => (newBalance + amount, newAvailableCredit + amount)
  | DEBIT => (newBalance - amount, newAvailableCredit - amount)
  | PAYMENT => (newBalance - amount, newAvailableCredit + amount)
  | ADJUSTMENT => (amount, amount)
  | INTEREST => (newBalance + amount, newAvailableCredit)
  | FEE => (newBalance - amount, newAvailableCredit)
  end.

Definition isPayment (ty : TransactionType) : bool :=
  match ty with PAYMENT => true | _ => false end.

(** [data: { currentBalance, availableCredit, updatedAt }] on a row. *)
Definition setBalances (newBalance newAvailableCredit updated : Z)
    (a : CreditAccount.t) : CreditAccount.t :=
  CreditAccount.mk (CreditAccount.id a) (CreditAccount.customerId a)
    (CreditAccount.shopId a) (CreditAccount.creditLimit a)
    newBalance newAvailableCredit (CreditAccount.creditScore a)
    (CreditAccount.isActive a) (CreditAccount.dueDate a)
    (CreditAccount.lastPaymentDate a) updated.

(** [data: updateData], where each of [lastPaymentDate] and
    [creditScore] is set only when present. *)
Definition setUpdateData (lastPaymentDate creditScore : option Z)
    (a : CreditAccount.t) : CreditAccount.t :=
  CreditAccount.mk (CreditAccount.id a) (CreditAccount.customerId a)
    (CreditAccount.shopId a) (CreditAccount.creditLimit a)
    (CreditAccount.currentBalance a) (CreditAccount.availableCredit a)
    (match creditScore with Some sc => sc | None => CreditAccount.creditScore a end)
    (CreditAccount.isActive a) (CreditAccount.dueDate a)
    (match lastPaymentDate with
     | Some d => Some d
     | None => CreditAccount.lastPaymentDate a
     end)
    (CreditAccount.updatedAt a).

(** [db.creditAccount.findFirst({ where: { id, shopId } })] *)
Definition findAccount (id shop : string) (db : Db) : option CreditAccount.t :=
  match creditAccounts db !! id with
  | Some a => if String.eqb (CreditAccount.shopId a) shop then Some a else None
  | None => None
  end.

(** [db.creditAccount.update({ where: { id }, data })] *)
Definition updateAccount (id : string) (f : CreditAccount.t -> CreditAccount.t)
    (db : Db) : Db :=
  mkDb (alter f id (creditAccounts db)) (creditTransactions db)
    (customers db) (creditSettings db).

(** [if (Object.keys(updateData).length > 0)
      await db.creditAccount.update({ where: { id }, data: updateData })] *)
Definition updateIfAny (id : string) (lastPaymentDate creditScore : option Z)
    (db : Db) : Db :=
  match lastPaymentDate, creditScore with
  | None, None => db
  | _, _ => updateAccount id (setUpdateData lastPaymentDate creditScore) db
  end.

(** [db.creditTransaction.create({ data })] *)
Definition createTransaction (tx : CreditTransaction.t) (db : Db) : Db :=
  mkDb (creditAccounts db) (creditTransactions db ++ [tx])
    (customers db) (creditSettings db).

(** [POST(request)].  [auth] is the outcome of [verifyAuth] (the shop id
    of a verified token), [body] the parsed request body, [now] the
    clock.  The result is the response and the database afterwards. *)
Definition POST (auth : option string) (body : Json.value) (now : Z) (db : Db)
  : Response * Db :=
  match auth with
  | None => (Message 401 "Unauthorized", db)
  | Some shop =>
  match transactionSchema body with
  | None => (Message 400 "Validation error", db)
  | Some validatedData =>
  match findAccount (ValidatedData.accountId validatedData) shop db with
  | None => (Message 404 "Credit account not found", db)
  | Some creditAccount =>
  if negb (CreditAccount.isActive creditAccount)
  then (Message 400 "Credit account is not active", db)
  else
    let '(newBalance, newAvailableCredit) :=
      applyType (ValidatedData.type validatedData)
        (ValidatedData.amount validatedData)
        (CreditAccount.currentBalance creditAccount)
        (CreditAccount.availableCredit creditAccount) in
    if newBalance >? CreditAccount.creditLimit creditAccount
    then (Message 400 "Transaction would exceed credit limit", db)
    else
      let newAvailableCredit :=
        if newAvailableCredit >? CreditAccount.creditLimit creditAccount
        then CreditAccount.creditLimit creditAccount
        else newAvailableCredit in
      let transaction :=
        CreditTransaction.mk (ValidatedData.accountId validatedData)
          (ValidatedData.type validatedData)
          (ValidatedData.amount validatedData)
          newBalance
          (ValidatedData.description validatedData)
          (ValidatedData.reference validatedData)
          (match ValidatedData.metadata validatedData with
           | Some v => if Json.truthy v then Some v else None
           | None => None
           end)
          now in
      let db := createTransaction transaction db in
      let updatedAccount := setBalances newBalance newAvailableCredit now creditAccount in
      let db :=
        updateAccount (ValidatedData.accountId validatedData)
          (setBalances newBalance newAvailableCredit now) db in
      let lastPaymentDate :=
        if isPayment (ValidatedData.type validatedData) then Some now else None in
      let creditScore :=
        if isPayment (ValidatedData.type validatedData) then
          match customers db !! CreditAccount.customerId creditAccount with
          | Some customer =>
              let newCreditScore :=
                calculateCreditScore customer (creditSettings db !! shop) in
              if newCreditScore =? CreditAccount.creditScore creditAccount
              then None else Some newCreditScore
          | None => None
          end
        else None in
      let db :=
        updateIfAny (ValidatedData.accountId validatedData)
          lastPaymentDate creditScore db in
      (TransactionProcessed transaction
         (CreditAccount.currentBalance updatedAccount)
         (CreditAccount.availableCredit updatedAccount)
         (CreditAccount.creditScore updatedAccount), db)
  end end end.

End CreditTransactions.

(** ** The credit-account route (creation of an account) *)

Module CreditAccounts.

(** The value of [createCreditAccountSchema.parse(body)]. *)
Module ValidatedData.
Record t := mk {
  customerId : string;
  shopId : string;
  creditLimit : Z
}.
End ValidatedData.

Definition createCreditAccountSchema (body : Json.value) : option ValidatedData.t :=
  match body with
  | Json.Obj fields =>
      match Json.zString (Json.member "customerId" fields),
            Json.zString (Json.member "shopId" fields),
            Json.zNumberMin0 (Json.member "creditLimit" fields)
      with
      | Some c, Some s, Some l => Some (ValidatedData.mk c s l)
      | _, _, _ => None
      end
  | _ => None
  end.

(** The request body [{ customerId, shopId, creditLimit }]. *)
Definition requestBody (customerId shopId : string) (creditLimit : Z) : Json.value :=
  Json.Obj [("customerId"%string, Json.Str customerId);
            ("shopId"%string, Json.Str shopId);
            ("creditLimit"%string, Json.Num creditLimit)].

(** This route's [calculateCreditScore] has the text of the one in the
    transactions route. *)
Definition calculateCreditScore := CreditTransactions.calculateCreditScore.

(** [db.customer.findFirst({ where: { id, shopId } })] *)
Definition findCustomer (id shop : string) (db : Db) : option Customer.t :=
  match customers db !! id with
  | Some c => if String.eqb (Customer.shopId c) shop then Some c else None
  | None => None
  end.

(** Whether [db.creditAccount.findFirst({ where: { customerId, shopId } })]
    finds a row. *)
Definition existingAccount (customer shop : string) (db : Db) : bool :=
  existsb
    (fun kv =>
       String.eqb (CreditAccount.customerId (snd kv)) customer
       && String.eqb (CreditAccount.shopId (snd kv)) shop)
    (map_to_list (creditAccounts db)).

Section Schema.

(** The Prisma schema is not among the sources.  The handler leaves
    [currentBalance] to the column default, which is this parameter. *)
Variable currentBalanceDefault : Z.

(** [POST(request)]: [newId] is the primary key the database gives
    the new account row. *)
Definition POST (auth : option string) (body : Json.value) (now : Z)
    (newId : string) (db : Db) : Response * Db :=
  match auth with
  | None => (Message 401 "Unauthorized", db)
  | Some shop =>
  match createCreditAccountSchema body with
  | None => (Message 400 "Validation error", db)
  | Some validatedData =>
  if negb (String.eqb (ValidatedData.shopId validatedData) shop)
  then (Message 401 "Unauthorized: Shop ID mismatch", db)
  else
  match findCustomer (ValidatedData.customerId validatedData)
          (ValidatedData.shopId validatedData) db with
  | None => (Message 404 "Customer not found", db)
  | Some customer =>
  if existingAccount (ValidatedData.customerId validatedData)
       (ValidatedData.shopId validatedData) db
  then (Message 400 "Credit account already exists for this customer", db)
  else
    let settings :=
      creditSettings db !! ValidatedData.shopId validatedData in
    let creditScore := calculateCreditScore customer settings in
    let creditAccount :=
      CreditAccount.mk newId
        (ValidatedData.customerId validatedData)
        (ValidatedData.shopId validatedData)
        (ValidatedData.creditLimit validatedData)
        currentBalanceDefault
        (ValidatedData.creditLimit validatedData)
        creditScore
        true
        (match settings with
         | Some st =>
             Some (now + CreditSettings.gracePeriod st * 24 * 60 * 60 * 1000)
         | None => None
         end)
        None
        now in
    let db :=
      mkDb (<[newId := creditAccount]> (creditAccounts db))
        (creditTransactions db) (customers db) (creditSettings db) in
    let db :=
      CreditTransactions.createTransaction
        (CreditTransaction.mk newId CREDIT
           (ValidatedData.creditLimit validatedData)
           (ValidatedData.creditLimit validatedData)
           (Some "Initial credit limit setup"%string)
           None
           (Some (Json.Obj [("initialSetup"%string, Json.Bool true);
                            ("creditScore"%string, Json.Num creditScore)]))
           now) db in
    (AccountCreated creditAccount, db)
  end end end.

End Schema.

End CreditAccounts.

(** ** The credit-scoring route *)

Module CreditScoring.

(** [customer.orders?.filter(order => daysSinceOrder <= 30) || []],
    with [daysSinceOrder = (now - createdAt) / (1000 * 60 * 60 * 24)]
    read exactly: [daysSinceOrder <= 30] iff
    [now - createdAt <= 30 * 86400000]. *)
Definition recentOrders (now : Z) (customer : Customer.t) : list Z :=
  match Customer.orders customer with
  | Some os => List.filter (fun createdAt => now - createdAt <=? 30 * 86400000) os
  | None => []
  end.

(** [calculateCreditScore(customer, settings)] of the scoring route.
    [avgOrderValue = totalSpent / orderCount] is read exactly:
    [avgOrderValue < k] iff [totalSpent < k * orderCount] for a positive
    [orderCount], and [avgOrderValue] is 0 otherwise. *)
Definition calculateCreditScore (now : Z) (customer : Customer.t)
    (settings : option CreditSettings.t) : Z :=
  let score := 100 in
  let orderCount := Customer.totalOrders customer in
  let score :=
    if orderCount <? 5 then score - 15
    else if orderCount <? 10 then score - 8
    else if orderCount <? 20 then score - 3
    else if orderCount >=? 50 then score + 5
    else score in
  let totalSpent := Customer.totalSpent customer in
  let score :=
    if totalSpent <? 1000 then score - 20
    else if totalSpent <? 5000 then score - 10
    else if totalSpent <? 10000 then score - 5
    else if totalSpent <? 20000 then score - 2
    else if totalSpent >=? 50000 then score + 10
    else if totalSpent >=? 20000 then score + 5
    else score in
  let avgBelow (k : Z) :=
    if orderCount >? 0 then totalSpent <? k * orderCount else 0 <? k in
  let score :=
    if avgBelow 100 then score - 10
    else if avgBelow 500 then score - 5
    else if negb (avgBelow 1000) then score + 5
    else score in
  let recent := Z.of_nat (List.length (recentOrders now customer)) in
  let score :=
    if recent =? 0 then score - 10
    else if recent >=? 3 then score + 5
    else score in
  let score :=
    match settings with
    | Some st =>
        if score <? CreditSettings.minCreditScore st
        then CreditSettings.minCreditScore st else score
    | None => score
    end in
  Z.min 100 (Z.max 0 score).

End CreditScoring.

(** ** src/app/api/payments/route.ts: the credit side of a payment *)

Module Payments.

(** [db.creditAccount.findFirst({ where: { customerId, shopId,
    isActive: true } })]: the row with its primary key. *)
Definition findActiveAccount (customerId shopId : string) (db : Db)
  : option (string * CreditAccount.t) :=
  List.find
    (fun kv =>
       String.eqb (CreditAccount.customerId (snd kv)) customerId
       && String.eqb (CreditAccount.shopId (snd kv)) shopId
       && CreditAccount.isActive (snd kv))
    (map_to_list (creditAccounts db)).

(** [data: { currentBalance, availableCredit, lastPaymentDate }] on a row. *)
Definition setPayment (newBalance newAvailableCredit paidAt : Z)
    (a : CreditAccount.t) : CreditAccount.t :=
  CreditAccount.mk (CreditAccount.id a) (CreditAccount.customerId a)
    (CreditAccount.shopId a) (CreditAccount.creditLimit a)
    newBalance newAvailableCredit (CreditAccount.creditScore a)
    (CreditAccount.isActive a) (CreditAccount.dueDate a)
    (Some paidAt) (CreditAccount.updatedAt a).

(** [processCreditPayment(customerId, shopId, amount, reference?)] *)
Definition processCreditPayment (customerId shopId : string) (amount : Z)
    (reference : option string) (now : Z) (db : Db) : Db :=
  match findActiveAccount customerId shopId db with
  | None => db
  | Some (id, creditAccount) =>
      let given :=
        match reference with
        | Some r => if String.eqb r EmptyString then None else Some r
        | None => None
        end in
      let db :=
        CreditTransactions.createTransaction
          (CreditTransaction.mk id PAYMENT amount
             (CreditAccount.currentBalance creditAccount - amount)
             (Some (String.append "Payment for invoice"
                      match given with
                      | Some r => String.append " - " r
                      | None => EmptyString
                      end))
             given None now) db in
      CreditTransactions.updateAccount id
        (setPayment (CreditAccount.currentBalance creditAccount - amount)
           (CreditAccount.availableCredit creditAccount + amount) now) db
  end.

End Payments.

(** ** Sample data for the closed examples *)

Module Sample.

Definition customer1 : Customer.t :=
  Customer.mk "cust1" "shop1" 3 500 None.

(** An active account of shop1: limit 100, nothing owed. *)
Definition account1 : CreditAccount.t :=
  CreditAccount.mk "acc1" "cust1" "shop1" 100 0 100 75 true None None 0.

Definition db1 : Db :=
  mkDb {[ "acc1"%string := account1 ]} [] {[ "cust1"%string := customer1 ]} ∅.

(** shop1 with its customer and no credit account yet. *)
Definition db0 : Db :=
  mkDb ∅ [] {[ "cust1"%string := customer1 ]} ∅.

End Sample.

(** ** The subscription tables *)

Inductive DeliveryStatus := SCHEDULED | DELIVERED | SKIPPED | CANCELLED | FAILED.

Module Subscription.
Record t := mk {
  id : string;
  customerId : string;
  shopId : string;
  productId : string;
  quantity : Z;
  unit : string;
  pricePerUnit : Z;
  frequency : string;
  deliveryTime : string;
  deliveryDays : option string;
  isActive : bool;
  paused : bool;
  pauseReason : option string;
  startDate : Z;
  endDate : option Z;
  nextDelivery : option Z;
  autoCharge : bool;
  lastCharged : option Z
}.
End Subscription.

Module DeliverySchedule.
Record t := mk {
  id : string;
  subscriptionId : string;
  deliveryDate : Z;
  scheduledTime : string;
  status : DeliveryStatus;
  quantity : Z;
  actualQuantity : option Z;
  actualPrice : option Z;
  deliveredBy : option string;
  deliveryAddress : option string;
  notes : option string;
  deliveredAt : option Z
}.
End DeliverySchedule.

Module InvoiceItem.
Record t := mk {
  productId : string;
  name : string;
  quantity : Z;
  price : Z;
  unit : string
}.
End InvoiceItem.

Module Invoice.
Record t := mk {
  invoiceNumber : string;
  customerId : string;
  shopId : string;
  (** the list that the handler stores as [JSON.stringify] text *)
  items : list InvoiceItem.t;
  subtotal : Z;
  totalAmount : Z;
  status : string;
  dueDate : Z;
  reference : option string;
  notes : option string
}.
End Invoice.

Module SubscriptionSettings.
Record t := mk {
  autoGenerate : bool;
  defaultFrequency : string;
  minSubscriptionDays : Z;
  allowPause : bool;
  allowCancel : bool;
  cancellationFee : Z;
  pauseFee : Z;
  deliveryRadius : Z;
  deliveryCharge : Z;
  isActive : bool
}.
End SubscriptionSettings.

(** The database as the subscription and delivery routes see it.
    Subscriptions are keyed by their primary key, the settings rows by
    [shopId]; deliveries and invoices are the rows in insertion order. *)
Record SubDb := mkSubDb {
  subscriptions : gmap string Subscription.t;
  deliverySchedules : list DeliverySchedule.t;
  invoices : list Invoice.t;
  subscriptionSettings : gmap string SubscriptionSettings.t
}.

(** What the subscription and delivery handlers hand to
    [NextResponse.json]. *)
Inductive Reply :=
| Fail (status : Z) (message : string)
| Done (message : string)
| DeliveryUpdated (delivery : DeliverySchedule.t).

Definition isFail (r : Reply) : bool :=
  match r with Fail _ _ => true | _ => false end.

(** [a || b] on numbers where [a] may be [null]: [b] when [a] is [null]
    or 0. *)
Definition orNumber (a : option Z) (b : Z) : Z :=
  match a with
  | Some x => if x =? 0 then b else x
  | None => b
  end.

(** [s || null] on a string that may be [undefined]. *)
Definition orNull (s : option string) : option string :=
  match s with
  | Some x => if String.eqb x EmptyString then None else Some x
  | None => None
  end.

(** ** src/app/api/deliveries/route.ts: the handlers around the scheduler *)

Module DeliveryRoute.
Import JsDate.

(** The value of [updateDeliverySchema.parse(body)]. *)
Module ValidatedData.
Record t := mk {
  status : option DeliveryStatus;
  quantity : option Z;
  actualQuantity : option Z;
  actualPrice : option Z;
  deliveredBy : option string;
  deliveryAddress : option string;
  notes : option string
}.
End ValidatedData.

(** [z.enum(['SCHEDULED', 'DELIVERED', 'SKIPPED', 'CANCELLED',
    'FAILED']).optional()] *)
Definition zStatusOptional (v : option Json.value) : option (option DeliveryStatus) :=
  match v with
  | None => Some None
  | Some (Json.Str s) =>
      if String.eqb s "SCHEDULED" then Some (Some SCHEDULED)
      else if String.eqb s "DELIVERED" then Some (Some DELIVERED)
      else if String.eqb s "SKIPPED" then Some (Some SKIPPED)
      else if String.eqb s "CANCELLED" then Some (Some CANCELLED)
      else if String.eqb s "FAILED" then Some (Some FAILED)
      else None
  | Some _ => None
  end.

(** [z.number().min(0).optional()] *)
Definition zNumberMin0Optional (v : option Json.value) : option (option Z) :=
  match v with
  | None => Some None
  | Some (Json.Num n) => if 0 <=? n then Some (Some n) else None
  | Some _ => None
  end.

Definition updateDeliverySchema (body : Json.value) : option ValidatedData.t :=
  match body with
  | Json.Obj fields =>
      match zStatusOptional (Json.member "status" fields),
            zNumberMin0Optional (Json.member "quantity" fields),
            zNumberMin0Optional (Json.member "actualQuantity" fields),
            zNumberMin0Optional (Json.member "actualPrice" fields),
            Json.zStringOptional (Json.member "deliveredBy" fields),
            Json.zStringOptional (Json.member "deliveryAddress" fields),
            Json.zStringOptional (Json.member "notes" fields)
      with
      | Some st, Some q, Some aq, Some ap, Some by_, Some addr, Some n =>
          Some (ValidatedData.mk st q aq ap by_ addr n)
      | _, _, _, _, _, _, _ => None
      end
  | _ => None
  end.

Definition isDelivered (st : option DeliveryStatus) : bool :=
  match st with Some DELIVERED => true | _ => false end.

(** [db.deliverySchedule.create({ data: { subscriptionId, deliveryDate,
    scheduledTime, status: 'SCHEDULED', quantity } })]; [newId] is the
    primary key the database gives the row. *)
Definition createScheduled (newId subscriptionId : string) (deliveryDate : Z)
    (scheduledTime : string) (quantity : Z) (db : SubDb) : SubDb :=
  mkSubDb (subscriptions db)
    (deliverySchedules db ++
     [DeliverySchedule.mk newId subscriptionId deliveryDate scheduledTime
        SCHEDULED quantity None None None None None None])
    (invoices db) (subscriptionSettings db).

Section Clock.

Variable LocalTZA : Z.
(** The clock; one reading serves the whole request. *)
Variable now : Z.

(** [createNextDelivery(subscriptionId)].  [None] is an exhausted
    iteration budget of [calculateNextDelivery]. *)
Definition createNextDelivery (fuel : nat) (newId subscriptionId : string)
    (db : SubDb) : option SubDb :=
  match subscriptions db !! subscriptionId with
  | None => Some db
  | Some subscription =>
      if negb (Subscription.isActive subscription) then Some db
      else
        match Deliveries.calculateNextDelivery LocalTZA now fuel
                (Subscription.frequency subscription)
                (Subscription.deliveryTime subscription)
                (Subscription.deliveryDays subscription)
                (Some now) with
        | None => None
        | Some nextDeliveryDate =>
            let thirtyDaysFromNow := addDays LocalTZA (Some now) 30 in
            if leb nextDeliveryDate thirtyDaysFromNow then
              match nextDeliveryDate with
              | Some d =>
                  Some (createScheduled newId subscriptionId d
                          (Subscription.deliveryTime subscription)
                          (Subscription.quantity subscription) db)
              | None => Some db
              end
            else Some db
        end
  end.

(** [data: { lastCharged: new Date() }] on a subscription row. *)
Definition setLastCharged (at_ : Z) (s : Subscription.t) : Subscription.t :=
  Subscription.mk (Subscription.id s) (Subscription.customerId s)
    (Subscription.shopId s) (Subscription.productId s)
    (Subscription.quantity s) (Subscription.unit s)
    (Subscription.pricePerUnit s) (Subscription.frequency s)
    (Subscription.deliveryTime s) (Subscription.deliveryDays s)
    (Subscription.isActive s) (Subscription.paused s)
    (Subscription.pauseReason s) (Subscription.startDate s)
    (Subscription.endDate s) (Subscription.nextDelivery s)
    (Subscription.autoCharge s) (Some at_).

(** The amount charged for a delivery row:
    [delivery.actualPrice || (subscription.pricePerUnit *
    (delivery.actualQuantity || delivery.quantity))]. *)
Definition invoiceAmount (subscription : Subscription.t)
    (delivery : DeliverySchedule.t) : Z :=
  orNumber (DeliverySchedule.actualPrice delivery)
    (Subscription.pricePerUnit subscription *
     orNumber (DeliverySchedule.actualQuantity delivery)
       (DeliverySchedule.quantity delivery)).

(** [createSubscriptionInvoice(subscriptionId, delivery)];
    [invoiceNumber] stands for the generated [SUB-...] number. *)
Definition createSubscriptionInvoice (invoiceNumber subscriptionId : string)
    (delivery : DeliverySchedule.t) (db : SubDb) : SubDb :=
  match subscriptions db !! subscriptionId with
  | None => db
  | Some subscription =>
      if negb (Subscription.autoCharge subscription) then db
      else
        let invoice :=
          Invoice.mk invoiceNumber
            (Subscription.customerId subscription)
            (Subscription.shopId subscription)
            [InvoiceItem.mk (Subscription.productId subscription)
               (String.append "Subscription - " (Subscription.frequency subscription))
               (orNumber (DeliverySchedule.actualQuantity delivery)
                  (DeliverySchedule.quantity delivery))
               (invoiceAmount subscription delivery)
               (Subscription.unit subscription)]
            (invoiceAmount subscription delivery)
            (invoiceAmount subscription delivery)
            "SENT"
            (now + 7 * 24 * 60 * 60 * 1000)
            (Some subscriptionId)
            (Some "Auto-generated invoice for subscription delivery"%string) in
        mkSubDb (alter (setLastCharged now) subscriptionId (subscriptions db))
          (deliverySchedules db) (invoices db ++ [invoice])
          (subscriptionSettings db)
  end.

(** [db.deliverySchedule.findFirst({ where: { id, subscription:
    { shopId } }, include: { subscription: true } })] *)
Definition findDelivery (id shop : string) (db : SubDb)
  : option (DeliverySchedule.t * Subscription.t) :=
  match
    List.find
      (fun d =>
         String.eqb (DeliverySchedule.id d) id
         && match subscriptions db !! DeliverySchedule.subscriptionId d with
            | Some s => String.eqb (Subscription.shopId s) shop
            | None => false
            end)
      (deliverySchedules db)
  with
  | Some d =>
      match subscriptions db !! DeliverySchedule.subscriptionId d with
      | Some s => Some (d, s)
      | None => None
      end
  | None => None
  end.

(** [updateData] applied to a row: every field the body carries, and
    [deliveredAt] when the new status is DELIVERED. *)
Definition applyUpdateData (v : ValidatedData.t) (d : DeliverySchedule.t)
  : DeliverySchedule.t :=
  DeliverySchedule.mk (DeliverySchedule.id d) (DeliverySchedule.subscriptionId d)
    (DeliverySchedule.deliveryDate d) (DeliverySchedule.scheduledTime d)
    (match ValidatedData.status v with
     | Some st => st | None => DeliverySchedule.status d end)
    (match ValidatedData.quantity v with
     | Some q => q | None => DeliverySchedule.quantity d end)
    (match ValidatedData.actualQuantity v with
     | Some q => Some q | None => DeliverySchedule.actualQuantity d end)
    (match ValidatedData.actualPrice v with
     | Some q => Some q | None => DeliverySchedule.actualPrice d end)
    (match ValidatedData.deliveredBy v with
     | Some x => Some x | None => DeliverySchedule.deliveredBy d end)
    (match ValidatedData.deliveryAddress v with
     | Some x => Some x | None => DeliverySchedule.deliveryAddress d end)
    (match ValidatedData.notes v with
     | Some x => Some x | None => DeliverySchedule.notes d end)
    (if isDelivered (ValidatedData.status v) then Some now
     else DeliverySchedule.deliveredAt d).

(** [db.deliverySchedule.update({ where: { id }, data })] *)
Definition updateDelivery (id : string)
    (f : DeliverySchedule.t -> DeliverySchedule.t) (db : SubDb) : SubDb :=
  mkSubDb (subscriptions db)
    (map (fun d => if String.eqb (DeliverySchedule.id d) id then f d else d)
       (deliverySchedules db))
    (invoices db) (subscriptionSettings db).

(** [PUT(request)]: [deliveryId] is [searchParams.get('id')], [newId] and
    [invoiceNumber] the identifiers given to the rows the request may
    create. *)
Definition PUT (fuel : nat) (newId invoiceNumber : string)
    (auth : option string) (deliveryId : option string) (body : Json.value)
    (db : SubDb) : option (Reply * SubDb) :=
  match auth with
  | None => Some (Fail 401 "Unauthorized", db)
  | Some shop =>
  match orNull deliveryId with
  | None => Some (Fail 400 "Delivery ID is required", db)
  | Some deliveryId =>
  match updateDeliverySchema body with
  | None => Some (Fail 400 "Validation error", db)
  | Some validatedData =>
  match findDelivery deliveryId shop db with
  | None => Some (Fail 404 "Delivery not found", db)
  | Some (existingDelivery, subscription) =>
      let updatedDelivery := applyUpdateData validatedData existingDelivery in
      let db := updateDelivery deliveryId (applyUpdateData validatedData) db in
      match
        if isDelivered (ValidatedData.status validatedData)
           && Subscription.isActive subscription
        then createNextDelivery fuel newId
               (DeliverySchedule.subscriptionId existingDelivery) db
        else Some db
      with
      | None => None
      | Some db =>
          let db :=
            if isDelivered (ValidatedData.status validatedData)
               && Subscription.autoCharge subscription
            then createSubscriptionInvoice invoiceNumber
                   (DeliverySchedule.subscriptionId existingDelivery)
                   existingDelivery db
            else db in
          Some (DeliveryUpdated updatedDelivery, db)
      end
  end end end end.

End Clock.

End DeliveryRoute.

(** ** The subscription-settings route: settings, pause, resume, cancel *)

Module SubscriptionActions.
Import JsDate.

(** The value of [settingsSchema.parse(body)]: every field is optional. *)
Module ValidatedData.
Record t := mk {
  autoGenerate : option bool;
  defaultFrequency : option string;
  minSubscriptionDays : option Z;
  allowPause : option bool;
  allowCancel : option bool;
  cancellationFee : option Z;
  pauseFee : option Z;
  deliveryRadius : option Z;
  deliveryCharge : option Z;
  isActive : option bool
}.
End ValidatedData.

(** [z.boolean().optional()] *)
Definition zBooleanOptional (v : option Json.value) : option (option bool) :=
  match v with
  | None => Some None
  | Some (Json.Bool b) => Some (Some b)
  | Some _ => None
  end.

(** [z.enum(['daily', 'weekly', 'custom']).optional()] *)
Definition zFrequencyOptional (v : option Json.value) : option (option string) :=
  match v with
  | None => Some None
  | Some (Json.Str s) =>
      if String.eqb s "daily" || String.eqb s "weekly" || String.eqb s "custom"
      then Some (Some s) else None
  | Some _ => None
  end.

(** [z.number().min(k).optional()] *)
Definition zNumberMinOptional (k : Z) (v : option Json.value) : option (option Z) :=
  match v with
  | None => Some None
  | Some (Json.Num n) => if k <=? n then Some (Some n) else None
  | Some _ => None
  end.

Definition settingsSchema (body : Json.value) : option ValidatedData.t :=
  match body with
  | Json.Obj fields =>
      match zBooleanOptional (Json.member "autoGenerate" fields),
            zFrequencyOptional (Json.member "defaultFrequency" fields),
            zNumberMinOptional 1 (Json.member "minSubscriptionDays" fields),
            zBooleanOptional (Json.member "allowPause" fields),
            zBooleanOptional (Json.member "allowCancel" fields)
      with
      | Some ag, Some df, Some msd, Some ap, Some ac =>
          match zNumberMinOptional 0 (Json.member "cancellationFee" fields),
                zNumberMinOptional 0 (Json.member "pauseFee" fields),
                zNumberMinOptional 0 (Json.member "deliveryRadius" fields),
                zNumberMinOptional 0 (Json.member "deliveryCharge" fields),
                zBooleanOptional (Json.member "isActive" fields)
          with
          | Some cf, Some pf, Some dr, Some dc, Some ia =>
              Some (ValidatedData.mk ag df msd ap ac cf pf dr dc ia)
          | _, _, _, _, _ => None
          end
      | _, _, _, _, _ => None
      end
  | _ => None
  end.

(** [x ?? d] *)
Definition orDefault {A} (x : option A) (d : A) : A :=
  match x with Some v => v | None => d end.

(** The row [db.subscriptionSettings.create] writes: the validated
    fields, each with its [??] default. *)
Definition newSettings (v : ValidatedData.t) : SubscriptionSettings.t :=
  SubscriptionSettings.mk
    (orDefault (ValidatedData.autoGenerate v) true)
    (orDefault (ValidatedData.defaultFrequency v) "daily"%string)
    (orDefault (ValidatedData.minSubscriptionDays v) 7)
    (orDefault (ValidatedData.allowPause v) true)
    (orDefault (ValidatedData.allowCancel v) true)
    (orDefault (ValidatedData.cancellationFee v) 0)
    (orDefault (ValidatedData.pauseFee v) 0)
    (orDefault (ValidatedData.deliveryRadius v) 5)
    (orDefault (ValidatedData.deliveryCharge v) 0)
    (orDefault (ValidatedData.isActive v) true).

(** The defaults written by [GET] when the shop has no settings row. *)
Definition defaultSettings : SubscriptionSettings.t :=
  SubscriptionSettings.mk true "daily" 7 true true 0 0 5 0 true.

(** The [data] of [db.subscriptionSettings.update]: a field is written
    only when the body carries it. *)
Definition mergeSettings (v : ValidatedData.t) (st : SubscriptionSettings.t)
  : SubscriptionSettings.t :=
  SubscriptionSettings.mk
    (orDefault (ValidatedData.autoGenerate v) (SubscriptionSettings.autoGenerate st))
    (orDefault (ValidatedData.defaultFrequency v)
       (SubscriptionSettings.defaultFrequency st))
    (orDefault (ValidatedData.minSubscriptionDays v)
       (SubscriptionSettings.minSubscriptionDays st))
    (orDefault (ValidatedData.allowPause v) (SubscriptionSettings.allowPause st))
    (orDefault (ValidatedData.allowCancel v) (SubscriptionSettings.allowCancel st))
    (orDefault (ValidatedData.cancellationFee v)
       (SubscriptionSettings.cancellationFee st))
    (orDefault (ValidatedData.pauseFee v) (SubscriptionSettings.pauseFee st))
    (orDefault (ValidatedData.deliveryRadius v)
       (SubscriptionSettings.deliveryRadius st))
    (orDefault (ValidatedData.deliveryCharge v)
       (SubscriptionSettings.deliveryCharge st))
    (orDefault (ValidatedData.isActive v) (SubscriptionSettings.isActive st)).

Definition setSettings (shop : string) (st : SubscriptionSettings.t) (db : SubDb)
  : SubDb :=
  mkSubDb (subscriptions db) (deliverySchedules db) (invoices db)
    (<[shop := st]> (subscriptionSettings db)).

(** [GET(request)]: the settings of the shop, created with the defaults
    when there are none.  The result carries the row that is returned. *)
Definition GET (auth : option string) (db : SubDb)
  : (Reply + SubscriptionSettings.t) * SubDb :=
  match auth with
  | None => (inl (Fail 401 "Unauthorized"), db)
  | Some shopId =>
      match subscriptionSettings db !! shopId with
      | Some st => (inr st, db)
      | None => (inr defaultSettings, setSettings shopId defaultSettings db)
      end
  end.

(** [PUT(request)] *)
Definition PUT (auth : option string) (body : Json.value) (db : SubDb)
  : (Reply + SubscriptionSettings.t) * SubDb :=
  match auth with
  | None => (inl (Fail 401 "Unauthorized"), db)
  | Some shopId =>
      match settingsSchema body with
      | None => (inl (Fail 400 "Validation error"), db)
      | Some validatedData =>
          match subscriptionSettings db !! shopId with
          | None =>
              (inr (newSettings validatedData),
               setSettings shopId (newSettings validatedData) db)
          | Some st =>
              (inr (mergeSettings validatedData st),
               setSettings shopId (mergeSettings validatedData st) db)
          end
      end
  end.

(** [data: { paused: true, pauseReason, nextDelivery: null }] *)
Definition setPaused (reason : option string) (s : Subscription.t) : Subscription.t :=
  Subscription.mk (Subscription.id s) (Subscription.customerId s)
    (Subscription.shopId s) (Subscription.productId s)
    (Subscription.quantity s) (Subscription.unit s)
    (Subscription.pricePerUnit s) (Subscription.frequency s)
    (Subscription.deliveryTime s) (Subscription.deliveryDays s)
    (Subscription.isActive s) true reason (Subscription.startDate s)
    (Subscription.endDate s) None
    (Subscription.autoCharge s) (Subscription.lastCharged s).

(** [data: { paused: false, pauseReason: null, nextDelivery }] *)
Definition setResumed (next : Z) (s : Subscription.t) : Subscription.t :=
  Subscription.mk (Subscription.id s) (Subscription.customerId s)
    (Subscription.shopId s) (Subscription.productId s)
    (Subscription.quantity s) (Subscription.unit s)
    (Subscription.pricePerUnit s) (Subscription.frequency s)
    (Subscription.deliveryTime s) (Subscription.deliveryDays s)
    (Subscription.isActive s) false None (Subscription.startDate s)
    (Subscription.endDate s) (Some next)
    (Subscription.autoCharge s) (Subscription.lastCharged s).

(** [data: { isActive: false, endDate: new Date(), nextDelivery: null }] *)
Definition setCancelled (at_ : Z) (s : Subscription.t) : Subscription.t :=
  Subscription.mk (Subscription.id s) (Subscription.customerId s)
    (Subscription.shopId s) (Subscription.productId s)
    (Subscription.quantity s) (Subscription.unit s)
    (Subscription.pricePerUnit s) (Subscription.frequency s)
    (Subscription.deliveryTime s) (Subscription.deliveryDays s)
    false (Subscription.paused s) (Subscription.pauseReason s)
    (Subscription.startDate s) (Some at_) None
    (Subscription.autoCharge s) (Subscription.lastCharged s).

(** [db.subscription.update({ where: { id }, data })] *)
Definition updateSubscription (id : string)
    (f : Subscription.t -> Subscription.t) (db : SubDb) : SubDb :=
  mkSubDb (alter f id (subscriptions db)) (deliverySchedules db)
    (invoices db) (subscriptionSettings db).

(** [db.deliverySchedule.deleteMany({ where })]: the rows that satisfy
    [where] go, the others stay in place. *)
Definition deleteManyDeliveries (where_ : DeliverySchedule.t -> bool) (db : SubDb)
  : SubDb :=
  mkSubDb (subscriptions db)
    (List.filter (fun d => negb (where_ d)) (deliverySchedules db))
    (invoices db) (subscriptionSettings db).

(** [db.subscription.findFirst({ where: { id, shopId } })] *)
Definition findSubscription (id shop : string) (db : SubDb) : option Subscription.t :=
  match subscriptions db !! id with
  | Some s => if String.eqb (Subscription.shopId s) shop then Some s else None
  | None => None
  end.

(** What a value of the request is to the Prisma call that receives it
    where a nullable string is expected: the value itself, or an object,
    which Prisma reads as an operator. *)
Inductive PrismaArg :=
| Scalar (value : option string)
| Operator.

Section Clock.

Variable LocalTZA : Z.

(** The clock is read more than once in a request.  [now] is the reading
    of the action itself: [gte: new Date()] of [pause], [endDate: new
    Date()] of [cancel], and the call of [calculateNextDelivery] in the
    update of [resume].  [later] is the reading of
    [createDeliverySchedule], which [resume] calls after its update. *)
Variable now : Z.
Variable later : Z.

(** [createDeliverySchedule(subscriptionId, subscription)] of this
    route: the next delivery counted from [new Date()], created when it
    is at most thirty days away. *)
Definition createDeliverySchedule (fuel : nat) (newId subscriptionId : string)
    (subscription : Subscription.t) (db : SubDb) : option SubDb :=
  match Deliveries.calculateNextDelivery LocalTZA later fuel
          (Subscription.frequency subscription)
          (Subscription.deliveryTime subscription)
          (Subscription.deliveryDays subscription)
          (Some later) with
  | None => None
  | Some nextDeliveryDate =>
      let thirtyDaysFromNow := addDays LocalTZA (Some later) 30 in
      if leb nextDeliveryDate thirtyDaysFromNow then
        match nextDeliveryDate with
        | Some d =>
            Some (DeliveryRoute.createScheduled newId subscriptionId d
                    (Subscription.deliveryTime subscription)
                    (Subscription.quantity subscription) db)
        | None => Some db
        end
      else Some db
  end.

(** [POST(request)]: the actions [pause], [resume] and [cancel].  The
    body is not validated, so [subscriptionId] and [reason] reach Prisma
    as they were sent.  A string is used as the value.  A number, a
    boolean or an array where a string is expected, and an Invalid Date,
    make the Prisma call throw, and the handler's [catch] answers 500;
    so does destructuring a [null] body.  A JSON object is read by
    Prisma as a query operator ([{ equals: ... }], [{ set: ... }]), whose
    meaning is Prisma's and not the handler's: for such a request the
    model gives no answer.  So [None] is either that, or an exhausted
    iteration budget of [calculateNextDelivery]. *)
Definition POST (fuel : nat) (newId : string) (auth : option string)
    (body : Json.value) (db : SubDb) : option (Reply * SubDb) :=
  match auth with
  | None => Some (Fail 401 "Unauthorized", db)
  | Some shop =>
  match body with
  | Json.Null => Some (Fail 500 "Internal server error", db)
  | _ =>
  let field (k : string) :=
    match body with Json.Obj fields => Json.member k fields | _ => None end in
  let truthy (v : option Json.value) :=
    match v with Some x => Json.truthy x | None => false end in
  if negb (truthy (field "subscriptionId"%string))
     || negb (truthy (field "action"%string))
  then Some (Fail 400 "Subscription ID and action are required", db)
  else
  match field "subscriptionId"%string with
  | Some (Json.Str subscriptionId) =>
  match findSubscription subscriptionId shop db with
  | None => Some (Fail 404 "Subscription not found", db)
  | Some subscription =>
  match subscriptionSettings db !! shop with
  | None => Some (Fail 404 "Subscription settings not found", db)
  | Some settings =>
  match field "action"%string with
  | Some (Json.Str action) =>
      if String.eqb action "pause" then
        if negb (SubscriptionSettings.allowPause settings)
        then Some (Fail 400 "Pausing subscriptions is not allowed", db)
        else
          match
            match field "reason"%string with
            | None => Some (Scalar None)
            | Some r =>
                if Json.truthy r
                then match r with
                     | Json.Str x => Some (Scalar (Some x))
                     | Json.Obj _ => Some Operator
                     | _ => None
                     end
                else Some (Scalar None)
            end
          with
          | None => Some (Fail 500 "Internal server error", db)
          | Some Operator => None
          | Some (Scalar reason) =>
              let db := updateSubscription subscriptionId (setPaused reason) db in
              let db :=
                deleteManyDeliveries
                  (fun d =>
                     String.eqb (DeliverySchedule.subscriptionId d) subscriptionId
                     && (now <=? DeliverySchedule.deliveryDate d)) db in
              Some (Done "Subscription paused successfully", db)
          end
      else if String.eqb action "resume" then
        match Deliveries.calculateNextDelivery LocalTZA now fuel
                (Subscription.frequency subscription)
                (Subscription.deliveryTime subscription)
                (Subscription.deliveryDays subscription)
                (Some now) with
        | None => None
        | Some None => Some (Fail 500 "Internal server error", db)
        | Some (Some next) =>
            let db := updateSubscription subscriptionId (setResumed next) db in
            match createDeliverySchedule fuel newId subscriptionId subscription db with
            | None => None
            | Some db => Some (Done "Subscription resumed successfully", db)
            end
        end
      else if String.eqb action "cancel" then
        if negb (SubscriptionSettings.allowCancel settings)
        then Some (Fail 400 "Cancelling subscriptions is not allowed", db)
        else
          let db :=
            deleteManyDeliveries
              (fun d => String.eqb (DeliverySchedule.subscriptionId d) subscriptionId)
              db in
          let db := updateSubscription subscriptionId (setCancelled now) db in
          Some (Done "Subscription cancelled successfully", db)
      else Some (Fail 400 "Invalid action", db)
  | _ => Some (Fail 400 "Invalid action", db)
  end
  end end
  | Some (Json.Obj _) => None
  | _ => Some (Fail 500 "Internal server error", db)
  end
  end end.

End Clock.

End SubscriptionActions.

(** ** The subscription route: removal of a subscription *)

Module SubscriptionRoute.

(** [DELETE(request)]: [subscriptionId] is [searchParams.get('id')]. *)
Definition DELETE (auth : option string) (subscriptionId : option string)
    (db : SubDb) : Reply * SubDb :=
  match auth with
  | None => (Fail 401 "Unauthorized", db)
  | Some shop =>
      match orNull subscriptionId with
      | None => (Fail 400 "Subscription ID is required", db)
      | Some subscriptionId =>
          match SubscriptionActions.findSubscription subscriptionId shop db with
          | None => (Fail 404 "Subscription not found", db)
          | Some _ =>
              let db :=
                SubscriptionActions.deleteManyDeliveries
                  (fun d =>
                     String.eqb (DeliverySchedule.subscriptionId d) subscriptionId)
                  db in
              (Done "Subscription deleted successfully",
               mkSubDb (delete subscriptionId (subscriptions db))
                 (deliverySchedules db) (invoices db) (subscriptionSettings db))
          end
      end
  end.

End SubscriptionRoute.

(** ** The credit-scoring route: risk levels, recommendations, handlers *)

Inductive RiskLevel := LOW | MEDIUM | HIGH.

Module Recommendation.
Record t := mk {
  type : string;
  message : string;
  priority : string
}.
End Recommendation.

Module ScoringSummary.
Record t := mk {
  totalAccounts : Z;
  activeAccounts : Z;
  avgCreditScore : Z;
  highRiskAccounts : Z
}.
End ScoringSummary.

Module CreditScoringRoute.

(** [getRiskLevel(score)] *)
Definition getRiskLevel (score : Z) : RiskLevel :=
  if score >=? 80 then LOW
  else if score >=? 60 then MEDIUM
  else HIGH.

(** [getCreditRecommendations(score, customer, settings)]: the
    recommendations in the order they are pushed. *)
Definition getCreditRecommendations (now : Z) (score : Z) (customer : Customer.t)
    (settings : option CreditSettings.t) : list Recommendation.t :=
  let recommendations := [] in
  let recommendations :=
    if score <? 60 then
      recommendations ++
      [Recommendation.mk "RISK"
         "High risk customer - Consider reducing credit limit" "HIGH"]
    else recommendations in
  let recommendations :=
    if Customer.totalOrders customer <? 10 then
      recommendations ++
      [Recommendation.mk "ENGAGEMENT"
         "Low order frequency - Encourage more regular purchases" "MEDIUM"]
    else recommendations in
  let recommendations :=
    if (Customer.totalSpent customer >? 10000) && (score <? 80) then
      recommendations ++
      [Recommendation.mk "OPPORTUNITY"
         "High spending customer with moderate score - Consider credit limit increase"
         "MEDIUM"]
    else recommendations in
  let recentOrders := CreditScoring.recentOrders now customer in
  let recommendations :=
    if (Z.of_nat (List.length recentOrders) =? 0) && (score >? 70) then
      recommendations ++
      [Recommendation.mk "RETENTION"
         "No recent orders from good customer - Send retention offers" "MEDIUM"]
    else recommendations in
  recommendations.

(** [data: { creditScore }] on an account row. *)
Definition setCreditScore (score : Z) (a : CreditAccount.t) : CreditAccount.t :=
  CreditAccount.mk (CreditAccount.id a) (CreditAccount.customerId a)
    (CreditAccount.shopId a) (CreditAccount.creditLimit a)
    (CreditAccount.currentBalance a) (CreditAccount.availableCredit a)
    score (CreditAccount.isActive a) (CreditAccount.dueDate a)
    (CreditAccount.lastPaymentDate a) (CreditAccount.updatedAt a).

(** [db.creditAccount.findFirst({ where: { customerId, shopId } })]: the
    row with its primary key. *)
Definition findCustomerAccount (customerId shopId : string) (db : Db)
  : option (string * CreditAccount.t) :=
  List.find
    (fun kv =>
       String.eqb (CreditAccount.customerId (snd kv)) customerId
       && String.eqb (CreditAccount.shopId (snd kv)) shopId)
    (map_to_list (creditAccounts db)).

(** The body of the scoring response. *)
Module Scored.
Record t := mk {
  customerId : string;
  creditScore : Z;
  recommendations : list Recommendation.t
}.
End Scored.

(** [POST(request)] for a body [{ customerId }] whose [customerId] is a
    string.  The customer is read with its orders. *)
Definition POST (auth : option string) (customerId : string) (now : Z) (db : Db)
  : (Response + Scored.t) * Db :=
  match auth with
  | None => (inl (Message 401 "Unauthorized"), db)
  | Some shopId =>
      match CreditAccounts.findCustomer customerId shopId db with
      | None => (inl (Message 404 "Customer not found"), db)
      | Some customer =>
          let settings := creditSettings db !! shopId in
          let creditScore :=
            CreditScoring.calculateCreditScore now customer settings in
          let db :=
            match findCustomerAccount customerId shopId db with
            | Some (id, _) =>
                CreditTransactions.updateAccount id (setCreditScore creditScore) db
            | None => db
            end in
          (inr (Scored.mk (Customer.id customer) creditScore
                  (getCreditRecommendations now creditScore customer settings)),
           db)
      end
  end.

(** [select: { id, name, mobile, totalOrders, totalSpent }]: the customer
    as the account listing sees it, without its orders. *)
Definition selectCustomer (c : Customer.t) : Customer.t :=
  Customer.mk (Customer.id c) (Customer.shopId c) (Customer.totalOrders c)
    (Customer.totalSpent c) None.

(** [db.creditAccount.findMany({ where: { shopId }, include:
    { customer } })]: every account of the shop, with its key and its
    customer.  An account always has its customer (foreign key); a row
    without one is left out. *)
Definition shopAccounts (shopId : string) (db : Db)
  : list (string * CreditAccount.t * Customer.t) :=
  omap
    (fun kv =>
       if String.eqb (CreditAccount.shopId (snd kv)) shopId then
         match customers db !! CreditAccount.customerId (snd kv) with
         | Some c => Some (fst kv, snd kv, selectCustomer c)
         | None => None
         end
       else None)
    (map_to_list (creditAccounts db)).

(** [Math.round(sum / n || 0)], read exactly: 0 for no account, else the
    integer nearest to the mean, halves upwards. *)
Definition roundedAverage (scores : list Z) : Z :=
  let n := Z.of_nat (List.length scores) in
  if n =? 0 then 0
  else (2 * fold_left Z.add scores 0 + n) / (2 * n).

Definition countIf {A} (f : A -> bool) (l : list A) : Z :=
  Z.of_nat (List.length (List.filter f l)).

(** [GET(request)]: [refresh] is [searchParams.get('refresh') === 'true'].
    The summary and the listing are computed from the rows as they were
    read, before any refresh. *)
Definition GET (auth : option string) (refresh : bool) (now : Z) (db : Db)
  : (Response + ScoringSummary.t * list (CreditAccount.t * RiskLevel)) * Db :=
  match auth with
  | None => (inl (Message 401 "Unauthorized"), db)
  | Some shopId =>
      let creditAccounts := shopAccounts shopId db in
      let db :=
        if refresh then
          let settings := creditSettings db !! shopId in
          fold_left
            (fun d row =>
               let '(id, account, customer) := row in
               CreditTransactions.updateAccount id
                 (setCreditScore
                    (CreditScoring.calculateCreditScore now customer settings)) d)
            creditAccounts db
        else db in
      let rows := map (fun row => snd (fst row)) creditAccounts in
      (inr (ScoringSummary.mk
              (Z.of_nat (List.length rows))
              (countIf CreditAccount.isActive rows)
              (roundedAverage (map CreditAccount.creditScore rows))
              (countIf (fun a => CreditAccount.creditScore a <? 60) rows),
            map (fun a => (a, getRiskLevel (CreditAccount.creditScore a))) rows),
       db)
  end.

End CreditScoringRoute.

(** ** Sample data for the subscription routes *)

Module SampleSub.

(** A daily subscription of shop1, delivery time 06:00, auto-charged. *)
Definition subscription1 : Subscription.t :=
  Subscription.mk "sub1" "cust1" "shop1" "prod1" 2 "litre" 30 "daily" "06:00"
    None true false None 1704000000000 None None true None.

(** A delivery of sub1 on 2024-01-02 06:00 UTC, 3 units delivered. *)
Definition delivery1 : DeliverySchedule.t :=
  DeliverySchedule.mk "d1" "sub1" 1704175200000 "06:00" SCHEDULED 2
    (Some 3) None None None None None.

Definition subDb1 : SubDb :=
  mkSubDb {[ "sub1"%string := subscription1 ]} [delivery1] []
    {[ "shop1"%string := SubscriptionActions.defaultSettings ]}.



(** The body [{ subscriptionId, action }] of an action request. *)
Definition actionBody (subscriptionId action : string) : Json.value :=
  Json.Obj [("subscriptionId"%string, Json.Str subscriptionId);
            ("action"%string, Json.Str action)].

End SampleSub.

(** ** The bands of the two score functions, one by one *)

Module ScoreBands.

(** The last two steps of both functions: the settings floor, then the
    clamp to [0, 100]. *)
Definition floorAndClamp (settings : option CreditSettings.t) (score : Z) : Z :=
  Z.min 100
    (Z.max 0
       match settings with
       | Some st =>
           if score <? CreditSettings.minCreditScore st
           then CreditSettings.minCreditScore st else score
       | None => score
       end).

(** The transactions and accounts routes. *)
Definition ordersBand (totalOrders : Z) : Z :=
  if totalOrders <? 5 then -10 else if totalOrders <? 10 then -5 else 0.

Definition spendBand (totalSpent : Z) : Z :=
  if totalSpent <? 1000 then -15
  else if totalSpent <? 5000 then -8
  else if totalSpent <? 10000 then -3
  else 0.

Definition highValueBand (totalSpent : Z) : Z :=
  if totalSpent >? 50000 then 10 else if totalSpent >? 20000 then 5 else 0.

(** The scoring route. *)
Definition orderCountBand (orderCount : Z) : Z :=
  if orderCount <? 5 then -15
  else if orderCount <? 10 then -8
  else if orderCount <? 20 then -3
  else if orderCount >=? 50 then 5
  else 0.

Definition totalSpentBand (totalSpent : Z) : Z :=
  if totalSpent <? 1000 then -20
  else if totalSpent <? 5000 then -10
  else if totalSpent <? 10000 then -5
  else if totalSpent <? 20000 then -2
  else if totalSpent >=? 50000 then 10
  else if totalSpent >=? 20000 then 5
  else 0.

Definition avgOrderValueBand (orderCount totalSpent : Z) : Z :=
  let avgBelow (k : Z) :=
    if orderCount >? 0 then totalSpent <? k * orderCount else 0 <? k in
  if avgBelow 100 then -10
  else if avgBelow 500 then -5
  else if negb (avgBelow 1000) then 5
  else 0.

Definition recentBand (recent : Z) : Z :=
  if recent =? 0 then -10 else if recent >=? 3 then 5 else 0.

End ScoreBands.

(** ** Databases that differ in credit scores only *)

(** [sameExceptScores db d]: [d] has the ledger, the customers and the
    settings of [db], and the same account rows up to their
    [creditScore]. *)
Definition sameExceptScores (db d : Db) : Prop :=
  creditTransactions d = creditTransactions db /\
  customers d = customers db /\
  creditSettings d = creditSettings db /\
  forall id,
    CreditScoringRoute.setCreditScore 0 <$> creditAccounts d !! id
    = CreditScoringRoute.setCreditScore 0 <$> creditAccounts db !! id.

(* ================================================================= *)
(** * Theorems *)

(** ** Facts about the string primitives *)

Module JsStringFacts.
Import JsString.

Lemma digit_not_white c : isDigit c = true -> isWhiteSpace c = false.
Proof.
  unfold isDigit, isWhiteSpace. intros H.
  apply andb_true_iff in H as [H1 H2].
  apply N.leb_le in H1. apply N.leb_le in H2.
  apply orb_false_iff. split.
  - apply andb_false_iff. right. apply N.leb_gt. lia.
  - apply N.eqb_neq. lia.
Qed.

Lemma digit_not_char c (k : ascii) :
  isDigit k = false -> isDigit c = true -> Ascii.eqb c k = false.
Proof.
  intros Hk Hc. apply Ascii.eqb_neq. intros ->. congruence.
Qed.

Lemma digitValue_bounds c : isDigit c = true -> 0 <= digitValue c <= 9.
Proof.
  unfold isDigit, digitValue. intros H.
  apply andb_true_iff in H as [H1 H2].
  apply N.leb_le in H1. apply N.leb_le in H2. lia.
Qed.

Lemma trim_digits1 a : isDigit a = true -> trim (String a EmptyString) = String a EmptyString.
Proof.
  intros Ha. pose proof (digit_not_white a Ha) as Wa.
  unfold trim. cbn. rewrite Wa. cbn. now rewrite Wa.
Qed.

Lemma trim_digits2 a b :
  isDigit a = true -> isDigit b = true ->
  trim (String a (String b EmptyString)) = String a (String b EmptyString).
Proof.
  intros Ha Hb. pose proof (digit_not_white a Ha) as Wa.
  pose proof (digit_not_white b Hb) as Wb.
  unfold trim. cbn. rewrite Wa. cbn. now rewrite Wb.
Qed.

Lemma Number_digits1 a :
  isDigit a = true -> Number (String a EmptyString) = Some (digitValue a).
Proof.
  intros Ha. unfold Number. rewrite (trim_digits1 a Ha).
  rewrite (digit_not_char a "+" eq_refl Ha), (digit_not_char a "-" eq_refl Ha).
  cbn. now rewrite Ha.
Qed.

Lemma Number_digits2 a b :
  isDigit a = true -> isDigit b = true ->
  Number (String a (String b EmptyString)) = Some (10 * digitValue a + digitValue b).
Proof.
  intros Ha Hb. unfold Number. rewrite (trim_digits2 a b Ha Hb).
  rewrite (digit_not_char a "+" eq_refl Ha), (digit_not_char a "-" eq_refl Ha).
  cbn [parseDigits]. now rewrite Ha, Hb.
Qed.

End JsStringFacts.

(** ** Facts about the scheduler *)

Module DeliveriesFacts.
Import JsString JsDate Deliveries JsStringFacts.

Lemma inRange_digit lo hi c :
  (48 <= lo)%N -> (hi <= 57)%N -> inRange lo hi c = true ->
  isDigit c = true /\ Z.of_N lo - 48 <= digitValue c <= Z.of_N hi - 48.
Proof.
  unfold inRange, isDigit, digitValue. intros Hlo Hhi H.
  apply andb_true_iff in H as [H1 H2].
  apply N.leb_le in H1. apply N.leb_le in H2. split.
  - apply andb_true_iff. split; apply N.leb_le; lia.
  - lia.
Qed.

Lemma parse_h_mm a c d :
  isDigit a = true -> isDigit c = true -> isDigit d = true ->
  parseDeliveryTime (String a (String ":" (String c (String d EmptyString)))) =
  (Some (digitValue a), Some (10 * digitValue c + digitValue d)).
Proof.
  intros Ha Hc Hd. unfold parseDeliveryTime. cbn [split].
  rewrite (digit_not_char a ":" eq_refl Ha), (digit_not_char c ":" eq_refl Hc),
    (digit_not_char d ":" eq_refl Hd), Ascii.eqb_refl.
  cbn [map nth_error].
  now rewrite (Number_digits1 a Ha), (Number_digits2 c d Hc Hd).
Qed.

Lemma parse_hh_mm a b c d :
  isDigit a = true -> isDigit b = true -> isDigit c = true -> isDigit d = true ->
  parseDeliveryTime (String a (String b (String ":" (String c (String d EmptyString))))) =
  (Some (10 * digitValue a + digitValue b),
   Some (10 * digitValue c + digitValue d)).
Proof.
  intros Ha Hb Hc Hd. unfold parseDeliveryTime. cbn [split].
  rewrite (digit_not_char a ":" eq_refl Ha), (digit_not_char b ":" eq_refl Hb),
    (digit_not_char c ":" eq_refl Hc), (digit_not_char d ":" eq_refl Hd),
    Ascii.eqb_refl.
  cbn [map nth_error].
  now rewrite (Number_digits2 a b Ha Hb), (Number_digits2 c d Hc Hd).
Qed.

(** Every string accepted by the schema pattern parses to an hour in
    [0, 23] and a minute in [0, 59]. *)
Lemma validDeliveryTime_parse s :
  validDeliveryTime s = true ->
  exists h m, parseDeliveryTime s = (Some h, Some m) /\
              0 <= h < 24 /\ 0 <= m < 60.
Proof.
  intros H.
  destruct s as [|a [|b [|c [|d [|e [|f r]]]]]]; try discriminate H;
    cbn [validDeliveryTime] in H.
  - apply andb_true_iff in H as [H Hd]. apply andb_true_iff in H as [H Hc].
    apply andb_true_iff in H as [Ha Hb].
    apply Ascii.eqb_eq in Hb; subst b.
    destruct (inRange_digit 48 53 c ltac:(lia) ltac:(lia) Hc) as [Dc Bc].
    pose proof (digitValue_bounds a Ha). pose proof (digitValue_bounds d Hd).
    eexists _, _. split; [apply parse_h_mm; assumption | lia].
  - apply andb_true_iff in H as [H He]. apply andb_true_iff in H as [H Hd].
    apply andb_true_iff in H as [H Hc].
    apply Ascii.eqb_eq in Hc; subst c.
    destruct (inRange_digit 48 53 d ltac:(lia) ltac:(lia) Hd) as [Dd Bd].
    pose proof (digitValue_bounds e He).
    apply orb_true_iff in H as [H | H]; apply andb_true_iff in H as [Ha Hb].
    + destruct (inRange_digit 48 49 a ltac:(lia) ltac:(lia) Ha) as [Da Ba].
      pose proof (digitValue_bounds b Hb).
      eexists _, _. split; [apply parse_hh_mm; assumption | lia].
    + apply Ascii.eqb_eq in Ha; subst a.
      destruct (inRange_digit 48 51 b ltac:(lia) ltac:(lia) Hb) as [Db Bb].
      eexists _, _. split; [apply parse_hh_mm; try assumption; reflexivity |].
      change (digitValue "2") with 2. lia.
Qed.

Lemma addDays_valid tz t k : addDays tz (Some t) k = Some (t + k * msPerDay).
Proof.
  unfold addDays, MakeDate, UTC, LocalTime, Day, TimeWithinDay. f_equal.
  pose proof (Z.div_mod (t + tz) msPerDay ltac:(discriminate)). lia.
Qed.

Lemma setHours_valid tz t h m :
  setHours tz (Some t) (Some h) (Some m) (Some 0) (Some 0) =
  Some (Day (t + tz) * msPerDay + (h * msPerHour + m * msPerMinute) - tz).
Proof.
  unfold setHours, MakeDate, MakeTime, UTC, LocalTime. f_equal. lia.
Qed.

Lemma firstCandidate_future tz now h m s :
  0 <= h * msPerHour + m * msPerMinute -> now < firstCandidate tz now h m s.
Proof.
  intros Hhm. unfold firstCandidate, Day.
  set (t := if s <? now then now else s).
  assert (Ht : now <= t) by (subst t; destruct (Z.ltb_spec s now); lia).
  pose proof (Z.div_mod (t + tz) msPerDay ltac:(discriminate)) as E.
  pose proof (Z.mod_pos_bound (t + tz) msPerDay ltac:(reflexivity)) as B.
  destruct (Z.leb_spec
    ((t + tz) / msPerDay * msPerDay + (h * msPerHour + m * msPerMinute) - tz) now);
    lia.
Qed.

Lemma dailyLoop_done tz now fuel c :
  now < c -> dailyLoop tz now fuel (Some c) = Some (Some c).
Proof.
  intros H. destruct fuel; cbn; destruct (Z.leb_spec c now); (lia || reflexivity).
Qed.

Lemma weeklyLoop_done tz now fuel c :
  now < c -> weeklyLoop tz now fuel (Some c) = Some (Some c).
Proof.
  intros H. destruct fuel; cbn; destruct (Z.leb_spec c now); (lia || reflexivity).
Qed.

Lemma customLoop_done tz now days fuel c :
  now < c -> customLoop tz now days fuel (Some c) = Some (Some c).
Proof.
  intros H. destruct fuel; cbn; destruct (Z.leb_spec c now); (lia || reflexivity).
Qed.

Lemma switch_done tz now fuel frequency deliveryDays (nextDate : Date) c :
  nextDate = Some c -> now < c ->
  (if String.eqb frequency "daily" then dailyLoop tz now fuel nextDate
   else if String.eqb frequency "weekly" then weeklyLoop tz now fuel nextDate
   else if String.eqb frequency "custom" then
     match deliveryDays with
     | Some dd =>
         if String.eqb dd EmptyString then Some nextDate
         else customLoop tz now (parseDeliveryDays dd) fuel nextDate
     | None => Some nextDate
     end
   else Some nextDate) = Some (Some c).
Proof.
  intros -> H.
  destruct (String.eqb frequency "daily"); [now apply dailyLoop_done |].
  destruct (String.eqb frequency "weekly"); [now apply weeklyLoop_done |].
  destruct (String.eqb frequency "custom"); [| reflexivity].
  destruct deliveryDays as [dd |]; [| reflexivity].
  destruct (String.eqb dd EmptyString); [reflexivity | now apply customLoop_done].
Qed.

(** With a non-negative time of day and a valid start date, the
    candidate is already after [now] at the [switch]; no loop body runs
    and the candidate is returned whatever the frequency and the day
    list are. *)
Lemma calculateNextDeliveryAt_first tz now fuel frequency h m deliveryDays s :
  0 <= h * msPerHour + m * msPerMinute ->
  calculateNextDeliveryAt tz now fuel frequency (Some h) (Some m) deliveryDays (Some s)
  = Some (Some (firstCandidate tz now h m s)).
Proof.
  intros Hhm. pose proof (firstCandidate_future tz now h m s Hhm) as Hfut.
  unfold calculateNextDeliveryAt. cbv zeta.
  apply switch_done; [| exact Hfut].
  unfold firstCandidate, ltb.
  destruct (s <? now); rewrite setHours_valid; unfold leb;
    (destruct (_ <=? now); [rewrite addDays_valid; f_equal; lia | reflexivity]).
Qed.

(** *** Termination of the three loops, from any state *)

Lemma fuel_bound now t : exists n : nat, now - t < Z.of_nat n * msPerDay.
Proof.
  exists (Z.to_nat (now - t + 1)). unfold msPerDay.
  destruct (Z.le_gt_cases 0 (now - t)); lia.
Qed.

Lemma dailyLoop_bounded tz now n :
  forall t, now - t < Z.of_nat n * msPerDay ->
  exists r, forall fuel, (n <= fuel)%nat ->
    dailyLoop tz now fuel (Some t) = Some r.
Proof.
  induction n as [| n IH]; intros t Hn.
  - exists (Some t). intros fuel _. apply dailyLoop_done. lia.
  - destruct (Z.leb_spec t now) as [Hle | Hgt].
    + destruct (IH (t + 1 * msPerDay)) as [r Hr]; [unfold msPerDay in *; lia |].
      exists r. intros [| fuel] Hf; [lia |].
      cbn [dailyLoop leb]. rewrite (proj2 (Z.leb_le t now) Hle), addDays_valid.
      apply Hr. lia.
    + exists (Some t). intros fuel _. now apply dailyLoop_done.
Qed.

Lemma weeklyLoop_bounded tz now n :
  forall t, now - t < Z.of_nat n * msPerDay ->
  exists r, forall fuel, (n <= fuel)%nat ->
    weeklyLoop tz now fuel (Some t) = Some r.
Proof.
  induction n as [| n IH]; intros t Hn.
  - exists (Some t). intros fuel _. apply weeklyLoop_done. lia.
  - destruct (Z.leb_spec t now) as [Hle | Hgt].
    + destruct (IH (t + 7 * msPerDay)) as [r Hr]; [unfold msPerDay in *; lia |].
      exists r. intros [| fuel] Hf; [lia |].
      cbn [weeklyLoop leb]. rewrite (proj2 (Z.leb_le t now) Hle), addDays_valid.
      apply Hr. lia.
    + exists (Some t). intros fuel _. now apply weeklyLoop_done.
Qed.

Lemma customLoop_bounded tz now days n :
  forall t, now - t < Z.of_nat n * msPerDay ->
  exists r, forall fuel, (n <= fuel)%nat ->
    customLoop tz now days fuel (Some t) = Some r.
Proof.
  induction n as [| n IH]; intros t Hn.
  - exists (Some t). intros fuel _. apply customLoop_done. lia.
  - destruct (Z.leb_spec t now) as [Hle | Hgt].
    + destruct (IH (t + 1 * msPerDay)) as [r Hr]; [unfold msPerDay in *; lia |].
      destruct (negb (includes days
                  (dayName (getDay tz (Some (t + 1 * msPerDay)))))) eqn:Hskip.
      * exists r. intros [| fuel] Hf; [lia |].
        cbn [customLoop leb]. rewrite (proj2 (Z.leb_le t now) Hle), addDays_valid.
        rewrite Hskip. apply Hr. lia.
      * destruct (gtb (Some (t + 1 * msPerDay)) (Some now)) eqn:Hbrk.
        -- exists (Some (t + 1 * msPerDay)). intros [| fuel] Hf; [lia |].
           cbn [customLoop leb]. rewrite (proj2 (Z.leb_le t now) Hle), addDays_valid.
           now rewrite Hskip, Hbrk.
        -- exists r. intros [| fuel] Hf; [lia |].
           cbn [customLoop leb]. rewrite (proj2 (Z.leb_le t now) Hle), addDays_valid.
           rewrite Hskip, Hbrk. apply Hr. lia.
    + exists (Some t). intros fuel _. now apply customLoop_done.
Qed.

Lemma dailyLoop_total tz now (d : Date) :
  exists n r, forall fuel, (n <= fuel)%nat -> dailyLoop tz now fuel d = Some r.
Proof.
  destruct d as [t |].
  - destruct (fuel_bound now t) as [n Hn].
    destruct (dailyLoop_bounded tz now n t Hn) as [r Hr]. now exists n, r.
  - exists O, None. now intros [| fuel] _.
Qed.

Lemma weeklyLoop_total tz now (d : Date) :
  exists n r, forall fuel, (n <= fuel)%nat -> weeklyLoop tz now fuel d = Some r.
Proof.
  destruct d as [t |].
  - destruct (fuel_bound now t) as [n Hn].
    destruct (weeklyLoop_bounded tz now n t Hn) as [r Hr]. now exists n, r.
  - exists O, None. now intros [| fuel] _.
Qed.

Lemma customLoop_total tz now days (d : Date) :
  exists n r, forall fuel, (n <= fuel)%nat ->
    customLoop tz now days fuel d = Some r.
Proof.
  destruct d as [t |].
  - destruct (fuel_bound now t) as [n Hn].
    destruct (customLoop_bounded tz now days n t Hn) as [r Hr]. now exists n, r.
  - exists O, None. now intros [| fuel] _.
Qed.

(** Whatever [hours] and [minutes] evaluate to (NaN included), whatever
    the frequency, the day list and the start date are, a number of
    iterations exists after which the function has returned. *)
Lemma calculateNextDeliveryAt_total tz now frequency hours minutes
    deliveryDays startDate :
  exists n r, forall fuel, (n <= fuel)%nat ->
    calculateNextDeliveryAt tz now fuel frequency hours minutes
      deliveryDays startDate = Some r.
Proof.
  unfold calculateNextDeliveryAt. cbv zeta.
  match goal with
  | |- context [dailyLoop _ _ _ ?d] => generalize d; intros nextDate
  end.
  destruct (String.eqb frequency "daily"); [apply dailyLoop_total |].
  destruct (String.eqb frequency "weekly"); [apply weeklyLoop_total |].
  destruct (String.eqb frequency "custom"); [| now exists O, nextDate].
  destruct deliveryDays as [dd |]; [| now exists O, nextDate].
  destruct (String.eqb dd EmptyString); [now exists O, nextDate | apply customLoop_total].
Qed.

(** The [custom] loop leaves as soon as the candidate is after [now],
    allowed weekday or not: it computes what the [daily] loop computes. *)
Lemma customLoop_is_dailyLoop tz now days fuel :
  forall nextDate,
    customLoop tz now days fuel nextDate = dailyLoop tz now fuel nextDate.
Proof.
  induction fuel as [| fuel IH]; intros nextDate; [reflexivity |].
  cbn [customLoop dailyLoop].
  destruct (leb nextDate (Some now)); [| reflexivity].
  destruct (negb _); [apply IH |].
  destruct (gtb (addDays tz nextDate 1) (Some now)) eqn:Hgt; [| apply IH].
  destruct (addDays tz nextDate 1) as [t |]; [| discriminate Hgt].
  cbn [gtb] in Hgt. apply Z.ltb_lt in Hgt.
  symmetry. now apply dailyLoop_done.
Qed.

(** With a well-formed time of day neither the frequency nor the day list
    plays a part: [weekly] and [custom] return what [daily] returns. *)
Lemma result_independent_of_frequency tz now fuel deliveryTime f1 f2 dd1 dd2 s :
  validDeliveryTime deliveryTime = true ->
  calculateNextDelivery tz now fuel f1 deliveryTime dd1 (Some s) =
  calculateNextDelivery tz now fuel f2 deliveryTime dd2 (Some s).
Proof.
  intros Hv. destruct (validDeliveryTime_parse _ Hv) as (h & m & Hp & Hh & Hm).
  unfold calculateNextDelivery. rewrite Hp.
  rewrite !calculateNextDeliveryAt_first; unfold msPerHour, msPerMinute;
    (reflexivity || lia).
Qed.

(** *** Claims about [calculateNextDelivery] *)

(** C1. For every well-formed [HH:MM] delivery time, every start date
    that is a valid instant, every [now], every day list and every
    frequency (in particular [daily], [weekly] and [custom]),
    [calculateNextDelivery] returns a valid instant strictly greater
    than [now], whatever the iteration budget. *)
Theorem C1_next_delivery_after_now tz now fuel frequency deliveryTime
    deliveryDays s :
  validDeliveryTime deliveryTime = true ->
  exists r,
    calculateNextDelivery tz now fuel frequency deliveryTime deliveryDays (Some s)
    = Some (Some r) /\ now < r.
Proof.
  intros Hv. destruct (validDeliveryTime_parse _ Hv) as (h & m & Hp & Hh & Hm).
  assert (Hhm : 0 <= h * msPerHour + m * msPerMinute)
    by (unfold msPerHour, msPerMinute; lia).
  exists (firstCandidate tz now h m s). split.
  - unfold calculateNextDelivery. rewrite Hp.
    now apply calculateNextDeliveryAt_first.
  - now apply firstCandidate_future.
Qed.

Lemma C1_next_delivery_after_now_witness :
  exists r,
    calculateNextDelivery 19800000 1704189600000 0 "weekly" "06:00"
      None (Some 1704092400000) = Some (Some r) /\ 1704189600000 < r.
Proof.
  apply (C1_next_delivery_after_now 19800000 1704189600000 0 "weekly" "06:00"
           None 1704092400000).
  reflexivity.
Defined.

(** C2 (the code departs from the claim). Frequency [custom], day list
    [monday,thursday], delivery time 06:00, called on Tuesday
    2024-01-02 10:00 UTC with that instant as start date: the function
    returns Wednesday 2024-01-03 06:00 UTC, a weekday that is not in the
    day list. *)
Theorem C2_custom_result_outside_day_list :
  calculateNextDelivery 0 1704189600000 366 "custom" "06:00"
    (Some "monday,thursday") (Some 1704189600000) = Some (Some 1704261600000)
  /\ dayName (getDay 0 (Some 1704189600000)) = Some "tuesday"%string
  /\ dayName (getDay 0 (Some 1704261600000)) = Some "wednesday"%string
  /\ parseDeliveryDays "monday,thursday" = ["monday"; "thursday"]%string
  /\ includes (parseDeliveryDays "monday,thursday")
       (dayName (getDay 0 (Some 1704261600000))) = false.
Proof. repeat split; vm_compute; reflexivity. Qed.

(** C3 (the code departs from the claim). Frequency [weekly], delivery
    time 06:00, [now] = Monday 2024-01-15 07:00 UTC, start date two
    weeks earlier (Monday 2024-01-01 07:00 UTC): the function returns
    Tuesday 2024-01-16 06:00 UTC.  That is not the next Monday 06:00
    (2024-01-22), and it is not a whole number of weeks after 06:00 on
    the start date. *)
Theorem C3_weekly_result_next_day :
  calculateNextDelivery 0 1705302000000 366 "weekly" "06:00" None
    (Some (1705302000000 - 14 * msPerDay)) = Some (Some 1705384800000)
  /\ dayName (getDay 0 (Some 1705302000000)) = Some "monday"%string
  /\ dayName (getDay 0 (Some (1705302000000 - 14 * msPerDay))) = Some "monday"%string
  /\ dayName (getDay 0 (Some 1705384800000)) = Some "tuesday"%string
  /\ setHours 0 (Some (1705302000000 + 7 * msPerDay)) (Some 6) (Some 0) (Some 0) (Some 0)
     = Some 1705903200000
  /\ 1705384800000 <> 1705903200000
  /\ (1705384800000 - (1705302000000 - 14 * msPerDay - msPerHour))
       mod (7 * msPerDay) <> 0.
Proof. repeat split; vm_compute; congruence. Qed.

(** C10. [calculateNextDelivery] returns on every input: for every
    frequency, delivery-time string, day list (absent, empty or
    malformed included) and start date (an Invalid Date included) there
    is an iteration count from which the function has returned a value.
    With a well-formed delivery time and a valid start date the
    candidate is after [now] before the [switch] is reached, so the
    value is returned with an iteration budget of zero. *)
Theorem C10_calculateNextDelivery_returns tz now frequency deliveryTime
    deliveryDays startDate :
  (exists n r, forall fuel, (n <= fuel)%nat ->
     calculateNextDelivery tz now fuel frequency deliveryTime deliveryDays startDate
     = Some r)
  /\ (validDeliveryTime deliveryTime = true ->
      forall s, startDate = Some s ->
      exists r,
        calculateNextDelivery tz now 0 frequency deliveryTime deliveryDays startDate
        = Some (Some r) /\ now < r).
Proof.
  split.
  - unfold calculateNextDelivery.
    destruct (parseDeliveryTime deliveryTime) as [hours minutes].
    apply calculateNextDeliveryAt_total.
  - intros Hv s ->.
    destruct (validDeliveryTime_parse _ Hv) as (h & m & Hp & Hh & Hm).
    assert (Hhm : 0 <= h * msPerHour + m * msPerMinute)
      by (unfold msPerHour, msPerMinute; lia).
    exists (firstCandidate tz now h m s). split.
    + unfold calculateNextDelivery. rewrite Hp.
      now apply calculateNextDeliveryAt_first.
    + now apply firstCandidate_future.
Qed.

Lemma C10_calculateNextDelivery_returns_witness :
  exists r,
    calculateNextDelivery 0 1704189600000 0 "custom" "23:59" (Some " ,x")
      (Some 1704189600000) = Some (Some r) /\ 1704189600000 < r.
Proof.
  apply (proj2 (C10_calculateNextDelivery_returns 0 1704189600000 "custom"
                  "23:59" (Some " ,x") (Some 1704189600000))
           eq_refl 1704189600000 eq_refl).
Defined.

End DeliveriesFacts.

(** ** Facts about the credit ledger *)

Module CreditFacts.
Import CreditTransactions.

(** A branch that answers with an error message is not a success. *)
Ltac rejected H Hok := injection H as <- <-; discriminate Hok.

Lemma findAccount_lookup id shop db a :
  findAccount id shop db = Some a ->
  creditAccounts db !! id = Some a /\ CreditAccount.shopId a = shop.
Proof.
  unfold findAccount. destruct (creditAccounts db !! id) as [a' |]; [| discriminate].
  destruct (String.eqb_spec (CreditAccount.shopId a') shop); [| discriminate].
  intros [= <-]. now split.
Qed.

Lemma gtb_false_le x y : (x >? y) = false -> x <= y.
Proof. rewrite Z.gtb_ltb. intros H. apply Z.ltb_ge in H. exact H. Qed.

Lemma clamp_is_min limit v : (if v >? limit then limit else v) = Z.min limit v.
Proof. rewrite Z.gtb_ltb. destruct (Z.ltb_spec limit v); lia. Qed.

(** The second [update] of [POST] touches neither the ledger nor the
    balances and the limit of the row. *)
Lemma second_update_preserves id lastPaymentDate creditScore d a :
  creditAccounts d !! id = Some a ->
  let d' := updateIfAny id lastPaymentDate creditScore d in
  creditTransactions d' = creditTransactions d /\
  exists a', creditAccounts d' !! id = Some a' /\
    CreditAccount.currentBalance a' = CreditAccount.currentBalance a /\
    CreditAccount.availableCredit a' = CreditAccount.availableCredit a /\
    CreditAccount.creditLimit a' = CreditAccount.creditLimit a.
Proof.
  intros Ha.
  destruct lastPaymentDate, creditScore; cbn;
    (split; [reflexivity |]);
    rewrite ?lookup_alter_eq, Ha; eexists; (split; [reflexivity |]); now repeat split.
Qed.

(** What an accepted transaction request has gone through and what it
    leaves behind: one ledger row carrying the new balance, and the
    account row with the new balance and the clamped available credit. *)
Lemma POST_accepted auth body now db resp db' :
  POST auth body now db = (resp, db') -> isSuccess resp = true ->
  exists shop v acc tx acc',
    auth = Some shop /\ transactionSchema body = Some v /\
    findAccount (ValidatedData.accountId v) shop db = Some acc /\
    CreditAccount.isActive acc = true /\
    let r := applyType (ValidatedData.type v) (ValidatedData.amount v)
               (CreditAccount.currentBalance acc)
               (CreditAccount.availableCredit acc) in
    fst r <= CreditAccount.creditLimit acc /\
    creditTransactions db' = creditTransactions db ++ [tx] /\
    CreditTransaction.accountId tx = ValidatedData.accountId v /\
    CreditTransaction.type tx = ValidatedData.type v /\
    CreditTransaction.amount tx = ValidatedData.amount v /\
    CreditTransaction.balance tx = fst r /\
    creditAccounts db' !! ValidatedData.accountId v = Some acc' /\
    CreditAccount.currentBalance acc' = fst r /\
    CreditAccount.availableCredit acc' =
      Z.min (CreditAccount.creditLimit acc) (snd r) /\
    CreditAccount.creditLimit acc' = CreditAccount.creditLimit acc.
Proof.
  unfold POST. intros H Hok.
  destruct auth as [shop |]; [| rejected H Hok].
  destruct (transactionSchema body) as [v |]; [| rejected H Hok].
  destruct (findAccount (ValidatedData.accountId v) shop db) as [acc |] eqn:Hfind;
    [| rejected H Hok].
  destruct (CreditAccount.isActive acc) eqn:Hact;
    [| rejected H Hok].
  cbn [negb] in H.
  destruct (applyType _ _ _ _) as [nb na] eqn:Happ.
  destruct (nb >? CreditAccount.creditLimit acc) eqn:Hlim;
    [rejected H Hok |].
  apply gtb_false_le in Hlim.
  destruct (findAccount_lookup _ _ _ _ Hfind) as [Hlook _].
  rewrite clamp_is_min in H.
  match type of H with
  | (_, updateIfAny _ ?lp ?sc ?d) = _ =>
      assert (Hd : creditAccounts d !! ValidatedData.accountId v
                   = Some (setBalances nb (Z.min (CreditAccount.creditLimit acc) na)
                             now acc))
        by (cbn [updateAccount createTransaction creditAccounts];
            now rewrite lookup_alter_eq, Hlook);
      destruct (second_update_preserves _ lp sc d _ Hd)
        as (Htx & acc' & Hacc' & Hb & Ha & Hl)
  end.
  cbv zeta in Htx, Hacc'.
  injection H as <- <-.
  eexists shop, v, acc, _, acc'.
  split; [reflexivity |]. split; [reflexivity |]. split; [exact Hfind |].
  split; [exact Hact |]. cbv zeta. rewrite Happ. cbn [fst snd].
  split; [exact Hlim |].
  split; [etransitivity; [exact Htx | reflexivity] |].
  repeat (split; [reflexivity |]).
  split; [exact Hacc' |].
  rewrite Hb, Ha, Hl. now repeat split.
Qed.

(** Every row the transaction handler appends records the balance the
    account row holds once the request is done. *)
Lemma POST_entry_balance_is_account_balance auth body now db resp db' :
  POST auth body now db = (resp, db') -> isSuccess resp = true ->
  exists tx acc',
    creditTransactions db' = creditTransactions db ++ [tx] /\
    creditAccounts db' !! CreditTransaction.accountId tx = Some acc' /\
    CreditTransaction.balance tx = CreditAccount.currentBalance acc'.
Proof.
  intros H Hok.
  destruct (POST_accepted _ _ _ _ _ _ H Hok)
    as (shop & v & acc & tx & acc' & _ & _ & _ & _ & _ & Htx & Hid & _ & _ & Hbal
        & Hacc' & Hb & _).
  exists tx, acc'. rewrite Hid, Hbal, Hb. now repeat split.
Qed.

(** The payment route keeps the same discipline: the row it appends
    records the balance it gives the account. *)
Lemma processCreditPayment_entry_balance customerId shopId amount reference now db
    id acc :
  Payments.findActiveAccount customerId shopId db = Some (id, acc) ->
  exists tx acc',
    creditTransactions
      (Payments.processCreditPayment customerId shopId amount reference now db)
      = creditTransactions db ++ [tx] /\
    CreditTransaction.accountId tx = id /\
    creditAccounts
      (Payments.processCreditPayment customerId shopId amount reference now db)
      !! id = Some acc' /\
    CreditTransaction.balance tx = CreditAccount.currentBalance acc'.
Proof.
  intros Hfind. unfold Payments.processCreditPayment. rewrite Hfind.
  assert (Hlook : creditAccounts db !! id = Some acc).
  { unfold Payments.findActiveAccount in Hfind.
    apply find_some in Hfind as [Hin _].
    apply list_elem_of_In in Hin. now apply elem_of_map_to_list in Hin. }
  eexists _, _. split; [reflexivity |]. split; [reflexivity |].
  split;
    [cbn [updateAccount createTransaction creditAccounts];
     rewrite lookup_alter_eq, Hlook; reflexivity
    | reflexivity].
Qed.

(** The schema puts no condition on the sign of [amount]. *)
Lemma transactionSchema_any_amount accountId ty amount :
  transactionSchema (requestBody accountId ty amount)
  = Some (ValidatedData.mk accountId ty amount None None None).
Proof. destruct ty; reflexivity. Qed.

(** A validated request on an active account of the acting shop whose
    new balance stays within the limit is answered with success. *)
Lemma POST_within_limit shop body v acc now db :
  transactionSchema body = Some v ->
  findAccount (ValidatedData.accountId v) shop db = Some acc ->
  CreditAccount.isActive acc = true ->
  fst (applyType (ValidatedData.type v) (ValidatedData.amount v)
         (CreditAccount.currentBalance acc) (CreditAccount.availableCredit acc))
    <= CreditAccount.creditLimit acc ->
  isSuccess (fst (POST (Some shop) body now db)) = true.
Proof.
  intros Hv Hfind Hact Hlim. unfold POST. rewrite Hv, Hfind, Hact. cbn [negb].
  destruct (applyType _ _ _ _) as [nb na]. cbn [fst] in Hlim.
  rewrite Z.gtb_ltb, (proj2 (Z.ltb_ge _ _) Hlim). reflexivity.
Qed.

(** What the account-creation handler writes when it succeeds: the new
    row holds the column default as [currentBalance], the ledger row
    holds the credit limit as [balance]. *)
Lemma create_account_rows d auth body now newId db resp db' :
  CreditAccounts.POST d auth body now newId db = (resp, db') ->
  isSuccess resp = true ->
  exists v acc tx,
    CreditAccounts.createCreditAccountSchema body = Some v /\
    creditAccounts db' !! newId = Some acc /\
    CreditAccount.currentBalance acc = d /\
    CreditAccount.creditLimit acc = CreditAccounts.ValidatedData.creditLimit v /\
    CreditAccount.availableCredit acc = CreditAccounts.ValidatedData.creditLimit v /\
    creditTransactions db' = creditTransactions db ++ [tx] /\
    CreditTransaction.accountId tx = newId /\
    CreditTransaction.type tx = CREDIT /\
    CreditTransaction.balance tx = CreditAccounts.ValidatedData.creditLimit v.
Proof.
  unfold CreditAccounts.POST. intros H Hok.
  destruct auth as [shop |]; [| rejected H Hok].
  destruct (CreditAccounts.createCreditAccountSchema body) as [v |];
    [| rejected H Hok].
  destruct (negb _); [rejected H Hok |].
  destruct (CreditAccounts.findCustomer _ _ _) as [customer |];
    [| rejected H Hok].
  destruct (CreditAccounts.existingAccount _ _ _);
    [rejected H Hok |].
  injection H as <- <-.
  eexists v, _, _. split; [reflexivity |].
  split; [cbn [createTransaction creditAccounts]; apply lookup_insert_eq |].
  now repeat split.
Qed.

(** *** Claims about the credit ledger *)

(** C4. A transaction request on an active account of the acting shop
    whose computed new balance exceeds the credit limit gets the
    explicit error response (status 400, "Transaction would exceed
    credit limit") and leaves the database as it was: no ledger row is
    added and the account row is untouched. *)
Theorem C4_over_limit_rejected_no_change shop body v acc now db :
  transactionSchema body = Some v ->
  findAccount (ValidatedData.accountId v) shop db = Some acc ->
  CreditAccount.isActive acc = true ->
  CreditAccount.creditLimit acc <
    fst (applyType (ValidatedData.type v) (ValidatedData.amount v)
           (CreditAccount.currentBalance acc) (CreditAccount.availableCredit acc)) ->
  POST (Some shop) body now db
  = (Message 400 "Transaction would exceed credit limit", db).
Proof.
  intros Hv Hfind Hact Hlim. unfold POST. rewrite Hv, Hfind, Hact. cbn [negb].
  destruct (applyType _ _ _ _) as [nb na]. cbn [fst] in Hlim.
  rewrite Z.gtb_ltb, (proj2 (Z.ltb_lt _ _) Hlim). reflexivity.
Qed.

Lemma C4_over_limit_rejected_no_change_witness :
  POST (Some "shop1"%string) (requestBody "acc1" INTEREST 200) 1000
    Sample.db1
  = (Message 400 "Transaction would exceed credit limit", Sample.db1).
Proof.
  apply (C4_over_limit_rejected_no_change "shop1"
           (requestBody "acc1" INTEREST 200)
           (ValidatedData.mk "acc1" INTEREST 200 None None None)
           Sample.account1 1000 Sample.db1).
  - reflexivity.
  - vm_compute; reflexivity.
  - reflexivity.
  - vm_compute; reflexivity.
Defined.

(** C5. An accepted PAYMENT of amount [a] on an account with balance
    [b], available credit [v] and limit [l] leaves the account with
    balance [b - a] and available credit [min l (v + a)]. *)
Theorem C5_payment_balance_and_available auth body now db resp db' v acc :
  POST auth body now db = (resp, db') -> isSuccess resp = true ->
  transactionSchema body = Some v ->
  ValidatedData.type v = PAYMENT ->
  creditAccounts db !! ValidatedData.accountId v = Some acc ->
  exists acc',
    creditAccounts db' !! ValidatedData.accountId v = Some acc' /\
    CreditAccount.currentBalance acc' =
      CreditAccount.currentBalance acc - ValidatedData.amount v /\
    CreditAccount.availableCredit acc' =
      Z.min (CreditAccount.creditLimit acc)
            (CreditAccount.availableCredit acc + ValidatedData.amount v).
Proof.
  intros H Hok Hv Hty Hacc.
  destruct (POST_accepted _ _ _ _ _ _ H Hok)
    as (shop & v0 & acc0 & tx & acc' & _ & Hv0 & Hfind & _ & _ & _ & _ & _ & _ & _
        & Hacc' & Hb & Ha & _).
  rewrite Hv in Hv0. injection Hv0 as <-.
  destruct (findAccount_lookup _ _ _ _ Hfind) as [Hlook _].
  rewrite Hacc in Hlook. injection Hlook as <-.
  rewrite Hty in Hb, Ha. cbn [applyType fst snd] in Hb, Ha.
  exists acc'. now repeat split.
Qed.

Lemma C5_payment_balance_and_available_witness :
  exists acc',
    creditAccounts
      (snd (POST (Some "shop1"%string) (requestBody "acc1" PAYMENT 20)
              1000 Sample.db1))
      !! ValidatedData.accountId (ValidatedData.mk "acc1" PAYMENT 20 None None None)
    = Some acc' /\
    CreditAccount.currentBalance acc' =
      CreditAccount.currentBalance Sample.account1
      - ValidatedData.amount (ValidatedData.mk "acc1" PAYMENT 20 None None None) /\
    CreditAccount.availableCredit acc' =
      Z.min (CreditAccount.creditLimit Sample.account1)
            (CreditAccount.availableCredit Sample.account1
             + ValidatedData.amount (ValidatedData.mk "acc1" PAYMENT 20 None None None)).
Proof.
  apply (C5_payment_balance_and_available (Some "shop1"%string)
           (requestBody "acc1" PAYMENT 20) 1000 Sample.db1
           (fst (POST (Some "shop1"%string)
                   (requestBody "acc1" PAYMENT 20) 1000 Sample.db1))).
  - vm_compute; reflexivity.
  - vm_compute; reflexivity.
  - reflexivity.
  - reflexivity.
  - vm_compute; reflexivity.
Defined.

(** C6, as stated, fails: an accepted DEBIT of 500 on an account with
    limit 100 and available credit 100 leaves available credit -400. *)
Lemma C6_counterexample_negative_available :
  let r := POST (Some "shop1"%string) (requestBody "acc1" DEBIT 500)
             1000 Sample.db1 in
  isSuccess (fst r) = true /\
  CreditAccount.availableCredit <$> creditAccounts (snd r) !! "acc1"%string
    = Some (-400) /\
  CreditAccount.creditLimit <$> creditAccounts (snd r) !! "acc1"%string
    = Some 100 /\
  ~ (0 <= -400 <= 100).
Proof. cbv zeta. repeat split; try (vm_compute; reflexivity). lia. Qed.

(** C6 (amended). After every accepted credit transaction, of any type,
    the account satisfies [currentBalance <= creditLimit] and
    [availableCredit <= creditLimit]; the handler applies no lower
    bound to [availableCredit]. *)
Theorem C6_accepted_transaction_upper_bounds auth body now db resp db' :
  POST auth body now db = (resp, db') -> isSuccess resp = true ->
  exists v acc',
    transactionSchema body = Some v /\
    creditAccounts db' !! ValidatedData.accountId v = Some acc' /\
    CreditAccount.currentBalance acc' <= CreditAccount.creditLimit acc' /\
    CreditAccount.availableCredit acc' <= CreditAccount.creditLimit acc'.
Proof.
  intros H Hok.
  destruct (POST_accepted _ _ _ _ _ _ H Hok)
    as (shop & v & acc & tx & acc' & _ & Hv & _ & _ & Hle & _ & _ & _ & _ & _
        & Hacc' & Hb & Ha & Hl).
  exists v, acc'. rewrite Hb, Ha, Hl. repeat split; try assumption. lia.
Qed.

Lemma C6_accepted_transaction_upper_bounds_witness :
  exists v acc',
    transactionSchema (requestBody "acc1" DEBIT 500) = Some v /\
    creditAccounts
      (snd (POST (Some "shop1"%string) (requestBody "acc1" DEBIT 500)
              1000 Sample.db1))
      !! ValidatedData.accountId v = Some acc' /\
    CreditAccount.currentBalance acc' <= CreditAccount.creditLimit acc' /\
    CreditAccount.availableCredit acc' <= CreditAccount.creditLimit acc'.
Proof.
  apply (C6_accepted_transaction_upper_bounds (Some "shop1"%string)
           (requestBody "acc1" DEBIT 500) 1000 Sample.db1
           (fst (POST (Some "shop1"%string)
                   (requestBody "acc1" DEBIT 500) 1000 Sample.db1))).
  - vm_compute; reflexivity.
  - vm_compute; reflexivity.
Defined.

(** C7 (the code departs from the claim). Creating an account with
    credit limit 5000 for a customer of shop1: the handler succeeds, the
    new account row holds the column default [d] as [currentBalance],
    and the one ledger row it writes, the initial CREDIT entry, records
    [balance] 5000; with credit limit 7000 the entry records 7000 and the
    account again [d].  Whatever the default is, one of the two entries
    differs from the balance of its account.  The rows written by the
    transaction handler do record the account balance
    ([POST_entry_balance_is_account_balance]). *)
Theorem C7_initial_entry_balance_is_credit_limit (d : Z) :
  let r5 := CreditAccounts.POST d (Some "shop1"%string)
              (CreditAccounts.requestBody "cust1" "shop1" 5000) 1000 "acc1" Sample.db0 in
  let r7 := CreditAccounts.POST d (Some "shop1"%string)
              (CreditAccounts.requestBody "cust1" "shop1" 7000) 1000 "acc1" Sample.db0 in
  (isSuccess (fst r5) = true /\
   CreditAccount.currentBalance <$> creditAccounts (snd r5) !! "acc1"%string = Some d /\
   map (fun tx => (CreditTransaction.accountId tx, CreditTransaction.type tx,
                   CreditTransaction.balance tx)) (creditTransactions (snd r5))
     = [("acc1"%string, CREDIT, 5000)]) /\
  (isSuccess (fst r7) = true /\
   CreditAccount.currentBalance <$> creditAccounts (snd r7) !! "acc1"%string = Some d /\
   map (fun tx => (CreditTransaction.accountId tx, CreditTransaction.type tx,
                   CreditTransaction.balance tx)) (creditTransactions (snd r7))
     = [("acc1"%string, CREDIT, 7000)]) /\
  (5000 <> d \/ 7000 <> d).
Proof.
  cbv zeta. split; [| split].
  - repeat split; vm_compute; reflexivity.
  - repeat split; vm_compute; reflexivity.
  - lia.
Qed.

(** C8, as stated, fails: with 3 orders, 500 spent and no settings row
    the function returns 75, not 65. *)
Lemma C8_counterexample_score_is_75 :
  calculateCreditScore Sample.customer1 None = 75 /\
  calculateCreditScore Sample.customer1 None <> 65.
Proof. split; vm_compute; congruence. Qed.

(** C8 (amended). For a customer with [totalOrders = 3] and
    [totalSpent = 500], [calculateCreditScore] returns
    100 - 10 (order-count band) - 15 (spend band) = 75 when there is no
    settings row or [minCreditScore <= 75], and [minCreditScore], capped
    at 100, when [minCreditScore > 75]. *)
Theorem C8_score_for_3_orders_500_spent customer settings :
  Customer.totalOrders customer = 3 ->
  Customer.totalSpent customer = 500 ->
  calculateCreditScore customer settings =
  match settings with
  | None => 75
  | Some st => Z.min 100 (Z.max 75 (CreditSettings.minCreditScore st))
  end.
Proof.
  intros Ho Hs. unfold calculateCreditScore. rewrite Ho, Hs. cbn.
  destruct settings as [st |]; [| reflexivity].
  change (100 - 10 - 15) with 75.
  destruct (Z.ltb_spec 75 (CreditSettings.minCreditScore st)); lia.
Qed.

Lemma C8_score_for_3_orders_500_spent_witness :
  calculateCreditScore Sample.customer1 (Some (CreditSettings.mk 80 7)) =
  Z.min 100 (Z.max 75 (CreditSettings.minCreditScore (CreditSettings.mk 80 7))).
Proof.
  apply (C8_score_for_3_orders_500_spent Sample.customer1
           (Some (CreditSettings.mk 80 7))); reflexivity.
Defined.

(** Whatever the sign of the amount, a request on an active account of
    the acting shop is accepted whenever the computed new balance does
    not exceed the credit limit: a ledger row carrying the amount as sent
    is appended and the account takes the new balance. *)
Lemma POST_accepts_either_sign shop accountId ty amount acc now db :
  findAccount accountId shop db = Some acc ->
  CreditAccount.isActive acc = true ->
  fst (applyType ty amount (CreditAccount.currentBalance acc)
         (CreditAccount.availableCredit acc)) <= CreditAccount.creditLimit acc ->
  isSuccess (fst (POST (Some shop) (requestBody accountId ty amount) now db)) = true /\
  exists tx acc',
    creditTransactions (snd (POST (Some shop) (requestBody accountId ty amount) now db))
      = creditTransactions db ++ [tx] /\
    CreditTransaction.amount tx = amount /\
    creditAccounts (snd (POST (Some shop) (requestBody accountId ty amount) now db))
      !! accountId = Some acc' /\
    CreditAccount.currentBalance acc' =
      fst (applyType ty amount (CreditAccount.currentBalance acc)
             (CreditAccount.availableCredit acc)).
Proof.
  intros Hfind Hact Hlim.
  pose proof (transactionSchema_any_amount accountId ty amount) as Hv.
  assert (Hok : isSuccess (fst (POST (Some shop) (requestBody accountId ty amount)
                                  now db)) = true)
    by (eapply POST_within_limit; eauto).
  split; [exact Hok |].
  destruct (POST (Some shop) (requestBody accountId ty amount) now db)
    as [resp db'] eqn:HP.
  destruct (POST_accepted _ _ _ _ _ _ HP Hok)
    as (shop0 & v & acc0 & tx & acc' & Hs & Hv0 & Hfind0 & _ & _ & Htx & _ & _ & Ham
        & _ & Hacc' & Hb & _).
  injection Hs as <-. rewrite Hv in Hv0. injection Hv0 as <-.
  cbn [ValidatedData.accountId ValidatedData.type ValidatedData.amount] in *.
  rewrite Hfind in Hfind0. injection Hfind0 as <-.
  exists tx, acc'. cbn [snd]. now repeat split.
Qed.

(** C9 (the code departs from the claim). [transactionSchema] puts no
    bound on [amount]: for every account id, type and amount, negative
    ones included, the body passes validation unchanged.  So a request
    with a negative amount is not refused: a CREDIT with amount -50 on
    an active account of the acting shop (balance 0, available 100,
    limit 100) gets the success answer, a ledger row with amount -50 and
    balance -50 is appended, and the account goes to balance -50 and
    available credit 50, where the claim has a validation error and no
    change of state. *)
Theorem C9_negative_amount_processed :
  (forall accountId ty amount,
     transactionSchema (requestBody accountId ty amount)
     = Some (ValidatedData.mk accountId ty amount None None None)) /\
  let body := requestBody "acc1" CREDIT (-50) in
  let r := POST (Some "shop1"%string) body 1000 Sample.db1 in
  isSuccess (fst r) = true /\
  map (fun tx => (CreditTransaction.amount tx, CreditTransaction.balance tx))
    (creditTransactions (snd r)) = [(-50, -50)] /\
  CreditAccount.currentBalance <$> creditAccounts (snd r) !! "acc1"%string
    = Some (-50) /\
  CreditAccount.availableCredit <$> creditAccounts (snd r) !! "acc1"%string
    = Some 50 /\
  creditTransactions Sample.db1 = [] /\
  CreditAccount.currentBalance <$> creditAccounts Sample.db1 !! "acc1"%string
    = Some 0 /\
  CreditAccount.availableCredit <$> creditAccounts Sample.db1 !! "acc1"%string
    = Some 100.
Proof.
  split; [exact transactionSchema_any_amount |].
  cbv zeta. repeat split; vm_compute; reflexivity.
Qed.

(** The scoring route carries a second [calculateCreditScore] with other
    bands.  For the same customer (3 orders, 500 spent, no settings row)
    it charges 15 for the order count, 20 for the spend and 5 for the
    average order value (500 / 3), and then 10 more without a recent
    order, or 5 less with three or more. *)
Lemma scoring_route_score_for_3_orders_500_spent now customer :
  Customer.totalOrders customer = 3 ->
  Customer.totalSpent customer = 500 ->
  CreditScoring.calculateCreditScore now customer None =
  let recent := Z.of_nat (List.length (CreditScoring.recentOrders now customer)) in
  if recent =? 0 then 50 else if recent >=? 3 then 65 else 60.
Proof.
  intros Ho Hs. unfold CreditScoring.calculateCreditScore. rewrite Ho, Hs. cbn.
  destruct (_ =? 0); [reflexivity |]. destruct (_ >=? 3); reflexivity.
Qed.

End CreditFacts.

(** ** More about the scheduler *)

Module SchedulerExtras.
Import JsString JsDate Deliveries JsStringFacts DeliveriesFacts.

Lemma valid_time_of_day deliveryTime h m :
  validDeliveryTime deliveryTime = true ->
  parseDeliveryTime deliveryTime = (Some h, Some m) ->
  0 <= h * msPerHour + m * msPerMinute < msPerDay.
Proof.
  intros Hv Hp. destruct (validDeliveryTime_parse _ Hv) as (h' & m' & Hp' & Hh & Hm).
  rewrite Hp in Hp'. injection Hp' as -> ->.
  unfold msPerHour, msPerMinute, msPerDay. lia.
Qed.

Lemma valid_result tz now fuel frequency deliveryTime deliveryDays s h m r :
  validDeliveryTime deliveryTime = true ->
  parseDeliveryTime deliveryTime = (Some h, Some m) ->
  calculateNextDelivery tz now fuel frequency deliveryTime deliveryDays (Some s)
    = Some (Some r) ->
  r = firstCandidate tz now h m s.
Proof.
  intros Hv Hp Hr. pose proof (valid_time_of_day _ _ _ Hv Hp) as Hhm.
  unfold calculateNextDelivery in Hr. rewrite Hp in Hr.
  rewrite calculateNextDeliveryAt_first in Hr by lia. now injection Hr as <-.
Qed.

(** X1. In a local zone whose offset from UTC is the constant [tz] (a
    zone without daylight saving, such as Asia/Kolkata or UTC) and with a
    delivery time the schema accepts, the result falls, in local time,
    exactly on the delivery time of day, on the calendar day of the later
    of the start date and [now] or on the day after.  (Where the offset
    changes, [setHours] can land on another time of day; that case is
    not covered.) *)
Theorem X1_result_on_delivery_time_of_day tz now fuel frequency deliveryTime
    deliveryDays s h m r :
  validDeliveryTime deliveryTime = true ->
  parseDeliveryTime deliveryTime = (Some h, Some m) ->
  calculateNextDelivery tz now fuel frequency deliveryTime deliveryDays (Some s)
    = Some (Some r) ->
  TimeWithinDay (LocalTime tz r) = h * msPerHour + m * msPerMinute /\
  (Day (LocalTime tz r) = Day (LocalTime tz (Z.max s now)) \/
   Day (LocalTime tz r) = Day (LocalTime tz (Z.max s now)) + 1).
Proof.
  intros Hv Hp Hr. pose proof (valid_time_of_day _ _ _ Hv Hp) as Hhm.
  rewrite (valid_result _ _ _ _ _ _ _ _ _ _ Hv Hp Hr).
  unfold firstCandidate, LocalTime, TimeWithinDay.
  replace (if s <? now then now else s) with (Z.max s now)
    by (destruct (Z.ltb_spec s now); lia).
  set (q := Day (Z.max s now + tz)). set (hm := h * msPerHour + m * msPerMinute) in *.
  assert (D : 0 < msPerDay) by reflexivity.
  destruct (q * msPerDay + hm - tz <=? now); unfold Day; split.
  - symmetry. apply (Z.mod_unique_pos _ _ (q + 1)); lia.
  - right. symmetry. apply (Z.div_unique_pos _ _ _ hm); lia.
  - symmetry. apply (Z.mod_unique_pos _ _ q); lia.
  - left. symmetry. apply (Z.div_unique_pos _ _ _ hm); lia.
Qed.

Lemma X1_result_on_delivery_time_of_day_witness :
  TimeWithinDay (LocalTime 19800000 1704243600000) = 6 * msPerHour + 30 * msPerMinute /\
  (Day (LocalTime 19800000 1704243600000)
     = Day (LocalTime 19800000 (Z.max 1704092400000 1704189600000)) \/
   Day (LocalTime 19800000 1704243600000)
     = Day (LocalTime 19800000 (Z.max 1704092400000 1704189600000)) + 1).
Proof.
  apply (X1_result_on_delivery_time_of_day 19800000 1704189600000 0 "weekly" "06:30"
           None 1704092400000 6 30 1704243600000); reflexivity.
Defined.

Lemma calculateNextDelivery_valid tz now fuel frequency deliveryTime deliveryDays s :
  validDeliveryTime deliveryTime = true ->
  exists h m,
    parseDeliveryTime deliveryTime = (Some h, Some m) /\
    calculateNextDelivery tz now fuel frequency deliveryTime deliveryDays (Some s)
      = Some (Some (firstCandidate tz now h m s)).
Proof.
  intros Hv. destruct (validDeliveryTime_parse _ Hv) as (h & m & Hp & Hh & Hm).
  exists h, m. split; [exact Hp |].
  unfold calculateNextDelivery. rewrite Hp.
  apply calculateNextDeliveryAt_first. unfold msPerHour, msPerMinute. lia.
Qed.

Lemma firstCandidate_within_a_day tz now h m s :
  0 <= h * msPerHour + m * msPerMinute < msPerDay -> s <= now ->
  now < firstCandidate tz now h m s <= now + msPerDay.
Proof.
  intros Hhm Hs. split; [apply firstCandidate_future; lia |].
  unfold firstCandidate, Day.
  replace (if s <? now then now else s) with now
    by (destruct (Z.ltb_spec s now); lia).
  pose proof (Z.div_mod (now + tz) msPerDay ltac:(discriminate)) as E.
  pose proof (Z.mod_pos_bound (now + tz) msPerDay ltac:(reflexivity)) as B.
  destruct (Z.leb_spec
    ((now + tz) / msPerDay * msPerDay + (h * msPerHour + m * msPerMinute) - tz) now);
    lia.
Qed.

(** X2. In a local zone whose offset from UTC is the constant [tz] (a
    zone without daylight saving), when the delivery time is well formed
    and the start date is not after [now] (the handlers that schedule
    the next delivery pass [new Date()]), the result is after [now] and
    at most 24 hours after [now].  (Where the offset changes, a calendar
    day can last 23 or 25 hours; that case is not covered.) *)
Theorem X2_next_delivery_within_a_day tz now fuel frequency deliveryTime
    deliveryDays s r :
  validDeliveryTime deliveryTime = true ->
  s <= now ->
  calculateNextDelivery tz now fuel frequency deliveryTime deliveryDays (Some s)
    = Some (Some r) ->
  now < r <= now + msPerDay.
Proof.
  intros Hv Hs Hr. destruct (validDeliveryTime_parse _ Hv) as (h & m & Hp & _ & _).
  rewrite (valid_result _ _ _ _ _ _ _ _ _ _ Hv Hp Hr).
  apply firstCandidate_within_a_day; [exact (valid_time_of_day _ _ _ Hv Hp) | exact Hs].
Qed.

Lemma X2_next_delivery_within_a_day_witness :
  1704189600000 < 1704243600000 <= 1704189600000 + msPerDay.
Proof.
  apply (X2_next_delivery_within_a_day 19800000 1704189600000 0 "custom" "06:30"
           (Some "monday"%string) 1704092400000 1704243600000).
  - reflexivity.
  - lia.
  - reflexivity.
Defined.

(** X3. With a non-empty day list the [custom] frequency returns what
    [daily] returns, on every input and with every iteration budget: the
    day list never decides the result. *)
Theorem X3_custom_is_daily tz now fuel deliveryTime dd deliveryDays' startDate :
  dd <> EmptyString ->
  calculateNextDelivery tz now fuel "custom" deliveryTime (Some dd) startDate =
  calculateNextDelivery tz now fuel "daily" deliveryTime deliveryDays' startDate.
Proof.
  intros Hdd. unfold calculateNextDelivery.
  destruct (parseDeliveryTime deliveryTime) as [hours minutes].
  unfold calculateNextDeliveryAt. cbv zeta.
  change (String.eqb "custom" "daily") with false.
  change (String.eqb "custom" "weekly") with false.
  change (String.eqb "custom" "custom") with true.
  change (String.eqb "daily" "daily") with true. cbv iota.
  destruct (String.eqb_spec dd EmptyString) as [E | _]; [contradiction |].
  apply customLoop_is_dailyLoop.
Qed.

Lemma X3_custom_is_daily_witness :
  calculateNextDelivery 0 1704189600000 5 "custom" "-48:00" (Some "monday"%string)
    (Some 1704189600000) =
  calculateNextDelivery 0 1704189600000 5 "daily" "-48:00" None (Some 1704189600000).
Proof.
  apply (X3_custom_is_daily 0 1704189600000 5 "-48:00" "monday" None
           (Some 1704189600000)).
  discriminate.
Defined.

Lemma split_without_separator sep s :
  forallb (fun c => negb (Ascii.eqb c sep)) (list_ascii_of_string s) = true ->
  split sep s = [s].
Proof.
  induction s as [| c r IH]; [reflexivity |].
  cbn [list_ascii_of_string forallb split]. intros H.
  apply andb_true_iff in H as [Hc Hr]. apply negb_true_iff in Hc.
  now rewrite Hc, (IH Hr).
Qed.

Lemma invalid_minutes_give_invalid_date tz now fuel frequency hours deliveryDays
    startDate :
  calculateNextDeliveryAt tz now fuel frequency hours None deliveryDays startDate
  = Some None.
Proof.
  unfold calculateNextDeliveryAt. cbv zeta.
  assert (E : forall d, setHours tz d hours None (Some 0) (Some 0) = None).
  { intros [t |]; [| reflexivity]. unfold setHours, MakeTime. now destruct hours. }
  rewrite E. cbn [leb].
  destruct (String.eqb frequency "daily"); [now destruct fuel |].
  destruct (String.eqb frequency "weekly"); [now destruct fuel |].
  destruct (String.eqb frequency "custom"); [| reflexivity].
  destruct deliveryDays as [dd |]; [| reflexivity].
  destruct (String.eqb dd EmptyString); [reflexivity | now destruct fuel].
Qed.

Lemma no_colon_gives_invalid_date tz now fuel frequency deliveryTime deliveryDays startDate :
  forallb (fun c => negb (Ascii.eqb c ":")) (list_ascii_of_string deliveryTime)
    = true ->
  calculateNextDelivery tz now fuel frequency deliveryTime deliveryDays startDate
  = Some None.
Proof.
  intros H. unfold calculateNextDelivery, parseDeliveryTime.
  rewrite (split_without_separator _ _ H). cbn [map nth_error].
  apply invalid_minutes_give_invalid_date.
Qed.

(** X4. A delivery time that contains no colon ("0600", "6", the empty
    string) does not raise an error: the function returns an Invalid
    Date, for every frequency, day list and start date, without running
    a loop. *)
Theorem X4_time_without_colon_gives_invalid_date tz now fuel frequency
    deliveryTime deliveryDays startDate :
  forallb (fun c => negb (Ascii.eqb c ":")) (list_ascii_of_string deliveryTime)
    = true ->
  calculateNextDelivery tz now fuel frequency deliveryTime deliveryDays startDate
  = Some None.
Proof.
  exact (no_colon_gives_invalid_date tz now fuel frequency deliveryTime deliveryDays startDate).
Qed.

Lemma X4_time_without_colon_gives_invalid_date_witness :
  calculateNextDelivery 0 1704189600000 0 "weekly" "0600" None (Some 1704189600000)
  = Some None.
Proof.
  apply (X4_time_without_colon_gives_invalid_date 0 1704189600000 0 "weekly" "0600"
           None (Some 1704189600000)).
  reflexivity.
Defined.

End SchedulerExtras.

(** ** The handlers of the delivery route *)

Module DeliveryRouteFacts.
Import JsString JsDate Deliveries DeliveriesFacts SchedulerExtras DeliveryRoute.

(** For a request made at [now] with a well-formed delivery time the
    scheduler's answer passes the thirty-day test. *)
Lemma next_delivery_from_now tz now fuel frequency deliveryTime deliveryDays :
  validDeliveryTime deliveryTime = true ->
  exists r,
    calculateNextDelivery tz now fuel frequency deliveryTime deliveryDays (Some now)
      = Some (Some r) /\
    now < r <= now + msPerDay /\
    leb (Some r) (addDays tz (Some now) 30) = true.
Proof.
  intros Hv.
  destruct (calculateNextDelivery_valid tz now fuel frequency deliveryTime
              deliveryDays now Hv) as (h & m & Hp & Hr).
  pose proof (firstCandidate_within_a_day tz now h m now
                (valid_time_of_day _ _ _ Hv Hp) ltac:(lia)) as Hb.
  eexists. split; [exact Hr |]. split; [exact Hb |].
  rewrite addDays_valid. cbn [leb]. apply Z.leb_le. unfold msPerDay in *. lia.
Qed.

(** X5. For an active subscription whose delivery time is well formed,
    [createNextDelivery] adds exactly one row: a SCHEDULED delivery of
    the subscription's quantity and delivery time, dated after [now];
    the thirty-day test never holds it back.  Nothing else changes. *)
Theorem X5_createNextDelivery_adds_one_scheduled tz now fuel newId subscriptionId
    db sub :
  subscriptions db !! subscriptionId = Some sub ->
  Subscription.isActive sub = true ->
  validDeliveryTime (Subscription.deliveryTime sub) = true ->
  exists r db',
    createNextDelivery tz now fuel newId subscriptionId db = Some db' /\
    calculateNextDelivery tz now fuel (Subscription.frequency sub)
      (Subscription.deliveryTime sub) (Subscription.deliveryDays sub) (Some now)
      = Some (Some r) /\
    now < r /\
    deliverySchedules db' =
      deliverySchedules db ++
      [DeliverySchedule.mk newId subscriptionId r (Subscription.deliveryTime sub)
         SCHEDULED (Subscription.quantity sub) None None None None None None] /\
    subscriptions db' = subscriptions db /\
    invoices db' = invoices db /\
    subscriptionSettings db' = subscriptionSettings db.
Proof.
  intros Hsub Hact Hv.
  destruct (next_delivery_from_now tz now fuel (Subscription.frequency sub)
              (Subscription.deliveryTime sub) (Subscription.deliveryDays sub) Hv)
    as (r & Hr & Hb & Hle).
  exists r. eexists. unfold createNextDelivery.
  rewrite Hsub, Hact. cbn [negb]. rewrite Hr. cbv zeta. rewrite Hle.
  split; [reflexivity |]. split; [reflexivity |]. split; [lia |]. now repeat split.
Qed.

Lemma X5_createNextDelivery_adds_one_scheduled_witness :
  exists r db',
    createNextDelivery 0 1704189600000 0 "d2" "sub1" SampleSub.subDb1 = Some db' /\
    calculateNextDelivery 0 1704189600000 0
      (Subscription.frequency SampleSub.subscription1)
      (Subscription.deliveryTime SampleSub.subscription1)
      (Subscription.deliveryDays SampleSub.subscription1) (Some 1704189600000)
      = Some (Some r) /\
    1704189600000 < r /\
    deliverySchedules db' =
      deliverySchedules SampleSub.subDb1 ++
      [DeliverySchedule.mk "d2" "sub1" r (Subscription.deliveryTime SampleSub.subscription1)
         SCHEDULED (Subscription.quantity SampleSub.subscription1)
         None None None None None None] /\
    subscriptions db' = subscriptions SampleSub.subDb1 /\
    invoices db' = invoices SampleSub.subDb1 /\
    subscriptionSettings db' = subscriptionSettings SampleSub.subDb1.
Proof.
  apply (X5_createNextDelivery_adds_one_scheduled 0 1704189600000 0 "d2" "sub1"
           SampleSub.subDb1 SampleSub.subscription1).
  - vm_compute; reflexivity.
  - reflexivity.
  - reflexivity.
Defined.

(** X6. [createNextDelivery] changes nothing when the subscription is
    missing or inactive, and nothing when the stored delivery time has no
    colon: the Invalid Date fails the thirty-day comparison and no row is
    written. *)
Theorem X6_createNextDelivery_leaves_db tz now fuel newId subscriptionId db :
  match subscriptions db !! subscriptionId with
  | None => True
  | Some sub =>
      Subscription.isActive sub = false \/
      forallb (fun c => negb (Ascii.eqb c ":"))
        (list_ascii_of_string (Subscription.deliveryTime sub)) = true
  end ->
  createNextDelivery tz now fuel newId subscriptionId db = Some db.
Proof.
  unfold createNextDelivery.
  destruct (subscriptions db !! subscriptionId) as [sub |]; [| reflexivity].
  intros [Hin | Hnc].
  - now rewrite Hin.
  - destruct (Subscription.isActive sub); [| reflexivity]. cbn [negb].
    now rewrite (no_colon_gives_invalid_date tz now fuel _ _ _ _ Hnc).
Qed.

Lemma X6_createNextDelivery_leaves_db_witness :
  createNextDelivery 0 1704189600000 0 "d2" "sub9" SampleSub.subDb1 = Some SampleSub.subDb1.
Proof.
  apply (X6_createNextDelivery_leaves_db 0 1704189600000 0 "d2" "sub9" SampleSub.subDb1).
  vm_compute. exact I.
Defined.

(** [createNextDelivery] touches only the delivery table, where it adds at
    most one row at the end. *)
Lemma createNextDelivery_frame tz now fuel newId subscriptionId db db' :
  createNextDelivery tz now fuel newId subscriptionId db = Some db' ->
  subscriptions db' = subscriptions db /\
  invoices db' = invoices db /\
  subscriptionSettings db' = subscriptionSettings db /\
  exists extra,
    deliverySchedules db' = deliverySchedules db ++ extra /\
    (List.length extra <= 1)%nat.
Proof.
  unfold createNextDelivery. intros H.
  assert (Hsame : forall d, Some db = Some d ->
            subscriptions d = subscriptions db /\ invoices d = invoices db /\
            subscriptionSettings d = subscriptionSettings db /\
            exists extra, deliverySchedules d = deliverySchedules db ++ extra /\
                          (List.length extra <= 1)%nat).
  { intros d [= <-]. repeat split. exists [].
    split; [now rewrite app_nil_r | cbn; lia]. }
  destruct (subscriptions db !! subscriptionId) as [sub |]; [| now apply Hsame].
  destruct (negb _); [now apply Hsame |].
  destruct (calculateNextDelivery _ _ _ _ _ _ _) as [next |]; [| discriminate H].
  cbv zeta in H. destruct (leb next _); [| now apply Hsame].
  destruct next as [r |]; [| now apply Hsame].
  injection H as <-. repeat split. eexists. split; [reflexivity |]. cbn. lia.
Qed.

Lemma findDelivery_found id shop db d sub :
  findDelivery id shop db = Some (d, sub) ->
  In d (deliverySchedules db) /\
  DeliverySchedule.id d = id /\
  subscriptions db !! DeliverySchedule.subscriptionId d = Some sub /\
  Subscription.shopId sub = shop.
Proof.
  unfold findDelivery. intros H.
  destruct (List.find _ _) as [d0 |] eqn:Hfind; [| discriminate H].
  apply find_some in Hfind as [Hin Hp].
  destruct (subscriptions db !! DeliverySchedule.subscriptionId d0) as [s0 |] eqn:Hs;
    [| discriminate H].
  injection H as <- <-.
  apply andb_true_iff in Hp as [Hid Hshop].
  apply String.eqb_eq in Hid. apply String.eqb_eq in Hshop. now repeat split.
Qed.

(** X7. The error answers that the delivery [PUT] gives by itself are
    401 without a token, 400 without an id or for a body the schema
    rejects, and 404 for a delivery that is missing or belongs to another
    shop.  Each of them is given before the first write: the database is
    unchanged.  The 500 of the handler's [catch], given when a database
    call fails, possibly after a write, is not among them and is not
    covered. *)
Theorem X7_delivery_PUT_error_changes_nothing tz now fuel newId invoiceNumber auth
    deliveryId body db reply db' :
  PUT tz now fuel newId invoiceNumber auth deliveryId body db = Some (reply, db') ->
  isFail reply = true ->
  db' = db /\
  exists status message,
    reply = Fail status message /\ (status = 401 \/ status = 400 \/ status = 404).
Proof.
  unfold PUT. intros H Hfail.
  assert (Hout : forall status message,
            Some (Fail status message, db) = Some (reply, db') ->
            status = 401 \/ status = 400 \/ status = 404 ->
            db' = db /\
            exists status message,
              reply = Fail status message /\
              (status = 401 \/ status = 400 \/ status = 404)).
  { intros status message [= <- <-] Hs. split; [reflexivity |]. now eexists _, _. }
  destruct auth as [shop |]; [| apply (Hout _ _ H); lia].
  destruct (orNull deliveryId) as [id |]; [| apply (Hout _ _ H); lia].
  destruct (updateDeliverySchema body) as [v |]; [| apply (Hout _ _ H); lia].
  destruct (findDelivery id shop db) as [[d sub] |]; [| apply (Hout _ _ H); lia].
  cbv zeta in H.
  destruct (isDelivered _ && Subscription.isActive sub);
    [destruct (createNextDelivery _ _ _ _ _ _) as [db2 |]; [| discriminate H] |];
    injection H as <- <-; discriminate Hfail.
Qed.

Lemma X7_delivery_PUT_error_changes_nothing_witness :
  SampleSub.subDb1 = SampleSub.subDb1 /\
  exists status message,
    Fail 404 "Delivery not found" = Fail status message /\
    (status = 401 \/ status = 400 \/ status = 404).
Proof.
  apply (X7_delivery_PUT_error_changes_nothing 0 1704189600000 0 "d2" "inv1"
           (Some "shop2"%string) (Some "d1"%string) (Json.Obj []) SampleSub.subDb1
           (Fail 404 "Delivery not found") SampleSub.subDb1).
  - vm_compute; reflexivity.
  - reflexivity.
Defined.

(** X8. A successful delivery [PUT] rewrites the rows with the given id
    and no other row, stamps [deliveredAt] with the clock exactly when
    the new status is DELIVERED, and adds at most one row at the end of
    the table; unless the new status is DELIVERED it adds no row, writes
    no invoice and leaves the subscriptions as they are. *)
Theorem X8_delivery_PUT_frame tz now fuel newId invoiceNumber auth deliveryId body
    db d' db' :
  PUT tz now fuel newId invoiceNumber auth deliveryId body db
    = Some (DeliveryUpdated d', db') ->
  exists id v d extra,
    deliveryId = Some id /\
    updateDeliverySchema body = Some v /\
    In d (deliverySchedules db) /\ DeliverySchedule.id d = id /\
    deliverySchedules db' =
      map (fun x => if String.eqb (DeliverySchedule.id x) id
                    then applyUpdateData now v x else x) (deliverySchedules db)
      ++ extra /\
    (List.length extra <= 1)%nat /\
    DeliverySchedule.deliveredAt d' =
      (if isDelivered (ValidatedData.status v) then Some now
       else DeliverySchedule.deliveredAt d) /\
    (isDelivered (ValidatedData.status v) = false ->
     extra = [] /\ invoices db' = invoices db /\
     subscriptions db' = subscriptions db).
Proof.
  unfold PUT. intros H.
  destruct auth as [shop |]; [| discriminate H].
  destruct (orNull deliveryId) as [id |] eqn:Hid; [| discriminate H].
  destruct (updateDeliverySchema body) as [v |]; [| discriminate H].
  destruct (findDelivery id shop db) as [[d sub] |] eqn:Hfind; [| discriminate H].
  destruct (findDelivery_found _ _ _ _ _ Hfind) as (Hin & Hdid & _ & _).
  cbv zeta in H.
  assert (Hdel : deliveryId = Some id).
  { unfold orNull in Hid. destruct deliveryId as [x |]; [| discriminate Hid].
    destruct (String.eqb x EmptyString); [discriminate Hid | exact Hid]. }
  exists id, v, d.
  destruct (isDelivered (ValidatedData.status v)) eqn:Hst; cbn [andb] in H.
  - destruct (Subscription.isActive sub).
    + destruct (createNextDelivery _ _ _ _ _ _) as [db2 |] eqn:Hnext; [| discriminate H].
      destruct (createNextDelivery_frame _ _ _ _ _ _ _ Hnext)
        as (_ & _ & _ & extra & Hrows & Hlen).
      exists extra. injection H as <- <-.
      repeat split; try assumption; try discriminate.
      * destruct (Subscription.autoCharge sub); [| exact Hrows].
        unfold createSubscriptionInvoice.
        destruct (subscriptions db2 !! _); [| exact Hrows].
        destruct (negb _); exact Hrows.
      * cbn. now rewrite Hst.
    + exists []. injection H as <- <-.
      repeat split; try assumption; try discriminate; try (cbn; lia).
      * rewrite app_nil_r. destruct (Subscription.autoCharge sub); [| reflexivity].
        unfold createSubscriptionInvoice.
        destruct (subscriptions _ !! _); [| reflexivity].
        destruct (negb _); reflexivity.
      * cbn. now rewrite Hst.
  - exists []. injection H as <- <-.
    repeat split; try assumption; try (cbn; lia).
    + now rewrite app_nil_r.
    + cbn. now rewrite Hst.
Qed.

Lemma X8_delivery_PUT_frame_witness :
  exists id v d extra,
    Some "d1"%string = Some id /\
    updateDeliverySchema (Json.Obj [("status"%string, Json.Str "SKIPPED")]) = Some v /\
    In d (deliverySchedules SampleSub.subDb1) /\ DeliverySchedule.id d = id /\
    deliverySchedules
      (updateDelivery "d1"
         (applyUpdateData 1704189600000
            (ValidatedData.mk (Some SKIPPED) None None None None None None))
         SampleSub.subDb1) =
      map (fun x => if String.eqb (DeliverySchedule.id x) id
                    then applyUpdateData 1704189600000 v x else x)
        (deliverySchedules SampleSub.subDb1)
      ++ extra /\
    (List.length extra <= 1)%nat /\
    DeliverySchedule.deliveredAt
      (applyUpdateData 1704189600000
         (ValidatedData.mk (Some SKIPPED) None None None None None None)
         SampleSub.delivery1) =
      (if isDelivered (ValidatedData.status v) then Some 1704189600000
       else DeliverySchedule.deliveredAt d) /\
    (isDelivered (ValidatedData.status v) = false ->
     extra = [] /\
     invoices
       (updateDelivery "d1"
          (applyUpdateData 1704189600000
             (ValidatedData.mk (Some SKIPPED) None None None None None None))
          SampleSub.subDb1) = invoices SampleSub.subDb1 /\
     subscriptions
       (updateDelivery "d1"
          (applyUpdateData 1704189600000
             (ValidatedData.mk (Some SKIPPED) None None None None None None))
          SampleSub.subDb1) = subscriptions SampleSub.subDb1).
Proof.
  apply (X8_delivery_PUT_frame 0 1704189600000 0 "d2" "inv1" (Some "shop1"%string)
           (Some "d1"%string) (Json.Obj [("status"%string, Json.Str "SKIPPED")])
           SampleSub.subDb1).
  vm_compute; reflexivity.
Defined.



End DeliveryRouteFacts.

(** ** Pause, resume, cancel and removal of a subscription *)

Module SubscriptionFacts.
Import JsString JsDate Deliveries DeliveriesFacts SchedulerExtras.
Import DeliveryRouteFacts SubscriptionActions.

(** One step of case analysis on the handler under study. *)
Ltac handler_case H :=
  match type of H with
  | context [if ?c then _ else _] => destruct c eqn:?
  | context [match ?x with _ => _ end] => destruct x eqn:?
  end.

(** X10. The error answers of the action handler are given before the
    first write.  For a request that the handler answers with an error
    (401; 400 for a missing id or action, a forbidden or an unknown
    action; 404 for an unknown subscription, one of another shop, or a
    shop without settings; 500 for a [null] body, for an id or a reason
    that is a number, a boolean or an array, and for an Invalid Date as
    next delivery) the database is unchanged.  Requests whose id or
    reason is a JSON object, which Prisma reads as an operator, and
    failures of the database itself are not covered: the handler model
    gives no answer for the former and has none of the latter. *)
Theorem X10_action_error_changes_nothing tz now later fuel newId auth body db reply
    db' :
  POST tz now later fuel newId auth body db = Some (reply, db') ->
  isFail reply = true ->
  db' = db.
Proof.
  unfold POST. intros H Hfail.
  repeat first
    [ discriminate H
    | injection H as <- <-; first [reflexivity | discriminate Hfail]
    | handler_case H ].
Qed.

Lemma X10_action_error_changes_nothing_witness :
  snd (Fail 400 "Invalid action", SampleSub.subDb1) = SampleSub.subDb1.
Proof.
  apply (X10_action_error_changes_nothing 0 1704189600000 1704189600005 0 "d2"
           (Some "shop1"%string) (SampleSub.actionBody "sub1" "stop") SampleSub.subDb1
           (Fail 400 "Invalid action")).
  - vm_compute; reflexivity.
  - reflexivity.
Defined.

Section Requests.

Variables (tz now later : Z) (fuel : nat) (newId shop id : string).
Variables (fields : list (string * Json.value)) (db : SubDb).
Variables (sub : Subscription.t) (settings : SubscriptionSettings.t).

Hypothesis Hid : Json.member "subscriptionId" fields = Some (Json.Str id).
Hypothesis Hne : id <> EmptyString.
Hypothesis Hsub : findSubscription id shop db = Some sub.
Hypothesis Hsettings : subscriptionSettings db !! shop = Some settings.

Lemma id_truthy : Json.truthy (Json.Str id) = true.
Proof. cbn. now destruct (String.eqb_spec id EmptyString). Qed.

Lemma pause_result reason :
  Json.member "action" fields = Some (Json.Str "pause") ->
  Json.zStringOptional (Json.member "reason" fields) = Some reason ->
  SubscriptionSettings.allowPause settings = true ->
  POST tz now later fuel newId (Some shop) (Json.Obj fields) db =
  Some (Done "Subscription paused successfully",
        deleteManyDeliveries
          (fun d => String.eqb (DeliverySchedule.subscriptionId d) id
                    && (now <=? DeliverySchedule.deliveryDate d))
          (updateSubscription id (setPaused (orNull reason)) db)).
Proof.
  intros Hact Hreason Hallow. unfold POST. cbv zeta.
  rewrite Hid, Hact, id_truthy. cbn [Json.truthy String.eqb Ascii.eqb Bool.eqb negb orb].
  rewrite Hsub, Hsettings, Hallow. cbn [negb].
  destruct (Json.member "reason" fields) as [[| | | x | |] |]; try discriminate Hreason;
    injection Hreason as <-; cbn [Json.truthy orNull];
    try destruct (String.eqb x EmptyString); reflexivity.
Qed.

Lemma cancel_result :
  Json.member "action" fields = Some (Json.Str "cancel") ->
  SubscriptionSettings.allowCancel settings = true ->
  POST tz now later fuel newId (Some shop) (Json.Obj fields) db =
  Some (Done "Subscription cancelled successfully",
        updateSubscription id (setCancelled now)
          (deleteManyDeliveries
             (fun d => String.eqb (DeliverySchedule.subscriptionId d) id) db)).
Proof.
  intros Hact Hallow. unfold POST. cbv zeta.
  rewrite Hid, Hact, id_truthy. cbn [Json.truthy String.eqb Ascii.eqb Bool.eqb negb orb].
  now rewrite Hsub, Hsettings, Hallow.
Qed.

(** [resume] computes the next delivery twice, from two readings of the
    clock: [r1] goes into the subscription, [r2] dates the delivery. *)
Lemma resume_result :
  Json.member "action" fields = Some (Json.Str "resume") ->
  validDeliveryTime (Subscription.deliveryTime sub) = true ->
  exists r1 r2,
    now < r1 /\ later < r2 /\
    calculateNextDelivery tz now fuel (Subscription.frequency sub)
      (Subscription.deliveryTime sub) (Subscription.deliveryDays sub) (Some now)
      = Some (Some r1) /\
    calculateNextDelivery tz later fuel (Subscription.frequency sub)
      (Subscription.deliveryTime sub) (Subscription.deliveryDays sub) (Some later)
      = Some (Some r2) /\
    POST tz now later fuel newId (Some shop) (Json.Obj fields) db =
    Some (Done "Subscription resumed successfully",
          DeliveryRoute.createScheduled newId id r2 (Subscription.deliveryTime sub)
            (Subscription.quantity sub)
            (updateSubscription id (setResumed r1) db)).
Proof.
  intros Hact Hv.
  destruct (next_delivery_from_now tz now fuel (Subscription.frequency sub)
              (Subscription.deliveryTime sub) (Subscription.deliveryDays sub) Hv)
    as (r1 & Hr1 & Hb1 & _).
  destruct (next_delivery_from_now tz later fuel (Subscription.frequency sub)
              (Subscription.deliveryTime sub) (Subscription.deliveryDays sub) Hv)
    as (r2 & Hr2 & Hb2 & Hle).
  exists r1, r2. split; [lia |]. split; [lia |].
  split; [exact Hr1 |]. split; [exact Hr2 |]. unfold POST. cbv zeta.
  rewrite Hid, Hact, id_truthy. cbn [Json.truthy String.eqb Ascii.eqb Bool.eqb negb orb].
  rewrite Hsub, Hsettings, Hr1. unfold createDeliverySchedule.
  cbn [Subscription.frequency Subscription.deliveryTime Subscription.deliveryDays].
  rewrite Hr2. cbv zeta. now rewrite Hle.
Qed.

End Requests.

Lemma findSubscription_lookup id shop db sub :
  findSubscription id shop db = Some sub ->
  subscriptions db !! id = Some sub /\ Subscription.shopId sub = shop.
Proof.
  unfold findSubscription. destruct (subscriptions db !! id) as [s |]; [| discriminate].
  destruct (String.eqb_spec (Subscription.shopId s) shop); [| discriminate].
  intros [= <-]. now split.
Qed.

Lemma filter_not_In (where_ : DeliverySchedule.t -> bool) rows d :
  In d (List.filter (fun x => negb (where_ x)) rows) <->
  In d rows /\ where_ d = false.
Proof. rewrite filter_In. now rewrite negb_true_iff. Qed.

(** X11. A permitted [pause] removes exactly the deliveries of the
    subscription that are dated at or after the clock: its earlier
    deliveries and every delivery of another subscription stay.  The
    subscription is marked paused with no next delivery; the other
    subscriptions and the invoices are untouched. *)
Theorem X11_pause_removes_upcoming_deliveries tz now later fuel newId shop id fields
    db sub settings reason :
  Json.member "subscriptionId" fields = Some (Json.Str id) ->
  id <> EmptyString ->
  findSubscription id shop db = Some sub ->
  subscriptionSettings db !! shop = Some settings ->
  Json.member "action" fields = Some (Json.Str "pause") ->
  Json.zStringOptional (Json.member "reason" fields) = Some reason ->
  SubscriptionSettings.allowPause settings = true ->
  exists db' sub',
    POST tz now later fuel newId (Some shop) (Json.Obj fields) db
      = Some (Done "Subscription paused successfully", db') /\
    (forall d, In d (deliverySchedules db') <->
               In d (deliverySchedules db) /\
               (DeliverySchedule.subscriptionId d <> id \/
                DeliverySchedule.deliveryDate d < now)) /\
    subscriptions db' !! id = Some sub' /\
    Subscription.paused sub' = true /\
    Subscription.nextDelivery sub' = None /\
    Subscription.pauseReason sub' = orNull reason /\
    Subscription.isActive sub' = Subscription.isActive sub /\
    (forall other, other <> id ->
       subscriptions db' !! other = subscriptions db !! other) /\
    invoices db' = invoices db.
Proof.
  intros Hid Hne Hsub Hsettings Hact Hreason Hallow.
  destruct (findSubscription_lookup _ _ _ _ Hsub) as [Hlook _].
  eexists _, (setPaused (orNull reason) sub).
  split; [eapply pause_result; eassumption |].
  cbn [deleteManyDeliveries updateSubscription deliverySchedules subscriptions invoices].
  split; [| split; [now rewrite lookup_alter_eq, Hlook |]].
  - intros d. rewrite filter_not_In, andb_false_iff, String.eqb_neq, Z.leb_gt. tauto.
  - repeat split. intros other Hother. now apply lookup_alter_ne.
Qed.

Lemma X11_pause_removes_upcoming_deliveries_witness :
  exists db' sub',
    POST 0 1704100000000 1704100000005 0 "d2" (Some "shop1"%string)
      (Json.Obj [("subscriptionId"%string, Json.Str "sub1");
                 ("action"%string, Json.Str "pause")]) SampleSub.subDb1
      = Some (Done "Subscription paused successfully", db') /\
    (forall d, In d (deliverySchedules db') <->
               In d (deliverySchedules SampleSub.subDb1) /\
               (DeliverySchedule.subscriptionId d <> "sub1"%string \/
                DeliverySchedule.deliveryDate d < 1704100000000)) /\
    subscriptions db' !! "sub1"%string = Some sub' /\
    Subscription.paused sub' = true /\
    Subscription.nextDelivery sub' = None /\
    Subscription.pauseReason sub' = orNull None /\
    Subscription.isActive sub' = Subscription.isActive SampleSub.subscription1 /\
    (forall other, other <> "sub1"%string ->
       subscriptions db' !! other = subscriptions SampleSub.subDb1 !! other) /\
    invoices db' = invoices SampleSub.subDb1.
Proof.
  apply (X11_pause_removes_upcoming_deliveries 0 1704100000000 1704100000005 0 "d2" "shop1" "sub1"
           [("subscriptionId"%string, Json.Str "sub1"); ("action"%string, Json.Str "pause")]
           SampleSub.subDb1 SampleSub.subscription1 SubscriptionActions.defaultSettings
           None).
  - reflexivity.
  - discriminate.
  - vm_compute; reflexivity.
  - vm_compute; reflexivity.
  - reflexivity.
  - reflexivity.
  - reflexivity.
Defined.

(** X12. A permitted [cancel] removes every delivery of the subscription,
    the delivered ones included, and no delivery of another
    subscription; the subscription becomes inactive, ends at the clock
    and has no next delivery. *)
Theorem X12_cancel_removes_all_deliveries tz now later fuel newId shop id fields db
    sub settings :
  Json.member "subscriptionId" fields = Some (Json.Str id) ->
  id <> EmptyString ->
  findSubscription id shop db = Some sub ->
  subscriptionSettings db !! shop = Some settings ->
  Json.member "action" fields = Some (Json.Str "cancel") ->
  SubscriptionSettings.allowCancel settings = true ->
  exists db' sub',
    POST tz now later fuel newId (Some shop) (Json.Obj fields) db
      = Some (Done "Subscription cancelled successfully", db') /\
    (forall d, In d (deliverySchedules db') <->
               In d (deliverySchedules db) /\
               DeliverySchedule.subscriptionId d <> id) /\
    subscriptions db' !! id = Some sub' /\
    Subscription.isActive sub' = false /\
    Subscription.endDate sub' = Some now /\
    Subscription.nextDelivery sub' = None /\
    (forall other, other <> id ->
       subscriptions db' !! other = subscriptions db !! other).
Proof.
  intros Hid Hne Hsub Hsettings Hact Hallow.
  destruct (findSubscription_lookup _ _ _ _ Hsub) as [Hlook _].
  eexists _, (setCancelled now sub).
  split; [eapply cancel_result; eassumption |].
  cbn [deleteManyDeliveries updateSubscription deliverySchedules subscriptions].
  split; [| split; [now rewrite lookup_alter_eq, Hlook |]].
  - intros d. rewrite filter_not_In, String.eqb_neq. tauto.
  - repeat split. intros other Hother. now apply lookup_alter_ne.
Qed.

Lemma X12_cancel_removes_all_deliveries_witness :
  exists db' sub',
    POST 0 1704189600000 1704189600005 0 "d2" (Some "shop1"%string)
      (Json.Obj [("subscriptionId"%string, Json.Str "sub1");
                 ("action"%string, Json.Str "cancel")]) SampleSub.subDb1
      = Some (Done "Subscription cancelled successfully", db') /\
    (forall d, In d (deliverySchedules db') <->
               In d (deliverySchedules SampleSub.subDb1) /\
               DeliverySchedule.subscriptionId d <> "sub1"%string) /\
    subscriptions db' !! "sub1"%string = Some sub' /\
    Subscription.isActive sub' = false /\
    Subscription.endDate sub' = Some 1704189600000 /\
    Subscription.nextDelivery sub' = None /\
    (forall other, other <> "sub1"%string ->
       subscriptions db' !! other = subscriptions SampleSub.subDb1 !! other).
Proof.
  apply (X12_cancel_removes_all_deliveries 0 1704189600000 1704189600005 0 "d2" "shop1" "sub1"
           [("subscriptionId"%string, Json.Str "sub1"); ("action"%string, Json.Str "cancel")]
           SampleSub.subDb1 SampleSub.subscription1 SubscriptionActions.defaultSettings).
  - reflexivity.
  - discriminate.
  - vm_compute; reflexivity.
  - vm_compute; reflexivity.
  - reflexivity.
  - reflexivity.
Defined.

(** X13. [resume] asks neither whether the subscription is paused nor
    whether it is active.  For any subscription of the shop with a
    well-formed delivery time it clears the pause, stores a next delivery
    [r1] that lies after the clock, and appends one SCHEDULED delivery
    dated [r2], which lies after the clock as well.  [r1] and [r2] are
    two results of [calculateNextDelivery], each for its own reading of
    the clock ([now], then [later]); nothing makes them equal.
    [isActive] keeps its value, so a cancelled subscription that is
    resumed gets a delivery and stays inactive. *)
Theorem X13_resume_schedules_whatever_the_state tz now later fuel newId shop id fields
    db sub settings :
  Json.member "subscriptionId" fields = Some (Json.Str id) ->
  id <> EmptyString ->
  findSubscription id shop db = Some sub ->
  subscriptionSettings db !! shop = Some settings ->
  Json.member "action" fields = Some (Json.Str "resume") ->
  validDeliveryTime (Subscription.deliveryTime sub) = true ->
  exists r1 r2 db' sub',
    POST tz now later fuel newId (Some shop) (Json.Obj fields) db
      = Some (Done "Subscription resumed successfully", db') /\
    calculateNextDelivery tz now fuel (Subscription.frequency sub)
      (Subscription.deliveryTime sub) (Subscription.deliveryDays sub) (Some now)
      = Some (Some r1) /\
    calculateNextDelivery tz later fuel (Subscription.frequency sub)
      (Subscription.deliveryTime sub) (Subscription.deliveryDays sub) (Some later)
      = Some (Some r2) /\
    now < r1 /\ later < r2 /\
    deliverySchedules db' =
      deliverySchedules db ++
      [DeliverySchedule.mk newId id r2 (Subscription.deliveryTime sub) SCHEDULED
         (Subscription.quantity sub) None None None None None None] /\
    subscriptions db' !! id = Some sub' /\
    Subscription.paused sub' = false /\
    Subscription.pauseReason sub' = None /\
    Subscription.nextDelivery sub' = Some r1 /\
    Subscription.isActive sub' = Subscription.isActive sub.
Proof.
  intros Hid Hne Hsub Hsettings Hact Hv.
  destruct (findSubscription_lookup _ _ _ _ Hsub) as [Hlook _].
  destruct (resume_result tz now later fuel newId shop id fields db sub settings
              Hid Hne Hsub Hsettings Hact Hv)
    as (r1 & r2 & Hb1 & Hb2 & Hr1 & Hr2 & HP).
  exists r1, r2. eexists _, (setResumed r1 sub).
  split; [exact HP |]. split; [exact Hr1 |]. split; [exact Hr2 |].
  split; [exact Hb1 |]. split; [exact Hb2 |].
  cbn [DeliveryRoute.createScheduled updateSubscription deliverySchedules subscriptions].
  split; [reflexivity |]. split; [now rewrite lookup_alter_eq, Hlook |].
  now repeat split.
Qed.

Lemma X13_resume_schedules_whatever_the_state_witness :
  exists r1 r2 db' sub',
    POST 0 1704189600000 1704189600005 0 "d2" (Some "shop1"%string)
      (Json.Obj [("subscriptionId"%string, Json.Str "sub1");
                 ("action"%string, Json.Str "resume")]) SampleSub.subDb1
      = Some (Done "Subscription resumed successfully", db') /\
    calculateNextDelivery 0 1704189600000 0
      (Subscription.frequency SampleSub.subscription1)
      (Subscription.deliveryTime SampleSub.subscription1)
      (Subscription.deliveryDays SampleSub.subscription1) (Some 1704189600000)
      = Some (Some r1) /\
    calculateNextDelivery 0 1704189600005 0
      (Subscription.frequency SampleSub.subscription1)
      (Subscription.deliveryTime SampleSub.subscription1)
      (Subscription.deliveryDays SampleSub.subscription1) (Some 1704189600005)
      = Some (Some r2) /\
    1704189600000 < r1 /\ 1704189600005 < r2 /\
    deliverySchedules db' =
      deliverySchedules SampleSub.subDb1 ++
      [DeliverySchedule.mk "d2" "sub1" r2
         (Subscription.deliveryTime SampleSub.subscription1) SCHEDULED
         (Subscription.quantity SampleSub.subscription1)
         None None None None None None] /\
    subscriptions db' !! "sub1"%string = Some sub' /\
    Subscription.paused sub' = false /\
    Subscription.pauseReason sub' = None /\
    Subscription.nextDelivery sub' = Some r1 /\
    Subscription.isActive sub' = Subscription.isActive SampleSub.subscription1.
Proof.
  apply (X13_resume_schedules_whatever_the_state 0 1704189600000 1704189600005 0 "d2"
           "shop1" "sub1"
           [("subscriptionId"%string, Json.Str "sub1"); ("action"%string, Json.Str "resume")]
           SampleSub.subDb1 SampleSub.subscription1 SubscriptionActions.defaultSettings).
  - reflexivity.
  - discriminate.
  - vm_compute; reflexivity.
  - vm_compute; reflexivity.
  - reflexivity.
  - reflexivity.
Defined.

(** X14. Pause followed by resume: when the shop allows pausing and the
    delivery time is well formed, a pause and a later resume both
    succeed.  Afterwards the subscription is not paused, its next
    delivery [r1] lies after the clock of the resume, and a SCHEDULED
    delivery is in the table whose date [r2] lies after the clock as
    well; [r1] and [r2] come from the two clock readings of the resume. *)
Theorem X14_pause_then_resume tz now1 later1 now2 later2 fuel newId shop id db sub
    settings :
  id <> EmptyString ->
  findSubscription id shop db = Some sub ->
  subscriptionSettings db !! shop = Some settings ->
  SubscriptionSettings.allowPause settings = true ->
  validDeliveryTime (Subscription.deliveryTime sub) = true ->
  exists db1 db2 r1 r2 sub2,
    POST tz now1 later1 fuel newId (Some shop) (SampleSub.actionBody id "pause") db
      = Some (Done "Subscription paused successfully", db1) /\
    POST tz now2 later2 fuel newId (Some shop) (SampleSub.actionBody id "resume") db1
      = Some (Done "Subscription resumed successfully", db2) /\
    now2 < r1 /\ later2 < r2 /\
    subscriptions db2 !! id = Some sub2 /\
    Subscription.paused sub2 = false /\
    Subscription.nextDelivery sub2 = Some r1 /\
    In (DeliverySchedule.mk newId id r2 (Subscription.deliveryTime sub) SCHEDULED
          (Subscription.quantity sub) None None None None None None)
       (deliverySchedules db2).
Proof.
  intros Hne Hsub Hsettings Hallow Hv.
  destruct (findSubscription_lookup _ _ _ _ Hsub) as [Hlook Hshop].
  assert (Hidf : forall a,
            Json.member "subscriptionId"
              [("subscriptionId"%string, Json.Str id); ("action"%string, Json.Str a)]
            = Some (Json.Str id)) by reflexivity.
  pose proof (pause_result tz now1 later1 fuel newId shop id _ db sub settings
                (Hidf "pause"%string) Hne Hsub Hsettings None eq_refl eq_refl Hallow)
    as HP.
  set (db1 := deleteManyDeliveries
                (fun d => String.eqb (DeliverySchedule.subscriptionId d) id
                          && (now1 <=? DeliverySchedule.deliveryDate d))
                (updateSubscription id (setPaused (orNull None)) db)) in HP.
  assert (Hsub1 : findSubscription id shop db1 = Some (setPaused None sub)).
  { unfold findSubscription, db1.
    cbn [deleteManyDeliveries updateSubscription subscriptions].
    rewrite lookup_alter_eq, Hlook. cbn. now rewrite Hshop, String.eqb_refl. }
  destruct (resume_result tz now2 later2 fuel newId shop id _ db1 (setPaused None sub)
              settings (Hidf "resume"%string) Hne Hsub1 Hsettings eq_refl Hv)
    as (r1 & r2 & Hb1 & Hb2 & _ & _ & HR).
  exists db1. eexists _, r1, r2, (setResumed r1 (setPaused None sub)).
  split; [exact HP |]. split; [exact HR |]. split; [exact Hb1 |]. split; [exact Hb2 |].
  cbn [DeliveryRoute.createScheduled updateSubscription deliverySchedules subscriptions].
  split.
  - unfold db1. cbn [deleteManyDeliveries updateSubscription subscriptions].
    now rewrite !lookup_alter_eq, Hlook.
  - split; [reflexivity |]. split; [reflexivity |].
    apply in_or_app. right. now left.
Qed.

Lemma X14_pause_then_resume_witness :
  exists db1 db2 r1 r2 sub2,
    POST 0 1704100000000 1704100000005 0 "d2" (Some "shop1"%string)
      (SampleSub.actionBody "sub1" "pause") SampleSub.subDb1
      = Some (Done "Subscription paused successfully", db1) /\
    POST 0 1704189600000 1704189600005 0 "d2" (Some "shop1"%string)
      (SampleSub.actionBody "sub1" "resume") db1
      = Some (Done "Subscription resumed successfully", db2) /\
    1704189600000 < r1 /\ 1704189600005 < r2 /\
    subscriptions db2 !! "sub1"%string = Some sub2 /\
    Subscription.paused sub2 = false /\
    Subscription.nextDelivery sub2 = Some r1 /\
    In (DeliverySchedule.mk "d2" "sub1" r2
          (Subscription.deliveryTime SampleSub.subscription1) SCHEDULED
          (Subscription.quantity SampleSub.subscription1)
          None None None None None None)
       (deliverySchedules db2).
Proof.
  apply (X14_pause_then_resume 0 1704100000000 1704100000005 1704189600000
           1704189600005 0 "d2" "shop1" "sub1"
           SampleSub.subDb1 SampleSub.subscription1 SubscriptionActions.defaultSettings).
  - discriminate.
  - vm_compute; reflexivity.
  - vm_compute; reflexivity.
  - reflexivity.
  - reflexivity.
Defined.

(** X15. As long as no database call fails, [DELETE] has one of two
    outcomes.  Either it answers 401, 400 or 404 and has written nothing;
    or it was asked by the shop that owns the subscription, and then the
    subscription is gone together with every one of its deliveries,
    while the deliveries of other subscriptions and the invoices stay.
    (The handler deletes the deliveries first and the subscription
    second, outside a transaction; its 500 answer after a failed
    database call is not covered.) *)
Theorem X15_delete_subscription auth subscriptionId db reply db' :
  SubscriptionRoute.DELETE auth subscriptionId db = (reply, db') ->
  (db' = db /\
   exists status message,
     reply = Fail status message /\ (status = 401 \/ status = 400 \/ status = 404)) \/
  (exists shop id sub,
     auth = Some shop /\ subscriptionId = Some id /\
     subscriptions db !! id = Some sub /\ Subscription.shopId sub = shop /\
     reply = Done "Subscription deleted successfully" /\
     subscriptions db' = delete id (subscriptions db) /\
     (forall d, In d (deliverySchedules db') <->
                In d (deliverySchedules db) /\
                DeliverySchedule.subscriptionId d <> id) /\
     invoices db' = invoices db).
Proof.
  unfold SubscriptionRoute.DELETE. intros H.
  assert (Hout : forall status message,
            (Fail status message, db) = (reply, db') ->
            status = 401 \/ status = 400 \/ status = 404 ->
            db' = db /\
            exists status message,
              reply = Fail status message /\
              (status = 401 \/ status = 400 \/ status = 404)).
  { intros status message [= <- <-] Hs. split; [reflexivity |]. now eexists _, _. }
  destruct auth as [shop |]; [| left; apply (Hout _ _ H); lia].
  destruct (orNull subscriptionId) as [id |] eqn:Hid;
    [| left; apply (Hout _ _ H); lia].
  destruct (findSubscription id shop db) as [sub |] eqn:Hsub;
    [| left; apply (Hout _ _ H); lia].
  clear Hout.
  destruct (findSubscription_lookup _ _ _ _ Hsub) as [Hlook Hshop].
  right. exists shop, id, sub. injection H as <- <-.
  assert (Hs : subscriptionId = Some id).
  { unfold orNull in Hid. destruct subscriptionId as [x |]; [| discriminate Hid].
    destruct (String.eqb x EmptyString); [discriminate Hid | exact Hid]. }
  repeat split; try assumption.
  - cbn in H. apply filter_not_In in H. tauto.
  - cbn in H. apply filter_not_In in H. destruct H as [_ H].
    now apply String.eqb_neq in H.
  - intros [Hin Hd]. cbn. apply filter_not_In. split; [exact Hin |].
    now apply String.eqb_neq.
Qed.

Lemma X15_delete_subscription_witness :
  (snd (SubscriptionRoute.DELETE (Some "shop1"%string) (Some "sub1"%string)
          SampleSub.subDb1) = SampleSub.subDb1 /\
   exists status message,
     Done "Subscription deleted successfully" = Fail status message /\
     (status = 401 \/ status = 400 \/ status = 404)) \/
  (exists shop id sub,
     Some "shop1"%string = Some shop /\ Some "sub1"%string = Some id /\
     subscriptions SampleSub.subDb1 !! id = Some sub /\
     Subscription.shopId sub = shop /\
     Done "Subscription deleted successfully"
       = Done "Subscription deleted successfully" /\
     subscriptions
       (snd (SubscriptionRoute.DELETE (Some "shop1"%string) (Some "sub1"%string)
               SampleSub.subDb1))
       = delete id (subscriptions SampleSub.subDb1) /\
     (forall d,
        In d (deliverySchedules
                (snd (SubscriptionRoute.DELETE (Some "shop1"%string)
                        (Some "sub1"%string) SampleSub.subDb1))) <->
        In d (deliverySchedules SampleSub.subDb1) /\
        DeliverySchedule.subscriptionId d <> id) /\
     invoices
       (snd (SubscriptionRoute.DELETE (Some "shop1"%string) (Some "sub1"%string)
               SampleSub.subDb1))
       = invoices SampleSub.subDb1).
Proof.
  apply (X15_delete_subscription (Some "shop1"%string) (Some "sub1"%string)
           SampleSub.subDb1).
  vm_compute; reflexivity.
Defined.

(** X16. Reading the settings is idempotent: the first [GET] of a shop
    without settings stores the defaults, and a [GET] on the resulting
    database returns the same row and changes nothing. *)
Theorem X16_settings_GET_idempotent auth db r db1 :
  GET auth db = (r, db1) ->
  GET auth db1 = (r, db1).
Proof.
  unfold GET. intros H.
  destruct auth as [shop |]; [| now injection H as <- <-].
  destruct (subscriptionSettings db !! shop) as [st |] eqn:Hst.
  - injection H as <- <-. now rewrite Hst.
  - injection H as <- <-.
    cbn [setSettings subscriptionSettings]. now rewrite lookup_insert_eq.
Qed.

Lemma X16_settings_GET_idempotent_witness :
  GET (Some "shop7"%string) (snd (GET (Some "shop7"%string) SampleSub.subDb1))
  = (fst (GET (Some "shop7"%string) SampleSub.subDb1),
     snd (GET (Some "shop7"%string) SampleSub.subDb1)).
Proof.
  apply (X16_settings_GET_idempotent (Some "shop7"%string) SampleSub.subDb1).
  vm_compute; reflexivity.
Defined.

(** X17. A settings [PUT] whose body is the empty object is a [GET]: on a
    shop without settings it stores and returns the defaults, on a shop
    with settings it returns the row and changes nothing. *)
Theorem X17_settings_PUT_empty_is_GET auth db :
  PUT auth (Json.Obj []) db = GET auth db.
Proof.
  unfold PUT, GET. destruct auth as [shop |]; [| reflexivity].
  cbn [settingsSchema Json.member zBooleanOptional zFrequencyOptional
       zNumberMinOptional].
  destruct (subscriptionSettings db !! shop) as [st |] eqn:Hst; [| reflexivity].
  assert (E : mergeSettings
                (ValidatedData.mk None None None None None None None None None None)
                st = st) by now destruct st.
  rewrite E. f_equal. destruct db as [subs rows invs sets].
  unfold setSettings. cbn in *. f_equal. now apply insert_id.
Qed.

End SubscriptionFacts.

(** ** More about the credit ledger and the scores *)

Module CreditExtras.
Import CreditTransactions CreditFacts ScoreBands.

Lemma score_by_bands customer settings :
  calculateCreditScore customer settings =
  floorAndClamp settings
    (100 + ordersBand (Customer.totalOrders customer)
     + spendBand (Customer.totalSpent customer)
     + highValueBand (Customer.totalSpent customer)).
Proof.
  unfold calculateCreditScore, floorAndClamp, ordersBand, spendBand, highValueBand.
  destruct (_ <? 5); [| destruct (_ <? 10)];
    (destruct (_ <? 1000); [| destruct (_ <? 5000); [| destruct (_ <? 10000)]]);
    (destruct (_ >? 50000); [| destruct (_ >? 20000)]); reflexivity.
Qed.

Lemma scoring_score_by_bands now customer settings :
  CreditScoring.calculateCreditScore now customer settings =
  floorAndClamp settings
    (100 + orderCountBand (Customer.totalOrders customer)
     + totalSpentBand (Customer.totalSpent customer)
     + avgOrderValueBand (Customer.totalOrders customer) (Customer.totalSpent customer)
     + recentBand (Z.of_nat (List.length (CreditScoring.recentOrders now customer)))).
Proof.
  unfold CreditScoring.calculateCreditScore, floorAndClamp, orderCountBand,
    totalSpentBand, avgOrderValueBand, recentBand. cbv zeta.
  set (oc := Customer.totalOrders customer). set (ts := Customer.totalSpent customer).
  set (rc := Z.of_nat _).
  destruct (oc <? 5); [| destruct (oc <? 10); [| destruct (oc <? 20);
    [| destruct (oc >=? 50)]]];
    (destruct (ts <? 1000); [| destruct (ts <? 5000); [| destruct (ts <? 10000);
      [| destruct (ts <? 20000); [| destruct (ts >=? 50000); [| destruct (ts >=? 20000)]]]]]);
    (destruct (if oc >? 0 then ts <? 100 * oc else 0 <? 100);
      [| destruct (if oc >? 0 then ts <? 500 * oc else 0 <? 500);
        [| destruct (negb (if oc >? 0 then ts <? 1000 * oc else 0 <? 1000))]]);
    (destruct (rc =? 0); [| destruct (rc >=? 3)]); reflexivity.
Qed.

Lemma floorAndClamp_range settings score : 0 <= floorAndClamp settings score <= 100.
Proof. unfold floorAndClamp. lia. Qed.

Lemma floorAndClamp_floor st score :
  CreditSettings.minCreditScore st <= 100 ->
  CreditSettings.minCreditScore st <= floorAndClamp (Some st) score.
Proof.
  unfold floorAndClamp. intros H.
  destruct (Z.ltb_spec score (CreditSettings.minCreditScore st)); lia.
Qed.

Lemma floorAndClamp_mono settings a b :
  a <= b -> floorAndClamp settings a <= floorAndClamp settings b.
Proof.
  unfold floorAndClamp. intros H. destruct settings as [st |]; [| lia].
  destruct (Z.ltb_spec a (CreditSettings.minCreditScore st));
    destruct (Z.ltb_spec b (CreditSettings.minCreditScore st)); lia.
Qed.

Ltac band_cases :=
  repeat match goal with
         | |- context [?a <? ?b] => destruct (Z.ltb_spec a b)
         | |- context [?a >? ?b] => rewrite (Z.gtb_ltb a b)
         | |- context [?a >=? ?b] => rewrite (Z.geb_leb a b)
         | |- context [?a <=? ?b] => destruct (Z.leb_spec a b)
         | |- context [?a =? ?b] => destruct (Z.eqb_spec a b)
         end.

Lemma ordersBand_mono a b : a <= b -> ordersBand a <= ordersBand b.
Proof. unfold ordersBand. intros H. band_cases; lia. Qed.

Lemma spendBand_mono a b : a <= b -> spendBand a <= spendBand b.
Proof. unfold spendBand. intros H. band_cases; lia. Qed.

Lemma highValueBand_mono a b : a <= b -> highValueBand a <= highValueBand b.
Proof. unfold highValueBand. intros H. band_cases; lia. Qed.

Lemma totalSpentBand_mono a b : a <= b -> totalSpentBand a <= totalSpentBand b.
Proof. unfold totalSpentBand. intros H. band_cases; lia. Qed.

Lemma avgOrderValueBand_mono oc a b :
  a <= b -> avgOrderValueBand oc a <= avgOrderValueBand oc b.
Proof.
  unfold avgOrderValueBand. intros H. cbv zeta.
  rewrite (Z.gtb_ltb oc 0). destruct (Z.ltb_spec 0 oc); cbn [negb];
    [band_cases; cbn [negb]; lia | reflexivity].
Qed.

Lemma recentBand_least recent : recentBand 0 <= recentBand recent.
Proof. unfold recentBand. cbn. band_cases; lia. Qed.

(** X21. Both score functions return a value between 0 and 100, and,
    when the shop's [minCreditScore] is itself at most 100 (the settings
    schema admits 0 to 100), a value that is not below it. *)
Theorem X21_scores_within_bounds now customer settings :
  0 <= calculateCreditScore customer settings <= 100 /\
  0 <= CreditScoring.calculateCreditScore now customer settings <= 100 /\
  (forall st, settings = Some st -> CreditSettings.minCreditScore st <= 100 ->
     CreditSettings.minCreditScore st <= calculateCreditScore customer settings /\
     CreditSettings.minCreditScore st
       <= CreditScoring.calculateCreditScore now customer settings).
Proof.
  rewrite score_by_bands, scoring_score_by_bands.
  split; [apply floorAndClamp_range |]. split; [apply floorAndClamp_range |].
  intros st -> Hst. split; now apply floorAndClamp_floor.
Qed.

Lemma X21_scores_within_bounds_witness :
  90 <= calculateCreditScore Sample.customer1 (Some (CreditSettings.mk 90 7)) /\
  90 <= CreditScoring.calculateCreditScore 1000 Sample.customer1
          (Some (CreditSettings.mk 90 7)).
Proof.
  refine (proj2 (proj2 (X21_scores_within_bounds 1000 Sample.customer1
                          (Some (CreditSettings.mk 90 7))))
            (CreditSettings.mk 90 7) eq_refl _).
  cbn; lia.
Defined.

(** X22. The score of the transactions and accounts routes never goes
    down when a customer has more orders or has spent more. *)
Theorem X22_score_monotone c1 c2 settings :
  Customer.totalOrders c1 <= Customer.totalOrders c2 ->
  Customer.totalSpent c1 <= Customer.totalSpent c2 ->
  calculateCreditScore c1 settings <= calculateCreditScore c2 settings.
Proof.
  intros Ho Hs. rewrite !score_by_bands. apply floorAndClamp_mono.
  pose proof (ordersBand_mono _ _ Ho). pose proof (spendBand_mono _ _ Hs).
  pose proof (highValueBand_mono _ _ Hs). lia.
Qed.

Lemma X22_score_monotone_witness :
  calculateCreditScore Sample.customer1 None
  <= calculateCreditScore (Customer.mk "cust2" "shop1" 12 60000 None) None.
Proof.
  apply (X22_score_monotone Sample.customer1
           (Customer.mk "cust2" "shop1" 12 60000 None) None); cbn; lia.
Defined.

(** X23. The score of the scoring route never goes down when a customer
    has spent more, the number of orders and the recent orders being the
    same. *)
Theorem X23_scoring_score_monotone_in_spend now c1 c2 settings :
  Customer.totalOrders c1 = Customer.totalOrders c2 ->
  Customer.orders c1 = Customer.orders c2 ->
  Customer.totalSpent c1 <= Customer.totalSpent c2 ->
  CreditScoring.calculateCreditScore now c1 settings
  <= CreditScoring.calculateCreditScore now c2 settings.
Proof.
  intros Ho Hr Hs. rewrite !scoring_score_by_bands. apply floorAndClamp_mono.
  unfold CreditScoring.recentOrders. rewrite Ho, Hr.
  pose proof (totalSpentBand_mono _ _ Hs).
  pose proof (avgOrderValueBand_mono (Customer.totalOrders c2) _ _ Hs). lia.
Qed.

Lemma X23_scoring_score_monotone_in_spend_witness :
  CreditScoring.calculateCreditScore 0 Sample.customer1 None
  <= CreditScoring.calculateCreditScore 0 (Customer.mk "cust1" "shop1" 3 9000 None) None.
Proof.
  apply (X23_scoring_score_monotone_in_spend 0 Sample.customer1
           (Customer.mk "cust1" "shop1" 3 9000 None) None);
    [reflexivity | reflexivity | cbn; lia].
Defined.

(** X24. The listing of the scoring route reads customers without their
    orders, so its refresh counts no recent order: the score it stores
    is never above the score the scoring [POST] computes for the same
    customer, clock and settings. *)
Theorem X24_refresh_score_not_above_post_score now customer settings :
  CreditScoring.calculateCreditScore now
    (CreditScoringRoute.selectCustomer customer) settings
  <= CreditScoring.calculateCreditScore now customer settings.
Proof.
  rewrite !scoring_score_by_bands. apply floorAndClamp_mono.
  cbn [CreditScoringRoute.selectCustomer Customer.totalOrders Customer.totalSpent].
  unfold CreditScoring.recentOrders at 1.
  cbn [CreditScoringRoute.selectCustomer Customer.orders List.length Z.of_nat].
  change (Z.of_nat 0) with 0.
  pose proof (recentBand_least
                (Z.of_nat (List.length (CreditScoring.recentOrders now customer)))).
  lia.
Qed.

(** X25. [getCreditRecommendations] returns at most three
    recommendations; the RISK recommendation is present exactly when the
    score is below 60, it then comes first, and it never comes together
    with the RETENTION recommendation. *)
Theorem X25_recommendations now score customer settings :
  let recs :=
    CreditScoringRoute.getCreditRecommendations now score customer settings in
  (List.length recs <= 3)%nat /\
  (existsb (fun r => String.eqb (Recommendation.type r) "RISK") recs
     = (score <? 60)) /\
  (score < 60 ->
   option_map Recommendation.type (List.hd_error recs) = Some "RISK"%string) /\
  (existsb (fun r => String.eqb (Recommendation.type r) "RISK") recs
   && existsb (fun r => String.eqb (Recommendation.type r) "RETENTION") recs
     = false).
Proof.
  unfold CreditScoringRoute.getCreditRecommendations. cbv zeta.
  destruct (Z.ltb_spec score 60) as [H60 | H60];
    destruct (Customer.totalOrders customer <? 10);
    destruct (Customer.totalSpent customer >? 10000);
    destruct (Z.ltb_spec score 80);
    destruct (Z.of_nat (List.length (CreditScoring.recentOrders now customer)) =? 0);
    rewrite ?(Z.gtb_ltb score 70);
    destruct (Z.ltb_spec 70 score);
    cbn; repeat split; try lia; try reflexivity.
Qed.

Lemma X25_recommendations_witness :
  option_map Recommendation.type
    (List.hd_error
       (CreditScoringRoute.getCreditRecommendations 1000 45 Sample.customer1 None))
  = Some "RISK"%string.
Proof.
  refine (proj1 (proj2 (proj2 (X25_recommendations 1000 45 Sample.customer1 None))) _).
  lia.
Defined.

(** The database an accepted transaction request leaves behind, and the
    response, in closed form. *)
Lemma POST_success_shape auth body now db resp db' :
  POST auth body now db = (resp, db') -> isSuccess resp = true ->
  exists shop v acc nb na tx,
    auth = Some shop /\ transactionSchema body = Some v /\
    findAccount (ValidatedData.accountId v) shop db = Some acc /\
    applyType (ValidatedData.type v) (ValidatedData.amount v)
      (CreditAccount.currentBalance acc) (CreditAccount.availableCredit acc)
      = (nb, na) /\
    resp = TransactionProcessed tx nb (Z.min (CreditAccount.creditLimit acc) na)
             (CreditAccount.creditScore acc) /\
    db' =
      updateIfAny (ValidatedData.accountId v)
        (if isPayment (ValidatedData.type v) then Some now else None)
        (if isPayment (ValidatedData.type v) then
           match customers db !! CreditAccount.customerId acc with
           | Some customer =>
               if calculateCreditScore customer (creditSettings db !! shop)
                  =? CreditAccount.creditScore acc
               then None
               else Some (calculateCreditScore customer (creditSettings db !! shop))
           | None => None
           end
         else None)
        (updateAccount (ValidatedData.accountId v)
           (setBalances nb (Z.min (CreditAccount.creditLimit acc) na) now)
           (createTransaction tx db)).
Proof.
  unfold POST. intros H Hok.
  destruct auth as [shop |]; [| rejected H Hok].
  destruct (transactionSchema body) as [v |]; [| rejected H Hok].
  destruct (findAccount (ValidatedData.accountId v) shop db) as [acc |] eqn:Hfind;
    [| rejected H Hok].
  destruct (CreditAccount.isActive acc) eqn:Hact; [| rejected H Hok].
  cbn [negb] in H.
  destruct (applyType _ _ _ _) as [nb na] eqn:Happ.
  destruct (nb >? CreditAccount.creditLimit acc) eqn:Hlim; [rejected H Hok |].
  rewrite clamp_is_min in H. injection H as <- <-.
  eexists shop, v, acc, nb, na, _. now repeat split.
Qed.

Lemma updateIfAny_frame id lp sc d :
  creditTransactions (updateIfAny id lp sc d) = creditTransactions d /\
  customers (updateIfAny id lp sc d) = customers d /\
  creditSettings (updateIfAny id lp sc d) = creditSettings d /\
  forall other, other <> id ->
    creditAccounts (updateIfAny id lp sc d) !! other = creditAccounts d !! other.
Proof.
  destruct lp, sc; cbn; repeat split; intros; try reflexivity;
    now apply lookup_alter_ne.
Qed.



(** X19. An accepted transaction request appends exactly one ledger row
    and touches no other account, no customer and no settings row; on
    the account itself the limit, the owner, the shop and the active
    flag stay as they were. *)
Theorem X19_transaction_frame auth body now db resp db' :
  POST auth body now db = (resp, db') -> isSuccess resp = true ->
  exists v acc acc' tx,
    transactionSchema body = Some v /\
    creditAccounts db !! ValidatedData.accountId v = Some acc /\
    creditAccounts db' !! ValidatedData.accountId v = Some acc' /\
    creditTransactions db' = creditTransactions db ++ [tx] /\
    (forall other, other <> ValidatedData.accountId v ->
       creditAccounts db' !! other = creditAccounts db !! other) /\
    customers db' = customers db /\
    creditSettings db' = creditSettings db /\
    CreditAccount.creditLimit acc' = CreditAccount.creditLimit acc /\
    CreditAccount.customerId acc' = CreditAccount.customerId acc /\
    CreditAccount.shopId acc' = CreditAccount.shopId acc /\
    CreditAccount.isActive acc' = CreditAccount.isActive acc.
Proof.
  intros H Hok.
  destruct (POST_success_shape _ _ _ _ _ _ H Hok)
    as (shop & v & acc & nb & na & tx & _ & Hv & Hfind & _ & _ & ->).
  destruct (findAccount_lookup _ _ _ _ Hfind) as [Hlook _].
  match goal with
  | |- context [updateIfAny ?i ?lp ?sc ?d0] =>
      destruct (updateIfAny_frame i lp sc d0) as (Ht & Hc & Hs & Ho);
      assert (Hd : creditAccounts d0 !! i
                   = Some (setBalances nb (Z.min (CreditAccount.creditLimit acc) na)
                             now acc))
        by (cbn [updateAccount createTransaction creditAccounts];
            now rewrite lookup_alter_eq, Hlook);
      destruct (second_update_preserves i lp sc d0 _ Hd)
        as (_ & acc' & Hacc' & _ & _ & Hl)
  end.
  exists v, acc, acc', tx.
  split; [exact Hv |]. split; [exact Hlook |]. split; [exact Hacc' |].
  split; [rewrite Ht; reflexivity |].
  split; [intros other Hother; rewrite (Ho other Hother);
          cbn [updateAccount createTransaction creditAccounts];
          now apply lookup_alter_ne |].
  split; [rewrite Hc; reflexivity |]. split; [rewrite Hs; reflexivity |].
  split; [rewrite Hl; reflexivity |].
  cbv zeta in Hacc'. unfold updateIfAny in Hacc'.
  destruct (if isPayment _ then Some now else None) as [lp |];
    [| destruct (if isPayment _ then _ else None) as [sc |]];
    cbn [updateAccount createTransaction creditAccounts] in Hacc';
    rewrite ?lookup_alter_eq, Hlook in Hacc'; injection Hacc' as <-; now repeat split.
Qed.

Lemma X19_transaction_frame_witness :
  exists v acc acc' tx,
    transactionSchema (requestBody "acc1" PAYMENT 20) = Some v /\
    creditAccounts Sample.db1 !! ValidatedData.accountId v = Some acc /\
    creditAccounts (snd (POST (Some "shop1"%string) (requestBody "acc1" PAYMENT 20) 1000
                           Sample.db1)) !! ValidatedData.accountId v = Some acc' /\
    creditTransactions (snd (POST (Some "shop1"%string) (requestBody "acc1" PAYMENT 20)
                               1000 Sample.db1))
      = creditTransactions Sample.db1 ++ [tx] /\
    (forall other, other <> ValidatedData.accountId v ->
       creditAccounts (snd (POST (Some "shop1"%string) (requestBody "acc1" PAYMENT 20)
                              1000 Sample.db1)) !! other
       = creditAccounts Sample.db1 !! other) /\
    customers (snd (POST (Some "shop1"%string) (requestBody "acc1" PAYMENT 20) 1000
                      Sample.db1)) = customers Sample.db1 /\
    creditSettings (snd (POST (Some "shop1"%string) (requestBody "acc1" PAYMENT 20) 1000
                           Sample.db1)) = creditSettings Sample.db1 /\
    CreditAccount.creditLimit acc' = CreditAccount.creditLimit acc /\
    CreditAccount.customerId acc' = CreditAccount.customerId acc /\
    CreditAccount.shopId acc' = CreditAccount.shopId acc /\
    CreditAccount.isActive acc' = CreditAccount.isActive acc.
Proof.
  apply (X19_transaction_frame (Some "shop1"%string) (requestBody "acc1" PAYMENT 20)
           1000 Sample.db1
           (fst (POST (Some "shop1"%string) (requestBody "acc1" PAYMENT 20) 1000
                   Sample.db1))).
  - vm_compute; reflexivity.
  - vm_compute; reflexivity.
Defined.

(** X20. An accepted PAYMENT stamps [lastPaymentDate] with the clock and,
    when the customer row exists, stores the recomputed score; a request
    of any other type leaves both as they were.  In every case the
    score in the response is the score the account had before the
    request. *)
Theorem X20_payment_stamp_and_score shop body now db resp db' v acc :
  POST (Some shop) body now db = (resp, db') -> isSuccess resp = true ->
  transactionSchema body = Some v ->
  creditAccounts db !! ValidatedData.accountId v = Some acc ->
  exists acc' tx newBalance newAvailableCredit,
    creditAccounts db' !! ValidatedData.accountId v = Some acc' /\
    resp = TransactionProcessed tx newBalance newAvailableCredit
             (CreditAccount.creditScore acc) /\
    (ValidatedData.type v = PAYMENT ->
     CreditAccount.lastPaymentDate acc' = Some now /\
     forall customer,
       customers db !! CreditAccount.customerId acc = Some customer ->
       CreditAccount.creditScore acc'
         = calculateCreditScore customer (creditSettings db !! shop)) /\
    (ValidatedData.type v <> PAYMENT ->
     CreditAccount.lastPaymentDate acc' = CreditAccount.lastPaymentDate acc /\
     CreditAccount.creditScore acc' = CreditAccount.creditScore acc).
Proof.
  intros H Hok Hv Hacc.
  destruct (POST_success_shape _ _ _ _ _ _ H Hok)
    as (shop0 & v0 & acc0 & nb & na & tx & Hs & Hv0 & Hfind & _ & -> & ->).
  injection Hs as <-. rewrite Hv in Hv0. injection Hv0 as <-.
  destruct (findAccount_lookup _ _ _ _ Hfind) as [Hlook _].
  rewrite Hacc in Hlook. injection Hlook as <-.
  destruct (ValidatedData.type v) eqn:Hty; cbn [isPayment updateIfAny];
    try (eexists _, tx, nb, _;
         split; [cbn [updateAccount createTransaction creditAccounts];
                 rewrite lookup_alter_eq, Hacc; reflexivity |];
         split; [reflexivity |]; split; [discriminate | now intros _]).
  destruct (customers db !! CreditAccount.customerId acc) as [customer |] eqn:Hc.
  - destruct (Z.eqb_spec (calculateCreditScore customer (creditSettings db !! shop))
                (CreditAccount.creditScore acc)) as [E | E];
      (eexists _, tx, nb, _;
       split; [cbn [updateAccount createTransaction creditAccounts];
               rewrite !lookup_alter_eq, Hacc; reflexivity |];
       split; [reflexivity |]; split; [| intros C; now contradiction C]);
      intros _; (split; [reflexivity |]); intros c [= <-]; cbn; congruence.
  - eexists _, tx, nb, _.
    split; [cbn [updateAccount createTransaction creditAccounts];
            rewrite !lookup_alter_eq, Hacc; reflexivity |].
    split; [reflexivity |]. split; [| intros C; now contradiction C].
    intros _. split; [reflexivity |]. intros c Hc'. discriminate Hc'.
Qed.

Lemma X20_payment_stamp_and_score_witness :
  exists acc' tx newBalance newAvailableCredit,
    creditAccounts
      (snd (POST (Some "shop1"%string) (requestBody "acc1" PAYMENT 20) 1000 Sample.db1))
      !! ValidatedData.accountId (ValidatedData.mk "acc1" PAYMENT 20 None None None)
      = Some acc' /\
    fst (POST (Some "shop1"%string) (requestBody "acc1" PAYMENT 20) 1000 Sample.db1)
      = TransactionProcessed tx newBalance newAvailableCredit
          (CreditAccount.creditScore Sample.account1) /\
    (ValidatedData.type (ValidatedData.mk "acc1" PAYMENT 20 None None None) = PAYMENT ->
     CreditAccount.lastPaymentDate acc' = Some 1000 /\
     forall customer,
       customers Sample.db1 !! CreditAccount.customerId Sample.account1
         = Some customer ->
       CreditAccount.creditScore acc'
         = calculateCreditScore customer (creditSettings Sample.db1 !! "shop1"%string)) /\
    (ValidatedData.type (ValidatedData.mk "acc1" PAYMENT 20 None None None) <> PAYMENT ->
     CreditAccount.lastPaymentDate acc'
       = CreditAccount.lastPaymentDate Sample.account1 /\
     CreditAccount.creditScore acc' = CreditAccount.creditScore Sample.account1).
Proof.
  apply (X20_payment_stamp_and_score "shop1" (requestBody "acc1" PAYMENT 20) 1000
           Sample.db1).
  - vm_compute; reflexivity.
  - vm_compute; reflexivity.
  - reflexivity.
  - vm_compute; reflexivity.
Defined.

Lemma sum_bounds (scores : list Z) acc :
  Forall (fun x => 0 <= x <= 100) scores ->
  acc <= fold_left Z.add scores acc <= acc + 100 * Z.of_nat (List.length scores).
Proof.
  intros H. revert acc. induction H as [| x l Hx _ IH]; intros acc.
  - cbn. lia.
  - cbn [fold_left List.length]. specialize (IH (acc + x)). lia.
Qed.

Lemma roundedAverage_range scores :
  Forall (fun x => 0 <= x <= 100) scores ->
  0 <= CreditScoringRoute.roundedAverage scores <= 100.
Proof.
  intros H. unfold CreditScoringRoute.roundedAverage. cbv zeta.
  pose proof (sum_bounds scores 0 H) as B.
  destruct (Z.eqb_spec (Z.of_nat (List.length scores)) 0) as [| Hne]; [lia |].
  set (n := Z.of_nat (List.length scores)) in *.
  set (sum := fold_left Z.add scores 0) in *.
  assert (0 < n) by lia. split.
  - apply Z.div_pos; lia.
  - assert ((2 * sum + n) / (2 * n) < 101); [| lia].
    apply Z.div_lt_upper_bound; lia.
Qed.

Lemma count_filter_map {A B} (f : B -> bool) (g : A -> B) (l : list A) :
  CreditScoringRoute.countIf f (map g l) =
  CreditScoringRoute.countIf (fun x => f (g x)) l.
Proof.
  unfold CreditScoringRoute.countIf. f_equal.
  induction l as [| x l IH]; [reflexivity |].
  cbn. destruct (f (g x)); cbn; now rewrite IH.
Qed.

(** X26. In the answer of the scoring [GET] the summary agrees with the
    listing: [totalAccounts] is the number of listed accounts,
    [highRiskAccounts] the number of them whose risk level is HIGH,
    every risk level is the level of the listed score, the active count
    does not exceed the total, and the average lies between 0 and 100
    when every listed score does. *)
Theorem X26_scoring_summary_agrees_with_listing auth refresh now db summary listing
    db' :
  CreditScoringRoute.GET auth refresh now db = (inr (summary, listing), db') ->
  ScoringSummary.totalAccounts summary = Z.of_nat (List.length listing) /\
  ScoringSummary.highRiskAccounts summary =
    CreditScoringRoute.countIf
      (fun row => match snd row with HIGH => true | _ => false end) listing /\
  Forall (fun row =>
            snd row = CreditScoringRoute.getRiskLevel
                        (CreditAccount.creditScore (fst row))) listing /\
  0 <= ScoringSummary.activeAccounts summary
    <= ScoringSummary.totalAccounts summary /\
  (Forall (fun row => 0 <= CreditAccount.creditScore (fst row) <= 100) listing ->
   0 <= ScoringSummary.avgCreditScore summary <= 100).
Proof.
  unfold CreditScoringRoute.GET. intros H.
  destruct auth as [shop |]; [| discriminate H]. cbv zeta in H.
  injection H as <- <- _.
  set (rows := map _ (CreditScoringRoute.shopAccounts shop db)).
  cbn [ScoringSummary.totalAccounts ScoringSummary.highRiskAccounts
       ScoringSummary.activeAccounts ScoringSummary.avgCreditScore].
  split; [now rewrite length_map |].
  split.
  { rewrite count_filter_map. unfold CreditScoringRoute.countIf. do 2 f_equal.
    apply filter_ext. intros a. cbn [snd]. unfold CreditScoringRoute.getRiskLevel.
    rewrite !Z.geb_leb.
    destruct (Z.ltb_spec (CreditAccount.creditScore a) 60);
      destruct (Z.leb_spec 80 (CreditAccount.creditScore a));
      destruct (Z.leb_spec 60 (CreditAccount.creditScore a)); (reflexivity || lia). }
  split; [apply Forall_map, Forall_forall; now intros |].
  split.
  { unfold CreditScoringRoute.countIf. pose proof (filter_length_le CreditAccount.isActive rows).
    lia. }
  intros Hall. apply roundedAverage_range.
  rewrite Forall_map in Hall. now rewrite Forall_map.
Qed.

Lemma X26_scoring_summary_agrees_with_listing_witness :
  let r :=
    match fst (CreditScoringRoute.GET (Some "shop1"%string) true 1000 Sample.db1) with
    | inr r => r
    | inl _ => (ScoringSummary.mk 0 0 0 0, [])
    end in
  ScoringSummary.totalAccounts (fst r) = Z.of_nat (List.length (snd r)).
Proof.
  cbv zeta.
  refine (proj1 (X26_scoring_summary_agrees_with_listing (Some "shop1"%string) true
                   1000 Sample.db1 _ _
                   (snd (CreditScoringRoute.GET (Some "shop1"%string) true 1000
                           Sample.db1)) _)).
  vm_compute. reflexivity.
Defined.

Lemma sameExceptScores_refl db : sameExceptScores db db.
Proof. now repeat split. Qed.

Lemma sameExceptScores_update db d id score :
  sameExceptScores db d ->
  sameExceptScores db
    (updateAccount id (CreditScoringRoute.setCreditScore score) d).
Proof.
  intros (Ht & Hc & Hs & Ha). repeat split; try assumption.
  intros k. cbn [updateAccount creditAccounts]. rewrite <- Ha.
  destruct (decide (id = k)) as [-> | Hne].
  - rewrite lookup_alter_eq. now destruct (creditAccounts d !! k).
  - now rewrite lookup_alter_ne.
Qed.

Lemma refresh_sameExceptScores (g : Customer.t -> Z)
    (rows : list (string * CreditAccount.t * Customer.t)) db d :
  sameExceptScores db d ->
  sameExceptScores db
    (fold_left
       (fun d row =>
          let '(id, account, customer) := row in
          updateAccount id (CreditScoringRoute.setCreditScore (g customer)) d)
       rows d).
Proof.
  revert d. induction rows as [| [[id account] customer] rows IH]; intros d H.
  - exact H.
  - cbn [fold_left]. apply IH. now apply sameExceptScores_update.
Qed.

(** X27. The scoring handlers write credit scores and nothing else: after
    the scoring [POST], and after the scoring [GET] with or without
    refresh, the ledger, the customers and the settings are as before and
    every account row differs from the old one at most in its
    [creditScore]; no account appears or disappears.  Without refresh the
    [GET] writes nothing at all. *)
Theorem X27_scoring_writes_scores_only auth customerId refresh now db :
  sameExceptScores db (snd (CreditScoringRoute.POST auth customerId now db)) /\
  sameExceptScores db (snd (CreditScoringRoute.GET auth refresh now db)) /\
  snd (CreditScoringRoute.GET auth false now db) = db.
Proof.
  split; [| split].
  - unfold CreditScoringRoute.POST.
    destruct auth as [shop |]; [| apply sameExceptScores_refl].
    destruct (CreditAccounts.findCustomer customerId shop db);
      [| apply sameExceptScores_refl].
    cbn [snd].
    destruct (CreditScoringRoute.findCustomerAccount customerId shop db)
      as [[id a] |]; [| apply sameExceptScores_refl].
    apply sameExceptScores_update, sameExceptScores_refl.
  - unfold CreditScoringRoute.GET.
    destruct auth as [shop |]; [| apply sameExceptScores_refl].
    cbn [snd]. destruct refresh; [| apply sameExceptScores_refl].
    apply (refresh_sameExceptScores
             (fun customer =>
                CreditScoring.calculateCreditScore now customer
                  (creditSettings db !! shop))).
    apply sameExceptScores_refl.
  - unfold CreditScoringRoute.GET. now destruct auth.
Qed.

Lemma existingAccount_after_insert customer shop id acc accounts txs cs st :
  CreditAccount.customerId acc = customer ->
  CreditAccount.shopId acc = shop ->
  CreditAccounts.existingAccount customer shop
    (mkDb (<[id := acc]> accounts) txs cs st) = true.
Proof.
  intros Hc Hs. unfold CreditAccounts.existingAccount. apply existsb_exists.
  exists (id, acc). split.
  - apply list_elem_of_In, elem_of_map_to_list. cbn. apply lookup_insert_eq.
  - cbn [snd]. rewrite Hc, Hs, !String.eqb_refl. reflexivity.
Qed.

(** X28. Once an account has been created for a customer, the same
    creation request is refused, whatever the clock and the key offered:
    the answer is status 400, "Credit account already exists for this
    customer", and nothing is written. *)
Theorem X28_second_account_refused d auth body now newId db acc db' now2 newId2 :
  CreditAccounts.POST d auth body now newId db = (AccountCreated acc, db') ->
  CreditAccounts.POST d auth body now2 newId2 db'
  = (Message 400 "Credit account already exists for this customer", db').
Proof.
  unfold CreditAccounts.POST. intros H.
  destruct auth as [shop |]; [| discriminate H].
  destruct (CreditAccounts.createCreditAccountSchema body) as [v |];
    [| discriminate H].
  destruct (negb _); [discriminate H |].
  destruct (CreditAccounts.findCustomer _ _ db) as [customer |] eqn:Hc;
    [| discriminate H].
  destruct (CreditAccounts.existingAccount _ _ db); [discriminate H |].
  injection H as _ <-.
  unfold CreditAccounts.findCustomer in *.
  cbn [createTransaction customers creditAccounts creditTransactions creditSettings].
  rewrite Hc.
  unfold createTransaction.
  cbn [customers creditAccounts creditTransactions creditSettings].
  now rewrite existingAccount_after_insert.
Qed.

Lemma X28_second_account_refused_witness :
  CreditAccounts.POST 0 (Some "shop1"%string)
    (CreditAccounts.requestBody "cust1" "shop1" 100) 2000 "acc3"
    (snd (CreditAccounts.POST 0 (Some "shop1"%string)
            (CreditAccounts.requestBody "cust1" "shop1" 100) 1000 "acc2" Sample.db0))
  = (Message 400 "Credit account already exists for this customer",
     snd (CreditAccounts.POST 0 (Some "shop1"%string)
            (CreditAccounts.requestBody "cust1" "shop1" 100) 1000 "acc2" Sample.db0)).
Proof.
  refine (X28_second_account_refused 0 (Some "shop1"%string)
            (CreditAccounts.requestBody "cust1" "shop1" 100) 1000 "acc2" Sample.db0
            _ _ 2000 "acc3" _).
  vm_compute. reflexivity.
Defined.

Lemma findActiveAccount_found customer shop db id acc :
  Payments.findActiveAccount customer shop db = Some (id, acc) ->
  creditAccounts db !! id = Some acc /\
  CreditAccount.customerId acc = customer /\
  CreditAccount.shopId acc = shop /\
  CreditAccount.isActive acc = true.
Proof.
  unfold Payments.findActiveAccount. intros H.
  apply find_some in H as [Hin Hb]. cbn [snd] in Hb.
  apply andb_true_iff in Hb as [Hb Hact].
  apply andb_true_iff in Hb as [Hc Hs].
  apply String.eqb_eq in Hc, Hs.
  apply list_elem_of_In, elem_of_map_to_list in Hin. now repeat split.
Qed.

(** X29. [processCreditPayment] writes nothing when the customer has no
    active account in the shop.  Otherwise it picks an active account of
    that customer and shop, stores [currentBalance - amount] as its
    balance and [availableCredit + amount] as its available credit,
    without comparing either with the credit limit; it stamps the
    payment date, adds one PAYMENT row holding the new balance, and
    leaves the credit limit, the score, every other account, the
    customers and the settings alone. *)
Theorem X29_processCreditPayment customer shop amount reference now db :
  let db' := Payments.processCreditPayment customer shop amount reference now db in
  match Payments.findActiveAccount customer shop db with
  | None => db' = db
  | Some (id, acc) =>
      creditAccounts db !! id = Some acc /\
      CreditAccount.customerId acc = customer /\
      CreditAccount.shopId acc = shop /\
      CreditAccount.isActive acc = true /\
      exists acc' tx,
        creditAccounts db' !! id = Some acc' /\
        CreditAccount.currentBalance acc' = CreditAccount.currentBalance acc - amount /\
        CreditAccount.availableCredit acc'
          = CreditAccount.availableCredit acc + amount /\
        CreditAccount.creditLimit acc' = CreditAccount.creditLimit acc /\
        CreditAccount.creditScore acc' = CreditAccount.creditScore acc /\
        CreditAccount.lastPaymentDate acc' = Some now /\
        creditTransactions db' = creditTransactions db ++ [tx] /\
        CreditTransaction.accountId tx = id /\
        CreditTransaction.type tx = PAYMENT /\
        CreditTransaction.amount tx = amount /\
        CreditTransaction.balance tx = CreditAccount.currentBalance acc' /\
        (forall other, other <> id ->
           creditAccounts db' !! other = creditAccounts db !! other) /\
        customers db' = customers db /\
        creditSettings db' = creditSettings db
  end.
Proof.
  cbv zeta. unfold Payments.processCreditPayment.
  destruct (Payments.findActiveAccount customer shop db) as [[id acc] |] eqn:Hf;
    [| reflexivity].
  destruct (findActiveAccount_found _ _ _ _ _ Hf) as (Hl & Hc & Hs & Hact).
  repeat (split; [assumption |]).
  eexists _, _.
  split.
  { cbn [updateAccount createTransaction creditAccounts].
    rewrite lookup_alter_eq, Hl. reflexivity. }
  cbn [Payments.setPayment CreditAccount.currentBalance CreditAccount.availableCredit
       CreditAccount.creditLimit CreditAccount.creditScore
       CreditAccount.lastPaymentDate].
  repeat (split; [first [reflexivity | lia] |]).
  split; [| now split].
  intros other Hne. cbn [updateAccount createTransaction creditAccounts].
  now apply lookup_alter_ne.
Qed.

End CreditExtras.
